(** * lua-mosquitto: the Lua binding of the libmosquitto MQTT client

    A shallow embedding of [lua-mosquitto.c].  The binding is a set of Lua C
    functions: each one reads its arguments from the Lua stack, calls into
    libmosquitto, and reports the library's status through [mosq__pstatus].
    libmosquitto (the codec), liblua and libc are outside the repository;
    their replies are inputs of the model ([codec_reply], [host]), and every
    call made into the codec is recorded in [codec_log]. *)

From Stdlib Require Import ZArith String Ascii List Bool Lia DecimalString.
From stdpp Require Import gmap strings.

Local Open Scope string_scope.
Local Open Scope Z_scope.

(** ** Constants *)

(** The callback types of [lua-mosquitto.c] (re-used MQTT v3 message types
    and two extra ones). *)
Definition CONNECT : Z := 0x10.
Definition PUBLISH : Z := 0x30.
Definition SUBSCRIBE : Z := 0x80.
Definition UNSUBSCRIBE : Z := 0xA0.
Definition DISCONNECT : Z := 0xE0.
Definition MESSAGE : Z := 0x01.
Definition LOG : Z := 0x02.

(** [enum connect_return_codes]. *)
Definition CONN_ACCEPT : Z := 0.
Definition CONN_REF_BAD_PROTOCOL : Z := 1.
Definition CONN_REF_BAD_ID : Z := 2.
Definition CONN_REF_SERVER_NOAVAIL : Z := 3.
Definition CONN_REF_BAD_LOGIN : Z := 4.
Definition CONN_REF_NO_AUTH : Z := 5.
Definition CONN_REF_BAD_TLS : Z := 6.

Definition MOSQ_META_CTX : string := "mosquitto.ctx".

(** [enum mosq_err_t] and the other constants the binding takes from
    libmosquitto's public header [mosquitto.h]. *)
Definition MOSQ_ERR_SUCCESS : Z := 0.
Definition MOSQ_ERR_NOMEM : Z := 1.
Definition MOSQ_ERR_PROTOCOL : Z := 2.
Definition MOSQ_ERR_INVAL : Z := 3.
Definition MOSQ_ERR_NO_CONN : Z := 4.
Definition MOSQ_ERR_CONN_REFUSED : Z := 5.
Definition MOSQ_ERR_NOT_FOUND : Z := 6.
Definition MOSQ_ERR_CONN_LOST : Z := 7.
Definition MOSQ_ERR_TLS : Z := 8.
Definition MOSQ_ERR_PAYLOAD_SIZE : Z := 9.
Definition MOSQ_ERR_NOT_SUPPORTED : Z := 10.
Definition MOSQ_ERR_AUTH : Z := 11.
Definition MOSQ_ERR_ACL_DENIED : Z := 12.
Definition MOSQ_ERR_UNKNOWN : Z := 13.
Definition MOSQ_ERR_ERRNO : Z := 14.

Definition MOSQ_LOG_NONE : Z := 0x00.
Definition MOSQ_LOG_INFO : Z := 0x01.
Definition MOSQ_LOG_NOTICE : Z := 0x02.
Definition MOSQ_LOG_WARNING : Z := 0x04.
Definition MOSQ_LOG_ERR : Z := 0x08.
Definition MOSQ_LOG_DEBUG : Z := 0x10.
Definition MOSQ_LOG_ALL : Z := 0xFFFF.

Definition MQTT_PROTOCOL_V31 : Z := 3.
Definition MQTT_PROTOCOL_V311 : Z := 4.
Definition MOSQ_OPT_PROTOCOL_VERSION : Z := 1.

(** Constants of [lua.h] and [lauxlib.h]. *)
Definition LUA_NOREF : Z := -2.
Definition LUA_REFNIL : Z := -1.
Definition LUA_ERRRUN : Z := 2.
Definition FREELIST_REF : Z := 0.
Definition LUAI_MAXCCALLS : nat := 200.

Definition LUA_TNONE : Z := -1.
Definition LUA_TNIL : Z := 0.
Definition LUA_TBOOLEAN : Z := 1.
Definition LUA_TLIGHTUSERDATA : Z := 2.
Definition LUA_TNUMBER : Z := 3.
Definition LUA_TSTRING : Z := 4.
Definition LUA_TTABLE : Z := 5.
Definition LUA_TFUNCTION : Z := 6.
Definition LUA_TUSERDATA : Z := 7.

(** A C [int]: the value a wider integer has after conversion to 32 bits. *)
Definition c_int (z : Z) : Z := (z + 2 ^ 31) mod 2 ^ 32 - 2 ^ 31.

(** ** Values *)

(** [struct mosquitto_message], as far as the binding reads it. *)
Record mosquitto_message := {
  msg_mid : Z;
  msg_topic : string;
  msg_payload : string;
  msg_qos : Z;
  msg_retain : bool;
}.

(** What a light userdata pushed by the binding points to. *)
Inductive c_object :=
| CMessage (msg : mosquitto_message)
| CString (str : string).

(** The C functions of the binding that are pushed as Lua values. *)
Inductive cfunction :=
| Ctx_on_connect_safe
| Ctx_on_disconnect_safe
| Ctx_on_message_safe
| Ctx_on_log_safe.

(** Lua values.  Numbers are integers; tables, userdata and the functions
    of the host program are named by their address. *)
Inductive lua_value :=
| LNil
| LBoolean (b : bool)
| LLightuserdata (p : c_object)
| LNumber (n : Z)
| LString (s : string)
| LTable (t : nat)
| LFunction (f : nat)
| LCFunction (c : cfunction)
| LUserdata (u : nat).

Definition lua_thread := nat.

(** [ctx_t]: [ctx_L] is the [lua_State *L] back-reference ([None] is NULL),
    [ctx_mosq] the codec handle, the rest the registry references of the
    hooks. *)
Record ctx_t := mkCtx {
  ctx_L : option lua_thread;
  ctx_mosq : option nat;
  on_connect : Z;
  on_disconnect : Z;
  on_publish : Z;
  on_message : Z;
  on_subscribe : Z;
  on_unsubscribe : Z;
  on_log : Z;
}.

(** Protocol events libmosquitto reports to the callbacks registered with
    it. *)
Inductive mosq_event :=
| EvConnect (rc : Z)
| EvDisconnect (rc : Z)
| EvPublish (mid : Z)
| EvMessage (msg : mosquitto_message)
| EvSubscribe (mid : Z) (granted_qos : list Z)
| EvUnsubscribe (mid : Z)
| EvLog (level : Z) (str : string).

Definition event_kind (ev : mosq_event) : Z :=
  match ev with
  | EvConnect _ => CONNECT
  | EvDisconnect _ => DISCONNECT
  | EvPublish _ => PUBLISH
  | EvMessage _ => MESSAGE
  | EvSubscribe _ _ => SUBSCRIBE
  | EvUnsubscribe _ => UNSUBSCRIBE
  | EvLog _ _ => LOG
  end.

(** The calls the binding makes into libmosquitto, with their arguments. *)
Inductive codec_call :=
| Mosquitto_new (id : option string) (clean_session : bool) (obj : nat)
| Mosquitto_destroy (mosq : option nat)
| Mosquitto_reinitialise (mosq : option nat) (id : option string) (clean_session : bool) (obj : nat)
| Mosquitto_will_set (mosq : option nat) (topic : string) (payload : option string) (qos : Z) (retain : bool)
| Mosquitto_will_clear (mosq : option nat)
| Mosquitto_username_pw_set (mosq : option nat) (username password : option string)
| Mosquitto_tls_opts_set (mosq : option nat) (cert_reqs : Z) (tls_version ciphers : option string)
| Mosquitto_opts_set (mosq : option nat) (option : Z) (value : Z)
| Mosquitto_tls_set (mosq : option nat) (cafile capath certfile keyfile : option string)
| Mosquitto_tls_insecure_set (mosq : option nat) (value : bool)
| Mosquitto_tls_psk_set (mosq : option nat) (psk identity : string) (ciphers : option string)
| Mosquitto_threaded_set (mosq : option nat) (value : bool)
| Mosquitto_connect (mosq : option nat) (host : string) (port keepalive : Z)
| Mosquitto_connect_async (mosq : option nat) (host : string) (port keepalive : Z)
| Mosquitto_reconnect (mosq : option nat)
| Mosquitto_reconnect_delay_set (mosq : option nat) (delay delay_max : Z) (backoff : bool)
| Mosquitto_reconnect_async (mosq : option nat)
| Mosquitto_disconnect (mosq : option nat)
| Mosquitto_publish (mosq : option nat) (topic : string) (payload : option string) (qos : Z) (retain : bool)
| Mosquitto_subscribe (mosq : option nat) (sub : string) (qos : Z)
| Mosquitto_unsubscribe (mosq : option nat) (sub : string)
| Mosquitto_loop (mosq : option nat) (timeout max_packets : Z)
| Mosquitto_loop_forever (mosq : option nat) (timeout max_packets : Z)
| Mosquitto_loop_start (mosq : option nat)
| Mosquitto_loop_stop (mosq : option nat) (force : bool)
| Mosquitto_loop_read (mosq : option nat) (max_packets : Z)
| Mosquitto_loop_write (mosq : option nat) (max_packets : Z)
| Mosquitto_loop_misc (mosq : option nat)
| Mosquitto_callback_set (mosq : option nat) (kind : Z)
| Mosquitto_topic_matches_sub (sub topic : string).

(** What libmosquitto answers to one call: its return code, the message id
    it stored, the [errno] it left, the handle [mosquitto_new] returned
    ([None] is NULL), the flag [mosquitto_topic_matches_sub] stored, and the
    events it reported to the registered callbacks while the call ran (loop
    calls only). *)
Record codec_reply := {
  reply_rc : Z;
  reply_mid : Z;
  reply_errno : Z;
  reply_handle : option nat;
  reply_flag : bool;
  reply_events : list mosq_event;
}.

(** What the host process provides: the message tables of libmosquitto and
    libc, Lua's string-to-number coercion, the functions of the Lua program
    ([lua_closure f args] is [Some e] when the call raises [e], [None] when
    it returns), and the limit [lua_checkstack] enforces. *)
Class host := {
  mosquitto_strerror : Z -> string;
  strerror : Z -> string;
  lua_str2number : string -> option Z;
  lua_closure : nat -> list lua_value -> option lua_value;
  LUAI_MAXCSTACK : Z;
}.

(** ** The state of the Lua runtime and of the process *)

Record lua_State := mkState {
  stack : list lua_value;          (* the running C function's frame *)
  registry : gmap Z lua_value;     (* integer keys of the registry table *)
  named_meta : gmap string nat;    (* registry[tname], luaL_newmetatable *)
  udata : gmap nat ctx_t;          (* blocks of lua_newuserdata *)
  meta : gmap nat nat;             (* metatable of each table and userdata *)
  type_meta : gmap Z nat;          (* metatable of each basic type *)
  next_obj : nat;                  (* next fresh address *)
  errno : Z;
  codec_log : list codec_call;     (* newest first *)
  hook_log : list (nat * list lua_value);  (* calls of host functions, newest first *)
}.

Definition set_stack (x : list lua_value) (st : lua_State) : lua_State :=
  mkState x (registry st) (named_meta st) (udata st) (meta st) (type_meta st)
          (next_obj st) (errno st) (codec_log st) (hook_log st).
Definition set_registry (x : gmap Z lua_value) (st : lua_State) : lua_State :=
  mkState (stack st) x (named_meta st) (udata st) (meta st) (type_meta st)
          (next_obj st) (errno st) (codec_log st) (hook_log st).
Definition set_named_meta (x : gmap string nat) (st : lua_State) : lua_State :=
  mkState (stack st) (registry st) x (udata st) (meta st) (type_meta st)
          (next_obj st) (errno st) (codec_log st) (hook_log st).
Definition set_udata (x : gmap nat ctx_t) (st : lua_State) : lua_State :=
  mkState (stack st) (registry st) (named_meta st) x (meta st) (type_meta st)
          (next_obj st) (errno st) (codec_log st) (hook_log st).
Definition set_meta (x : gmap nat nat) (st : lua_State) : lua_State :=
  mkState (stack st) (registry st) (named_meta st) (udata st) x (type_meta st)
          (next_obj st) (errno st) (codec_log st) (hook_log st).
Definition set_type_meta (x : gmap Z nat) (st : lua_State) : lua_State :=
  mkState (stack st) (registry st) (named_meta st) (udata st) (meta st) x
          (next_obj st) (errno st) (codec_log st) (hook_log st).
Definition set_next_obj (x : nat) (st : lua_State) : lua_State :=
  mkState (stack st) (registry st) (named_meta st) (udata st) (meta st) (type_meta st)
          x (errno st) (codec_log st) (hook_log st).
Definition set_errno (x : Z) (st : lua_State) : lua_State :=
  mkState (stack st) (registry st) (named_meta st) (udata st) (meta st) (type_meta st)
          (next_obj st) x (codec_log st) (hook_log st).
Definition set_codec_log (x : list codec_call) (st : lua_State) : lua_State :=
  mkState (stack st) (registry st) (named_meta st) (udata st) (meta st) (type_meta st)
          (next_obj st) (errno st) x (hook_log st).
Definition set_hook_log (x : list (nat * list lua_value)) (st : lua_State) : lua_State :=
  mkState (stack st) (registry st) (named_meta st) (udata st) (meta st) (type_meta st)
          (next_obj st) (errno st) (codec_log st) x.

(** ** Outcomes *)

(** Lua errors, by the auxiliary-library function that raises them. *)
Inductive lua_error :=
| ErrArg (narg : Z) (extramsg : string)   (* luaL_argerror *)
| ErrType (narg : Z) (tname : string)     (* luaL_typerror *)
| ErrMsg (msg : string)                   (* luaL_error, runtime errors *)
| ErrValue (v : lua_value).               (* error raised by a host function *)

(** Undefined behaviour of the C code. *)
Inductive ub :=
| NullLuaState     (* a Lua API call on a NULL lua_State *)
| NullString       (* a C string function on a NULL pointer *)
| WildPointer.     (* anything else the C code must not do *)

(** A computation ends normally, by a Lua error (a longjmp out of the C
    function; the effects so far stay), or in undefined behaviour. *)
Inductive result (A : Type) :=
| Done (a : A) (st : lua_State)
| Raise (e : lua_error) (st : lua_State)
| Undef (u : ub).
Arguments Done {A} a st.
Arguments Raise {A} e st.
Arguments Undef {A} u.

Definition M (A : Type) : Type := lua_State -> result A.

Definition ret {A} (a : A) : M A := fun st => Done a st.

Definition bind {A B} (m : M A) (k : A -> M B) : M B := fun st =>
  match m st with
  | Done a st' => k a st'
  | Raise e st' => Raise e st'
  | Undef u => Undef u
  end.

Notation "'let*' x := m 'in' k" := (bind m (fun x => k))
  (at level 10, x name, m at level 100, k at level 200).
Notation "m >> k" := (bind m (fun _ => k))
  (at level 60, right associativity).

Definition reads {A} (f : lua_State -> A) : M A := fun st => Done (f st) st.
Definition modify (f : lua_State -> lua_State) : M unit := fun st => Done tt (f st).
Definition throw {A} (e : lua_error) : M A := fun st => Raise e st.
Definition undef {A} (u : ub) : M A := fun _ => Undef u.

(** A Lua API call through a [lua_State *] that may be NULL. *)
Definition with_state {A} (L : option lua_thread) (m : M A) : M A :=
  match L with
  | None => undef NullLuaState
  | Some _ => m
  end.

(** ** The Lua API, as far as the binding uses it *)

(** The value at a stack index: positive indices count from the bottom of
    the frame, negative ones from its top; [None] is an index above the top
    ([LUA_TNONE]). *)
Definition index2value (stk : list lua_value) (idx : Z) : option lua_value :=
  if 0 <? idx then stk !! Z.to_nat (idx - 1)
  else if (idx <? 0) && (0 <=? Z.of_nat (length stk) + idx)
       then stk !! Z.to_nat (Z.of_nat (length stk) + idx)
       else None.

Definition type_of (v : option lua_value) : Z :=
  match v with
  | None => LUA_TNONE
  | Some LNil => LUA_TNIL
  | Some (LBoolean _) => LUA_TBOOLEAN
  | Some (LLightuserdata _) => LUA_TLIGHTUSERDATA
  | Some (LNumber _) => LUA_TNUMBER
  | Some (LString _) => LUA_TSTRING
  | Some (LTable _) => LUA_TTABLE
  | Some (LFunction _) | Some (LCFunction _) => LUA_TFUNCTION
  | Some (LUserdata _) => LUA_TUSERDATA
  end.

(** A Lua string seen through a [const char *]: it ends at its first NUL. *)
Fixpoint c_str (s : string) : string :=
  match s with
  | EmptyString => EmptyString
  | String c rest => if Ascii.eqb c "000"%char then EmptyString else String c (c_str rest)
  end.

(** Lua's rendering of a number as a string, [lua_number2str]:
    [sprintf(s, "%.14g", n)] ([LUAI_NUMBER_FMT]), for the integral numbers
    of the model.  A number below 10^14 in magnitude is printed with all of
    its digits.  From 10^14 on it is rounded to 14 significant digits (to
    the nearest, a tie to the even one) and printed as one digit, the
    further digits without trailing zeros after a dot, and the decimal
    exponent: 10^14 is "1e+14". *)
Definition decimal (m : Z) : string := NilZero.string_of_uint (N.to_uint (Z.to_N m)).

Fixpoint strip_zeros (s : string) : string :=
  match s with
  | EmptyString => EmptyString
  | String c rest =>
      match strip_zeros rest with
      | EmptyString => if Ascii.eqb c "0"%char then EmptyString else String c EmptyString
      | r => String c r
      end
  end.

Definition round_half_even (a b : Z) : Z :=
  let q := a / b in
  let r := a mod b in
  if 2 * r <? b then q
  else if b <? 2 * r then q + 1
  else if Z.even q then q else q + 1.

(** The exponent style of ["%.14g"], for [m] from 10^14 on. *)
Definition sprintf_e14 (m : Z) : string :=
  let x := Z.of_nat (String.length (decimal m)) - 1 in
  let q := round_half_even m (10 ^ (x - 13)) in
  let carry := 10 ^ 14 <=? q in
  let q := if carry then 10 ^ 13 else q in
  let x := if carry then x + 1 else x in
  match decimal q with
  | String d rest =>
      String d (match strip_zeros rest with
                | EmptyString => EmptyString
                | frac => "." ++ frac
                end) ++ "e+" ++ decimal x
  | EmptyString => EmptyString
  end.

Definition lua_number2str (n : Z) : string :=
  if Z.abs n <? 10 ^ 14 then NilZero.string_of_int (Z.to_int n)
  else (if n <? 0 then "-" else "") ++ sprintf_e14 (Z.abs n).

(** [strstr]: the offset of the first occurrence of [needle], if any. *)
Definition strstr (haystack needle : string) : option nat := index 0 needle haystack.

(** [strcmp], up to the sign of its result. *)
Definition strcmp (s1 s2 : string) : Z :=
  match String.compare s1 s2 with
  | Eq => 0
  | Lt => -1
  | Gt => 1
  end.

Definition value_at (idx : Z) : M (option lua_value) :=
  reads (fun st => index2value (stack st) idx).

Definition lua_type (idx : Z) : M Z :=
  let* v := value_at idx in ret (type_of v).

Definition lua_isnil (idx : Z) : M bool :=
  let* t := lua_type idx in ret (t =? LUA_TNIL).

Definition lua_isnoneornil (idx : Z) : M bool :=
  let* t := lua_type idx in ret (t <=? 0).

Definition lua_isboolean (idx : Z) : M bool :=
  let* t := lua_type idx in ret (t =? LUA_TBOOLEAN).

Definition lua_isfunction (idx : Z) : M bool :=
  let* t := lua_type idx in ret (t =? LUA_TFUNCTION).

(** [lua_isstring] holds of strings and of numbers. *)
Definition lua_isstring (idx : Z) : M bool :=
  let* t := lua_type idx in ret ((t =? LUA_TSTRING) || (t =? LUA_TNUMBER)).

Definition lua_toboolean (idx : Z) : M bool :=
  let* v := value_at idx in
  ret (match v with
       | None | Some LNil | Some (LBoolean false) => false
       | Some _ => true
       end).

(** [lua_tolstring]: the bytes of a string, the rendering of a number, NULL
    for anything else.  (The C function also rewrites a number slot as a
    string; no binding function reads a slot again after converting it, so
    the frame is left as it is.) *)
Definition lua_tolstring (idx : Z) : M (option string) :=
  let* v := value_at idx in
  ret (match v with
       | Some (LString s) => Some s
       | Some (LNumber n) => Some (lua_number2str n)
       | _ => None
       end).

(** [lua_tostring]: the same pointer, read as a C string. *)
Definition lua_tostring (idx : Z) : M (option string) :=
  let* s := lua_tolstring idx in ret (c_str <$> s).

Definition lua_touserdata (idx : Z) : M (option c_object) :=
  let* v := value_at idx in
  ret (match v with
       | Some (LLightuserdata p) => Some p
       | _ => None
       end).

Definition lua_push (v : lua_value) : M unit :=
  modify (fun st => set_stack (stack st ++ [v]) st).

Definition lua_pushnil : M unit := lua_push LNil.
Definition lua_pushboolean (b : bool) : M unit := lua_push (LBoolean b).
Definition lua_pushinteger (n : Z) : M unit := lua_push (LNumber n).
Definition lua_pushstring (s : string) : M unit := lua_push (LString s).
Definition lua_pushlstring (s : string) : M unit := lua_push (LString s).
Definition lua_pushcfunction (c : cfunction) : M unit := lua_push (LCFunction c).
Definition lua_pushlightuserdata (p : c_object) : M unit := lua_push (LLightuserdata p).

Definition lua_pop (n : nat) : M unit :=
  modify (fun st => set_stack (take (length (stack st) - n)%nat (stack st)) st).

Definition luaL_argerror {A} (narg : Z) (extramsg : string) : M A := throw (ErrArg narg extramsg).
Definition luaL_typerror {A} (narg : Z) (tname : string) : M A := throw (ErrType narg tname).
Definition luaL_error {A} (msg : string) : M A := throw (ErrMsg msg).

Definition luaL_checklstring (narg : Z) : M string :=
  let* s := lua_tolstring narg in
  match s with
  | Some s => ret s
  | None => luaL_typerror narg "string"
  end.

(** [luaL_checkstring] and [luaL_optstring] hand out C strings. *)
Definition luaL_checkstring (narg : Z) : M string :=
  let* s := luaL_checklstring narg in ret (c_str s).

Definition luaL_optstring (narg : Z) (def : option string) : M (option string) :=
  let* absent := lua_isnoneornil narg in
  if absent then ret def
  else let* s := luaL_checkstring narg in ret (Some s).

(** Tables and userdata. *)
Definition lua_newtable : M unit :=
  modify (fun st => set_next_obj (S (next_obj st))
                      (set_stack (stack st ++ [LTable (next_obj st)]) st)).

(** [lua_newuserdata]: a fresh block, pushed on the stack.  Its content is
    indeterminate until the caller writes it; [blank_ctx] stands for it. *)
Definition blank_ctx : ctx_t := mkCtx None None 0 0 0 0 0 0 0.

Definition lua_newuserdata : M nat := fun st =>
  let u := next_obj st in
  Done u (set_next_obj (S u)
            (set_udata (<[u := blank_ctx]> (udata st))
               (set_stack (stack st ++ [LUserdata u]) st))).

Definition luaL_getmetatable (tname : string) : M unit :=
  let* mt := reads (fun st => named_meta st !! tname) in
  lua_push (match mt with Some t => LTable t | None => LNil end).

(** [lua_setmetatable]: pops a table (or nil) and makes it the metatable of
    the value at [idx]; for a value that is neither a table nor a userdata
    it becomes the metatable of the value's whole type. *)
Definition lua_setmetatable (idx : Z) : M unit := fun st =>
  let stk := stack st in
  match index2value stk idx, last stk with
  | Some v, Some top =>
      let st' := set_stack (removelast stk) st in
      match top with
      | LTable mt =>
          match v with
          | LTable o | LUserdata o => Done tt (set_meta (<[o := mt]> (meta st)) st')
          | _ => Done tt (set_type_meta (<[type_of (Some v) := mt]> (type_meta st)) st')
          end
      | LNil =>
          match v with
          | LTable o | LUserdata o => Done tt (set_meta (delete o (meta st)) st')
          | _ => Done tt (set_type_meta (delete (type_of (Some v)) (type_meta st)) st')
          end
      | _ => Undef WildPointer
      end
  | _, _ => Undef WildPointer
  end.

(** [luaL_checkudata]: the value must be a userdata whose metatable is the
    one registered under [tname]. *)
Definition luaL_checkudata (ud : Z) (tname : string) : M nat := fun st =>
  match index2value (stack st) ud with
  | Some (LUserdata u) =>
      match meta st !! u, named_meta st !! tname with
      | Some mt, Some t =>
          if bool_decide (mt = t) then Done u st else Raise (ErrType ud tname) st
      | _, _ => Raise (ErrType ud tname) st
      end
  | _ => Raise (ErrType ud tname) st
  end.

(** Reading and writing the fields of a [ctx_t] block. *)
Definition load {A} (ctx : nat) (field : ctx_t -> A) : M A := fun st =>
  match udata st !! ctx with
  | Some c => Done (field c) st
  | None => Undef WildPointer
  end.

Definition store (ctx : nat) (f : ctx_t -> ctx_t) : M unit := fun st =>
  match udata st !! ctx with
  | Some c => Done tt (set_udata (<[ctx := f c]> (udata st)) st)
  | None => Undef WildPointer
  end.

Definition set_ctx_L (x : option lua_thread) (c : ctx_t) : ctx_t :=
  mkCtx x (ctx_mosq c) (on_connect c) (on_disconnect c) (on_publish c)
        (on_message c) (on_subscribe c) (on_unsubscribe c) (on_log c).
Definition set_ctx_mosq (x : option nat) (c : ctx_t) : ctx_t :=
  mkCtx (ctx_L c) x (on_connect c) (on_disconnect c) (on_publish c)
        (on_message c) (on_subscribe c) (on_unsubscribe c) (on_log c).
Definition set_on_connect (x : Z) (c : ctx_t) : ctx_t :=
  mkCtx (ctx_L c) (ctx_mosq c) x (on_disconnect c) (on_publish c)
        (on_message c) (on_subscribe c) (on_unsubscribe c) (on_log c).
Definition set_on_disconnect (x : Z) (c : ctx_t) : ctx_t :=
  mkCtx (ctx_L c) (ctx_mosq c) (on_connect c) x (on_publish c)
        (on_message c) (on_subscribe c) (on_unsubscribe c) (on_log c).
Definition set_on_publish (x : Z) (c : ctx_t) : ctx_t :=
  mkCtx (ctx_L c) (ctx_mosq c) (on_connect c) (on_disconnect c) x
        (on_message c) (on_subscribe c) (on_unsubscribe c) (on_log c).
Definition set_on_message (x : Z) (c : ctx_t) : ctx_t :=
  mkCtx (ctx_L c) (ctx_mosq c) (on_connect c) (on_disconnect c) (on_publish c)
        x (on_subscribe c) (on_unsubscribe c) (on_log c).
Definition set_on_subscribe (x : Z) (c : ctx_t) : ctx_t :=
  mkCtx (ctx_L c) (ctx_mosq c) (on_connect c) (on_disconnect c) (on_publish c)
        (on_message c) x (on_unsubscribe c) (on_log c).
Definition set_on_unsubscribe (x : Z) (c : ctx_t) : ctx_t :=
  mkCtx (ctx_L c) (ctx_mosq c) (on_connect c) (on_disconnect c) (on_publish c)
        (on_message c) (on_subscribe c) x (on_log c).
Definition set_on_log (x : Z) (c : ctx_t) : ctx_t :=
  mkCtx (ctx_L c) (ctx_mosq c) (on_connect c) (on_disconnect c) (on_publish c)
        (on_message c) (on_subscribe c) (on_unsubscribe c) x.

(** The registry table at integer keys: a nil value is an absent key. *)
Definition rawget (t : gmap Z lua_value) (k : Z) : lua_value := default LNil (t !! k).

Definition rawset (t : gmap Z lua_value) (k : Z) (v : lua_value) : gmap Z lua_value :=
  match v with
  | LNil => delete k t
  | _ => <[k := v]> t
  end.

(** [lua_objlen] of the registry: the border found by counting up from 1. *)
Fixpoint border (fuel : nat) (n : Z) (t : gmap Z lua_value) : Z :=
  match fuel with
  | O => n
  | S fuel' =>
      match t !! (n + 1) with
      | Some _ => border fuel' (n + 1) t
      | None => n
      end
  end.

Definition lua_objlen (t : gmap Z lua_value) : Z := border (size t) 0 t.

(** [lua_rawgeti(L, LUA_REGISTRYINDEX, n)]. *)
Definition lua_rawgeti_registry (n : Z) : M unit :=
  let* t := reads registry in lua_push (rawget t n).

(** The calls into libmosquitto.  Each is logged and answers with the
    reply's return code, leaving the reply's [errno]. *)
Definition codec (c : codec_call) (env : codec_reply) : M Z :=
  modify (fun st => set_errno (reply_errno env) (set_codec_log (c :: codec_log st) st)) >>
  ret (reply_rc env).

(** A callback is registered with a handle from the
    [mosquitto_*_callback_set] call on, until the handle is reinitialised. *)
Fixpoint cb_registered (mosq : option nat) (kind : Z) (log : list codec_call) : bool :=
  match log with
  | [] => false
  | Mosquitto_callback_set m k :: rest =>
      (bool_decide (m = mosq) && (k =? kind)) || cb_registered mosq kind rest
  | Mosquitto_reinitialise m _ _ _ :: rest =>
      if bool_decide (m = mosq) then false else cb_registered mosq kind rest
  | _ :: rest => cb_registered mosq kind rest
  end.

Section Binding.

Context {h : host}.

(** ** Numbers, references and calls *)

Definition tointeger (v : option lua_value) : Z :=
  match v with
  | Some (LNumber n) => n
  | Some (LString s) => default 0 (lua_str2number s)
  | _ => 0
  end.

Definition isnumber (v : option lua_value) : bool :=
  match v with
  | Some (LNumber _) => true
  | Some (LString s) => bool_decide (is_Some (lua_str2number s))
  | _ => false
  end.

Definition lua_tointeger (idx : Z) : M Z :=
  let* v := value_at idx in ret (tointeger v).

Definition lua_isnumber (idx : Z) : M bool :=
  let* v := value_at idx in ret (isnumber v).

Definition luaL_checkinteger (narg : Z) : M Z :=
  let* d := lua_tointeger narg in
  let* isnum := lua_isnumber narg in
  if (d =? 0) && negb isnum then luaL_typerror narg "number" else ret d.

Definition luaL_optinteger (narg : Z) (def : Z) : M Z :=
  let* absent := lua_isnoneornil narg in
  if absent then ret def else luaL_checkinteger narg.

Definition lua_checkstack (sz : Z) : M bool :=
  reads (fun st => (sz <=? LUAI_MAXCSTACK)
                   && (Z.of_nat (length (stack st)) + sz <=? LUAI_MAXCSTACK)).

(** [luaL_ref(L, LUA_REGISTRYINDEX)]: pops the value on top of the stack
    and stores it under a free integer key of the registry; nil is not
    stored.  Freed keys are chained from [FREELIST_REF]. *)
Definition luaL_ref : M Z := fun st =>
  match last (stack st) with
  | None => Undef WildPointer
  | Some v =>
      let st1 := set_stack (removelast (stack st)) st in
      match v with
      | LNil => Done LUA_REFNIL st1
      | _ =>
          let t := registry st in
          let free := c_int (tointeger (t !! FREELIST_REF)) in
          if free =? 0 then
            let ref := c_int (lua_objlen t) + 1 in
            Done ref (set_registry (rawset t ref v) st1)
          else
            let t' := rawset t FREELIST_REF (rawget t free) in
            Done free (set_registry (rawset t' free v) st1)
      end
  end.

(** [luaL_unref(L, LUA_REGISTRYINDEX, ref)]: nothing for a negative
    reference ([LUA_NOREF], [LUA_REFNIL]); otherwise the key is put on the
    free list, through [L]. *)
Definition luaL_unref (L : option lua_thread) (ref : Z) : M unit :=
  if 0 <=? ref then
    with_state L
      (modify (fun st =>
         let t := registry st in
         let t1 := rawset t ref (rawget t FREELIST_REF) in
         set_registry (rawset t1 FREELIST_REF (LNumber ref)) st))
  else ret tt.

(** The value an error carries once [lua_pcall] has caught it. *)
Definition error_value (e : lua_error) : lua_value :=
  match e with
  | ErrArg narg extramsg =>
      LString ("bad argument #" ++ lua_number2str narg ++ " (" ++ extramsg ++ ")")
  | ErrType narg tname =>
      LString ("bad argument #" ++ lua_number2str narg ++ " (" ++ tname ++ " expected)")
  | ErrMsg msg => LString msg
  | ErrValue v => v
  end.

(** Running a function in a frame of its own: it sees its arguments only,
    and the caller's frame is back when it ends. *)
Definition in_frame {A} (args : list lua_value) (body : M A) : M A := fun st =>
  match body (set_stack args st) with
  | Done a st' => Done a (set_stack (stack st) st')
  | Raise e st' => Raise e (set_stack (stack st) st')
  | Undef u => Undef u
  end.

(** A call of a function of the host program: it is recorded, and returns
    or raises as the host says. *)
Definition call_closure (f : nat) (args : list lua_value) : M unit := fun st =>
  let st' := set_hook_log ((f, args) :: hook_log st) st in
  match lua_closure f args with
  | None => Done tt st'
  | Some e => Raise (ErrValue e) st'
  end.

(** The function and its [nargs] arguments on top of the stack, popped. *)
Definition pop_call (nargs : nat) : M (lua_value * list lua_value) := fun st =>
  let stk := stack st in
  let n := length stk in
  match stk !! (n - S nargs)%nat with
  | Some f =>
      if (S nargs <=? n)%nat
      then Done (f, drop (n - nargs)%nat stk) (set_stack (take (n - S nargs)%nat stk) st)
      else Undef WildPointer
  | None => Undef WildPointer
  end.

Section Safe.

(** How a value is called; the knot is tied by [luaD_call] below. *)
Variable call : lua_value -> list lua_value -> M unit.

(** [lua_call(L, nargs, 0)]. *)
Definition lua_call_with (nargs : nat) : M unit :=
  let* fa := pop_call nargs in
  call (fst fa) (snd fa).

(** [lua_pcall(L, nargs, 0, 0)]: an error is caught, and its value is left
    on the stack in place of the function and its arguments. *)
Definition lua_pcall_with (nargs : nat) : M Z := fun st =>
  match pop_call nargs st with
  | Done fa st1 =>
      match call (fst fa) (snd fa) st1 with
      | Done _ st2 => Done 0 (set_stack (stack st1) st2)
      | Raise e st2 => Done LUA_ERRRUN (set_stack (stack st1 ++ [error_value e]) st2)
      | Undef u => Undef u
      end
  | Raise e st1 => Raise e st1
  | Undef u => Undef u
  end.

Definition ctx_on_connect_safe : M Z :=
  let* ref := lua_tointeger 1 in
  let ref := c_int ref in
  let* rc := lua_tointeger 2 in
  let rc := c_int rc in
  let success_str :=
    if rc =? CONN_ACCEPT then (true, "connection accepted")
    else if rc =? CONN_REF_BAD_PROTOCOL
      then (false, "connection refused - incorrect protocol version")
    else if rc =? CONN_REF_BAD_ID
      then (false, "connection refused - invalid client identifier")
    else if rc =? CONN_REF_SERVER_NOAVAIL
      then (false, "connection refused - server unavailable")
    else if rc =? CONN_REF_BAD_LOGIN
      then (false, "connection refused - bad username or password")
    else if rc =? CONN_REF_NO_AUTH
      then (false, "connection refused - not authorised")
    else if rc =? CONN_REF_BAD_TLS
      then (false, "connection refused - TLS error")
    else (false, "reserved for future use") in
  lua_rawgeti_registry ref >>
  lua_pushboolean (fst success_str) >>
  lua_pushinteger rc >>
  lua_pushstring (snd success_str) >>
  lua_call_with 3 >>
  ret 0.

Definition ctx_on_disconnect_safe : M Z :=
  let* ref := lua_tointeger 1 in
  let ref := c_int ref in
  let* rc := lua_tointeger 2 in
  let rc := c_int rc in
  let success_str :=
    if negb (rc =? 0) then (false, "unexpected disconnect")
    else (true, "client-initiated disconnect") in
  lua_rawgeti_registry ref >>
  lua_pushboolean (fst success_str) >>
  lua_pushinteger rc >>
  lua_pushstring (snd success_str) >>
  lua_call_with 3 >>
  ret 0.

Definition ctx_on_message_safe : M Z :=
  let* ref := lua_tointeger 1 in
  let ref := c_int ref in
  let* p := lua_touserdata 2 in
  match p with
  | Some (CMessage msg) =>
      lua_rawgeti_registry ref >>
      lua_pushinteger (msg_mid msg) >>
      lua_pushstring (msg_topic msg) >>
      lua_pushlstring (msg_payload msg) >>
      lua_pushinteger (msg_qos msg) >>
      lua_pushboolean (msg_retain msg) >>
      lua_call_with 5 >>
      ret 0
  | _ => undef WildPointer
  end.

Definition ctx_on_log_safe : M Z :=
  let* ref := lua_tointeger 1 in
  let ref := c_int ref in
  let* level := lua_tointeger 2 in
  let level := c_int level in
  let* p := lua_touserdata 3 in
  match p with
  | Some (CString str) =>
      lua_rawgeti_registry ref >>
      lua_pushinteger level >>
      lua_pushstring str >>
      lua_call_with 2 >>
      ret 0
  | _ => undef WildPointer
  end.

Definition cfunction_body (c : cfunction) : M Z :=
  match c with
  | Ctx_on_connect_safe => ctx_on_connect_safe
  | Ctx_on_disconnect_safe => ctx_on_disconnect_safe
  | Ctx_on_message_safe => ctx_on_message_safe
  | Ctx_on_log_safe => ctx_on_log_safe
  end.

End Safe.

(** Calling a value with no results wanted.  A host function behaves as the
    host says; a C function of the binding runs in a frame of its own, Lua
    refusing to nest C calls deeper than [LUAI_MAXCCALLS]; anything else is
    not callable. *)
Fixpoint luaD_call (depth : nat) (f : lua_value) (args : list lua_value) : M unit :=
  match f with
  | LFunction id => call_closure id args
  | LCFunction c =>
      match depth with
      | O => throw (ErrMsg "C stack overflow")
      | S depth' => in_frame args (cfunction_body (luaD_call depth') c) >> ret tt
      end
  | _ => throw (ErrMsg "attempt to call a value that is not a function")
  end.

Definition lua_pcall (nargs : nat) : M Z := lua_pcall_with (luaD_call LUAI_MAXCCALLS) nargs.

(** ** The callbacks registered with libmosquitto *)

Definition ctx_on_connect (obj : nat) (rc : Z) : M unit :=
  let ctx := obj in
  let* L := load ctx ctx_L in
  with_state L
    (lua_pushcfunction Ctx_on_connect_safe >>
     let* ref := load ctx on_connect in
     lua_pushinteger ref >>
     lua_pushinteger rc >>
     let* status := lua_pcall 2 in
     if negb (status =? 0) then lua_pop 1 else ret tt).

Definition ctx_on_disconnect (obj : nat) (rc : Z) : M unit :=
  let ctx := obj in
  let* L := load ctx ctx_L in
  with_state L
    (lua_pushcfunction Ctx_on_disconnect_safe >>
     let* ref := load ctx on_disconnect in
     lua_pushinteger ref >>
     lua_pushinteger rc >>
     let* status := lua_pcall 2 in
     if negb (status =? 0) then lua_pop 1 else ret tt).

Definition ctx_on_publish (obj : nat) (mid : Z) : M unit :=
  let ctx := obj in
  let* L := load ctx ctx_L in
  with_state L
    (let* ref := load ctx on_publish in
     lua_rawgeti_registry ref >>
     lua_pushinteger mid >>
     let* status := lua_pcall 1 in
     if negb (status =? 0) then lua_pop 1 else ret tt).

Definition ctx_on_message (obj : nat) (msg : mosquitto_message) : M unit :=
  let ctx := obj in
  let* L := load ctx ctx_L in
  with_state L
    (lua_pushcfunction Ctx_on_message_safe >>
     let* ref := load ctx on_message in
     lua_pushinteger ref >>
     lua_pushlightuserdata (CMessage msg) >>
     let* status := lua_pcall 2 in
     if negb (status =? 0) then lua_pop 1 else ret tt).

(** The [for] loop of [ctx_on_subscribe]. *)
Fixpoint push_integers (ns : list Z) : M unit :=
  match ns with
  | [] => ret tt
  | n :: rest => lua_pushinteger n >> push_integers rest
  end.

Definition ctx_on_subscribe (obj : nat) (mid : Z) (granted_qos : list Z) : M unit :=
  let ctx := obj in
  let qos_count := length granted_qos in
  let* L := load ctx ctx_L in
  with_state L
    (let* room := lua_checkstack (Z.of_nat qos_count + 2) in
     if negb room then ret tt
     else
       let* ref := load ctx on_subscribe in
       lua_rawgeti_registry ref >>
       lua_pushinteger mid >>
       push_integers granted_qos >>
       let* status := lua_pcall (qos_count + 1) in
       if negb (status =? 0) then lua_pop 1 else ret tt).

Definition ctx_on_unsubscribe (obj : nat) (mid : Z) : M unit :=
  let ctx := obj in
  let* L := load ctx ctx_L in
  with_state L
    (let* ref := load ctx on_unsubscribe in
     lua_rawgeti_registry ref >>
     lua_pushinteger mid >>
     let* status := lua_pcall 1 in
     if negb (status =? 0) then lua_pop 1 else ret tt).

Definition ctx_on_log (obj : nat) (level : Z) (str : string) : M unit :=
  let ctx := obj in
  let* L := load ctx ctx_L in
  with_state L
    (lua_pushcfunction Ctx_on_log_safe >>
     let* ref := load ctx on_log in
     lua_pushinteger ref >>
     lua_pushinteger level >>
     lua_pushlightuserdata (CString str) >>
     let* status := lua_pcall 3 in
     if negb (status =? 0) then lua_pop 1 else ret tt).

(** The callback libmosquitto runs for an event. *)
Definition dispatch (obj : nat) (ev : mosq_event) : M unit :=
  match ev with
  | EvConnect rc => ctx_on_connect obj rc
  | EvDisconnect rc => ctx_on_disconnect obj rc
  | EvPublish mid => ctx_on_publish obj mid
  | EvMessage msg => ctx_on_message obj msg
  | EvSubscribe mid granted_qos => ctx_on_subscribe obj mid granted_qos
  | EvUnsubscribe mid => ctx_on_unsubscribe obj mid
  | EvLog level str => ctx_on_log obj level str
  end.

(** libmosquitto reports an event to the callback registered for its kind,
    if there is one, with the [obj] given to [mosquitto_new]: the [ctx_t]
    block that holds the handle. *)
Definition report (mosq : option nat) (obj : nat) (ev : mosq_event) : M unit :=
  let* log := reads codec_log in
  if cb_registered mosq (event_kind ev) log then dispatch obj ev else ret tt.

Fixpoint report_all (mosq : option nat) (obj : nat) (evs : list mosq_event) : M unit :=
  match evs with
  | [] => ret tt
  | ev :: rest => report mosq obj ev >> report_all mosq obj rest
  end.

(** A loop call into libmosquitto: the events of the reply are reported
    while it runs. *)
Definition codec_loop (c : codec_call) (mosq : option nat) (obj : nat) (env : codec_reply) : M Z :=
  modify (fun st => set_codec_log (c :: codec_log st) st) >>
  report_all mosq obj (reply_events env) >>
  modify (set_errno (reply_errno env)) >>
  ret (reply_rc env).

(** ** The binding *)

(** handle mosquitto lib return codes *)
Definition mosq__pstatus (mosq_errno : Z) : M Z :=
  if mosq_errno =? MOSQ_ERR_SUCCESS then
    lua_pushboolean true >> ret 1
  else if (mosq_errno =? MOSQ_ERR_INVAL) || (mosq_errno =? MOSQ_ERR_NOMEM)
          || (mosq_errno =? MOSQ_ERR_PROTOCOL) || (mosq_errno =? MOSQ_ERR_NOT_SUPPORTED) then
    luaL_error (mosquitto_strerror mosq_errno)
  else if (mosq_errno =? MOSQ_ERR_NO_CONN) || (mosq_errno =? MOSQ_ERR_CONN_LOST)
          || (mosq_errno =? MOSQ_ERR_PAYLOAD_SIZE) then
    lua_pushnil >>
    lua_pushinteger mosq_errno >>
    lua_pushstring (mosquitto_strerror mosq_errno) >>
    ret 3
  else if mosq_errno =? MOSQ_ERR_ERRNO then
    let* e := reads errno in
    lua_pushnil >>
    lua_pushinteger e >>
    lua_pushstring (strerror e) >>
    ret 3
  else ret 0.

Definition mosq_topic_matches_sub (L : lua_thread) (env : codec_reply) : M Z :=
  let* sub := luaL_checkstring 1 in
  let* topic := luaL_checkstring 2 in
  let* rc := codec (Mosquitto_topic_matches_sub sub topic) env in
  if negb (rc =? MOSQ_ERR_SUCCESS) then mosq__pstatus rc
  else lua_pushboolean (reply_flag env) >> ret 1.

Definition ctx__on_init (ctx : nat) : M unit :=
  store ctx (set_on_connect LUA_REFNIL) >>
  store ctx (set_on_disconnect LUA_REFNIL) >>
  store ctx (set_on_publish LUA_REFNIL) >>
  store ctx (set_on_message LUA_REFNIL) >>
  store ctx (set_on_subscribe LUA_REFNIL) >>
  store ctx (set_on_unsubscribe LUA_REFNIL) >>
  store ctx (set_on_log LUA_REFNIL).

Definition ctx__on_clear (ctx : nat) : M unit :=
  let unref (field : ctx_t -> Z) : M unit :=
    let* L := load ctx ctx_L in
    let* ref := load ctx field in
    luaL_unref L ref in
  unref on_connect >>
  unref on_disconnect >>
  unref on_publish >>
  unref on_message >>
  unref on_subscribe >>
  unref on_unsubscribe >>
  unref on_log.

Definition is_null {A} (p : option A) : bool :=
  match p with
  | None => true
  | Some _ => false
  end.

Definition mosq_new (L : lua_thread) (env : codec_reply) : M Z :=
  let* id := luaL_optstring 1 None in
  let* isbool := lua_isboolean 2 in
  let* clean_session := (if isbool then lua_toboolean 2 else ret true) in
  if is_null id && negb clean_session then
    luaL_argerror 2 "if 'id' is nil then 'clean session' must be true"
  else
    let* ctx := lua_newuserdata in
    codec (Mosquitto_new id clean_session ctx) env >>
    store ctx (set_ctx_mosq (reply_handle env)) >>
    if is_null (reply_handle env) then
      let* e := reads errno in luaL_error (strerror e)
    else
      store ctx (set_ctx_L None) >>
      ctx__on_init ctx >>
      luaL_getmetatable MOSQ_META_CTX >>
      lua_setmetatable (-2) >>
      ret 1.

Definition ctx_check (i : Z) : M nat := luaL_checkudata i MOSQ_META_CTX.

Definition ctx_destroy (L : lua_thread) (env : codec_reply) : M Z :=
  let* ctx := ctx_check 1 in
  let* mosq := load ctx ctx_mosq in
  codec (Mosquitto_destroy mosq) env >>
  ctx__on_clear ctx >>
  lua_newtable >>
  lua_setmetatable (-2) >>
  mosq__pstatus MOSQ_ERR_SUCCESS.

Definition ctx_reinitialise (L : lua_thread) (env : codec_reply) : M Z :=
  let* ctx := ctx_check 1 in
  let* id := luaL_optstring 1 None in
  let* isbool := lua_isboolean 2 in
  let* clean_session := (if isbool then lua_toboolean 2 else ret true) in
  if is_null id && negb clean_session then
    luaL_argerror 3 "if 'id' is nil then 'clean session' must be true"
  else
    let* mosq := load ctx ctx_mosq in
    let* rc := codec (Mosquitto_reinitialise mosq id clean_session ctx) env in
    ctx__on_clear ctx >>
    ctx__on_init ctx >>
    mosq__pstatus rc.

(** The payload argument of [will_set] and [publish]. *)
Definition payload_at (idx : Z) : M (option string) :=
  let* isnil := lua_isnil idx in
  if negb isnil then lua_tolstring idx else ret None.

Definition ctx_will_set (L : lua_thread) (env : codec_reply) : M Z :=
  let* ctx := ctx_check 1 in
  let* topic := luaL_checkstring 2 in
  let* payload := payload_at 3 in
  let* qos := luaL_optinteger 4 0 in
  let* retain := lua_toboolean 5 in
  let* mosq := load ctx ctx_mosq in
  let* rc := codec (Mosquitto_will_set mosq topic payload (c_int qos) retain) env in
  mosq__pstatus rc.

Definition ctx_will_clear (L : lua_thread) (env : codec_reply) : M Z :=
  let* ctx := ctx_check 1 in
  let* mosq := load ctx ctx_mosq in
  let* rc := codec (Mosquitto_will_clear mosq) env in
  mosq__pstatus rc.

(** [lua_isnil(L, i) ? NULL : luaL_checkstring(L, i)]. *)
Definition string_or_null (idx : Z) : M (option string) :=
  let* isnil := lua_isnil idx in
  if isnil then ret None
  else let* s := luaL_checkstring idx in ret (Some s).

Definition ctx_login_set (L : lua_thread) (env : codec_reply) : M Z :=
  let* ctx := ctx_check 1 in
  let* username := string_or_null 2 in
  let* password := string_or_null 3 in
  let* mosq := load ctx ctx_mosq in
  let* rc := codec (Mosquitto_username_pw_set mosq username password) env in
  mosq__pstatus rc.

Definition ctx_tls_opts_set (L : lua_thread) (env : codec_reply) : M Z :=
  let* ctx := ctx_check 1 in
  let* cert_reqs := luaL_optinteger 2 0 in
  let* tls_version := luaL_optstring 3 None in
  let* ciphers := luaL_optstring 4 None in
  let* mosq := load ctx ctx_mosq in
  let* rc := codec (Mosquitto_tls_opts_set mosq (c_int cert_reqs) tls_version ciphers) env in
  mosq__pstatus rc.

(** [strcmp] on a pointer that may be NULL. *)
Definition strcmp_ptr (s1 : option string) (s2 : string) : M Z :=
  match s1 with
  | Some s1 => ret (strcmp s1 s2)
  | None => undef NullString
  end.

Definition ctx_version_set (L : lua_thread) (env : codec_reply) : M Z :=
  let* ctx := ctx_check 1 in
  let* mqtt_version := luaL_optstring 2 None in
  let protocol_version := MQTT_PROTOCOL_V31 in
  let* c31 := strcmp_ptr mqtt_version "mqttv31" in
  let* protocol_version :=
    (if c31 =? 0 then ret MQTT_PROTOCOL_V31
     else
       let* c311 := strcmp_ptr mqtt_version "mqttv311" in
       if c311 =? 0 then ret MQTT_PROTOCOL_V311 else ret protocol_version) in
  let* mosq := load ctx ctx_mosq in
  let* rc := codec (Mosquitto_opts_set mosq MOSQ_OPT_PROTOCOL_VERSION protocol_version) env in
  mosq__pstatus rc.

Definition ctx_tls_set (L : lua_thread) (env : codec_reply) : M Z :=
  let* ctx := ctx_check 1 in
  let* cafile := luaL_optstring 2 None in
  let* capath := luaL_optstring 3 None in
  let* certfile := luaL_optstring 4 None in
  let* keyfile := luaL_optstring 5 None in
  let* mosq := load ctx ctx_mosq in
  let* rc := codec (Mosquitto_tls_set mosq cafile capath certfile keyfile) env in
  mosq__pstatus rc.

Definition ctx_tls_insecure_set (L : lua_thread) (env : codec_reply) : M Z :=
  let* ctx := ctx_check 1 in
  let* value := lua_toboolean 2 in
  let* mosq := load ctx ctx_mosq in
  let* rc := codec (Mosquitto_tls_insecure_set mosq value) env in
  mosq__pstatus rc.

Definition ctx_tls_psk_set (L : lua_thread) (env : codec_reply) : M Z :=
  let* ctx := ctx_check 1 in
  let* psk := luaL_checkstring 2 in
  let* identity := luaL_checkstring 3 in
  let* ciphers := luaL_optstring 4 None in
  let* mosq := load ctx ctx_mosq in
  let* rc := codec (Mosquitto_tls_psk_set mosq psk identity ciphers) env in
  mosq__pstatus rc.

Definition ctx_threaded_set (L : lua_thread) (env : codec_reply) : M Z :=
  let* ctx := ctx_check 1 in
  let* value := lua_toboolean 2 in
  let* mosq := load ctx ctx_mosq in
  let* rc := codec (Mosquitto_threaded_set mosq value) env in
  mosq__pstatus rc.

Definition ctx_connect (L : lua_thread) (env : codec_reply) : M Z :=
  let* ctx := ctx_check 1 in
  let* host := luaL_optstring 2 (Some "localhost") in
  let* port := luaL_optinteger 3 1883 in
  let* keepalive := luaL_optinteger 4 60 in
  let* mosq := load ctx ctx_mosq in
  let* rc := codec (Mosquitto_connect mosq (default "" host) (c_int port) (c_int keepalive)) env in
  mosq__pstatus rc.

Definition ctx_connect_async (L : lua_thread) (env : codec_reply) : M Z :=
  let* ctx := ctx_check 1 in
  let* host := luaL_optstring 2 (Some "localhost") in
  let* port := luaL_optinteger 3 1883 in
  let* keepalive := luaL_optinteger 4 60 in
  let* mosq := load ctx ctx_mosq in
  let* rc := codec (Mosquitto_connect_async mosq (default "" host) (c_int port) (c_int keepalive)) env in
  mosq__pstatus rc.

Definition ctx_reconnect (L : lua_thread) (env : codec_reply) : M Z :=
  let* ctx := ctx_check 1 in
  let* mosq := load ctx ctx_mosq in
  let* rc := codec (Mosquitto_reconnect mosq) env in
  mosq__pstatus rc.

Definition ctx_reconnect_delay_set (L : lua_thread) (env : codec_reply) : M Z :=
  let* ctx := ctx_check 1 in
  let* reconnect_delay := luaL_optinteger 2 1 in
  let* reconnect_delay_max := luaL_optinteger 3 30 in
  let* isbool := lua_isboolean 4 in
  let* reconnect_exponential_backoff := (if isbool then lua_toboolean 4 else ret true) in
  let* mosq := load ctx ctx_mosq in
  let* rc := codec (Mosquitto_reconnect_delay_set mosq (c_int reconnect_delay)
                      (c_int reconnect_delay_max) reconnect_exponential_backoff) env in
  mosq__pstatus rc.

Definition ctx_reconnect_async (L : lua_thread) (env : codec_reply) : M Z :=
  let* ctx := ctx_check 1 in
  let* mosq := load ctx ctx_mosq in
  let* rc := codec (Mosquitto_reconnect_async mosq) env in
  mosq__pstatus rc.

Definition ctx_disconnect (L : lua_thread) (env : codec_reply) : M Z :=
  let* ctx := ctx_check 1 in
  let* mosq := load ctx ctx_mosq in
  let* rc := codec (Mosquitto_disconnect mosq) env in
  mosq__pstatus rc.

Definition ctx_publish (L : lua_thread) (env : codec_reply) : M Z :=
  let* ctx := ctx_check 1 in
  let* topic := luaL_checkstring 2 in
  let* payload := payload_at 3 in
  let* qos := luaL_optinteger 4 0 in
  let* retain := lua_toboolean 5 in
  let* mosq := load ctx ctx_mosq in
  let* rc := codec (Mosquitto_publish mosq topic payload (c_int qos) retain) env in
  let mid := reply_mid env in
  if negb (rc =? MOSQ_ERR_SUCCESS) then mosq__pstatus rc
  else lua_pushinteger mid >> ret 1.

Definition ctx_subscribe (L : lua_thread) (env : codec_reply) : M Z :=
  let* ctx := ctx_check 1 in
  let* sub := luaL_checkstring 2 in
  let* qos := luaL_optinteger 3 0 in
  let* mosq := load ctx ctx_mosq in
  let* rc := codec (Mosquitto_subscribe mosq sub (c_int qos)) env in
  let mid := reply_mid env in
  if negb (rc =? MOSQ_ERR_SUCCESS) then mosq__pstatus rc
  else lua_pushinteger mid >> ret 1.

Definition ctx_unsubscribe (L : lua_thread) (env : codec_reply) : M Z :=
  let* ctx := ctx_check 1 in
  let* sub := luaL_checkstring 2 in
  let* mosq := load ctx ctx_mosq in
  let* rc := codec (Mosquitto_unsubscribe mosq sub) env in
  let mid := reply_mid env in
  if negb (rc =? MOSQ_ERR_SUCCESS) then mosq__pstatus rc
  else lua_pushinteger mid >> ret 1.

Definition mosq_loop (L : lua_thread) (forever : bool) (env : codec_reply) : M Z :=
  let* ctx := ctx_check 1 in
  let* timeout := luaL_optinteger 2 (-1) in
  let* max_packets := luaL_optinteger 3 1 in
  store ctx (set_ctx_L (Some L)) >>
  let* mosq := load ctx ctx_mosq in
  let* rc :=
    (if forever
     then codec_loop (Mosquitto_loop_forever mosq (c_int timeout) (c_int max_packets)) mosq ctx env
     else codec_loop (Mosquitto_loop mosq (c_int timeout) (c_int max_packets)) mosq ctx env) in
  store ctx (set_ctx_L None) >>
  mosq__pstatus rc.

Definition ctx_loop (L : lua_thread) (env : codec_reply) : M Z := mosq_loop L false env.

Definition ctx_loop_forever (L : lua_thread) (env : codec_reply) : M Z := mosq_loop L true env.

Definition ctx_loop_start (L : lua_thread) (env : codec_reply) : M Z :=
  let* ctx := ctx_check 1 in
  store ctx (set_ctx_L (Some L)) >>
  let* mosq := load ctx ctx_mosq in
  let* rc := codec (Mosquitto_loop_start mosq) env in
  mosq__pstatus rc.

Definition ctx_loop_stop (L : lua_thread) (env : codec_reply) : M Z :=
  let* ctx := ctx_check 1 in
  let* force := lua_toboolean 2 in
  let* mosq := load ctx ctx_mosq in
  let* rc := codec (Mosquitto_loop_stop mosq force) env in
  store ctx (set_ctx_L None) >>
  mosq__pstatus rc.

Definition ctx_loop_read (L : lua_thread) (env : codec_reply) : M Z :=
  let* ctx := ctx_check 1 in
  let* max_packets := luaL_optinteger 2 1 in
  store ctx (set_ctx_L (Some L)) >>
  let* mosq := load ctx ctx_mosq in
  let* rc := codec_loop (Mosquitto_loop_read mosq (c_int max_packets)) mosq ctx env in
  store ctx (set_ctx_L None) >>
  mosq__pstatus rc.

Definition ctx_loop_write (L : lua_thread) (env : codec_reply) : M Z :=
  let* ctx := ctx_check 1 in
  let* max_packets := luaL_optinteger 2 1 in
  store ctx (set_ctx_L (Some L)) >>
  let* mosq := load ctx ctx_mosq in
  let* rc := codec_loop (Mosquitto_loop_write mosq (c_int max_packets)) mosq ctx env in
  store ctx (set_ctx_L None) >>
  mosq__pstatus rc.

Definition ctx_loop_misc (L : lua_thread) (env : codec_reply) : M Z :=
  let* ctx := ctx_check 1 in
  store ctx (set_ctx_L (Some L)) >>
  let* mosq := load ctx ctx_mosq in
  let* rc := codec_loop (Mosquitto_loop_misc mosq) mosq ctx env in
  store ctx (set_ctx_L None) >>
  mosq__pstatus rc.

(** The table of exported names, [D]. *)
Definition D : list (string * Z) :=
  [ ("ON_CONNECT", CONNECT);
    ("ON_DISCONNECT", DISCONNECT);
    ("ON_PUBLISH", PUBLISH);
    ("ON_MESSAGE", MESSAGE);
    ("ON_SUBSCRIBE", SUBSCRIBE);
    ("ON_UNSUBSCRIBE", UNSUBSCRIBE);
    ("ON_LOG", LOG);
    ("LOG_NONE", MOSQ_LOG_NONE);
    ("LOG_INFO", MOSQ_LOG_INFO);
    ("LOG_NOTICE", MOSQ_LOG_NOTICE);
    ("LOG_WARNING", MOSQ_LOG_WARNING);
    ("LOG_ERROR", MOSQ_LOG_ERR);
    ("LOG_DEBUG", MOSQ_LOG_DEBUG);
    ("LOG_ALL", MOSQ_LOG_ALL) ].

(** The [while] loop of [callback_type_from_string]. *)
Fixpoint find_define (def : list (string * Z)) (typestr : string) : Z :=
  match def with
  | [] => -1
  | (name, value) :: rest =>
      if strcmp name typestr =? 0 then value else find_define rest typestr
  end.

Definition callback_type_from_string (typestr : string) : Z :=
  (* filter out LOG_ strings *)
  if negb (bool_decide (strstr typestr "ON_" = Some 0%nat)) then -1
  else find_define D typestr.

Definition ctx_callback_set (L : lua_thread) (env : codec_reply) : M Z :=
  let* ctx := ctx_check 1 in
  let* isstr := lua_isstring 2 in
  let* callback_type :=
    (if isstr then
       let* s := lua_tostring 2 in
       match s with
       | Some typestr => ret (callback_type_from_string typestr)
       | None => undef NullString
       end
     else
       let* n := luaL_checkinteger 2 in ret (c_int n)) in
  let* isfun := lua_isfunction 3 in
  if negb isfun then luaL_argerror 3 "expecting a callback function"
  else
    (* pop the function from the stack and store it in the registry *)
    let* ref := luaL_ref in
    let* mosq := load ctx ctx_mosq in
    let bind_hook (set : Z -> ctx_t -> ctx_t) (kind : Z) : M unit :=
      store ctx (set ref) >>
      codec (Mosquitto_callback_set mosq kind) env >> ret tt in
    (if callback_type =? CONNECT then bind_hook set_on_connect CONNECT
     else if callback_type =? DISCONNECT then bind_hook set_on_disconnect DISCONNECT
     else if callback_type =? PUBLISH then bind_hook set_on_publish PUBLISH
     else if callback_type =? MESSAGE then bind_hook set_on_message MESSAGE
     else if callback_type =? SUBSCRIBE then bind_hook set_on_subscribe SUBSCRIBE
     else if callback_type =? UNSUBSCRIBE then bind_hook set_on_unsubscribe UNSUBSCRIBE
     else if callback_type =? LOG then bind_hook set_on_log LOG
     else
       luaL_unref (Some L) ref >>
       luaL_argerror 2 "not a proper callback type") >>
    mosq__pstatus MOSQ_ERR_SUCCESS.

(** [luaL_newmetatable]; what the tables hold is not modelled. *)
Definition luaL_newmetatable (tname : string) : M unit := fun st =>
  match named_meta st !! tname with
  | Some t => Done tt (set_stack (stack st ++ [LTable t]) st)
  | None =>
      let t := next_obj st in
      Done tt (set_next_obj (S t)
                 (set_named_meta (<[tname := t]> (named_meta st))
                    (set_stack (stack st ++ [LTable t]) st)))
  end.

Definition luaopen_mosquitto (L : lua_thread) : M Z :=
  luaL_newmetatable MOSQ_META_CTX >>
  lua_newtable >>
  ret 1.

(** A call of a C function from Lua: the function runs in a frame holding
    its arguments, and the values it reports as results are the topmost
    ones of that frame. *)
Definition lua_cfunction_call (f : M Z) (args : list lua_value) : M (list lua_value) := fun st =>
  match f (set_stack args st) with
  | Done n st' =>
      Done (drop (length (stack st') - Z.to_nat n)%nat (stack st')) (set_stack (stack st) st')
  | Raise e st' => Raise e (set_stack (stack st) st')
  | Undef u => Undef u
  end.

End Binding.

(** ** The operations that report a codec status, and sample inputs *)

(** The Lua-visible operations whose result is the codec's own return
    code handed to [mosq__pstatus]. *)
Inductive operation :=
| Op_topic_matches_sub | Op_reinitialise | Op_will_set | Op_will_clear
| Op_login_set | Op_tls_opts_set | Op_version_set | Op_tls_set
| Op_tls_insecure_set | Op_tls_psk_set | Op_threaded_set
| Op_connect | Op_connect_async | Op_reconnect | Op_reconnect_delay_set
| Op_reconnect_async | Op_disconnect
| Op_publish | Op_subscribe | Op_unsubscribe
| Op_loop | Op_loop_forever | Op_loop_start | Op_loop_stop
| Op_loop_read | Op_loop_write | Op_loop_misc.

Definition run_operation {h : host} (op : operation) : lua_thread -> codec_reply -> M Z :=
  match op with
  | Op_topic_matches_sub => mosq_topic_matches_sub
  | Op_reinitialise => ctx_reinitialise
  | Op_will_set => ctx_will_set
  | Op_will_clear => ctx_will_clear
  | Op_login_set => ctx_login_set
  | Op_tls_opts_set => ctx_tls_opts_set
  | Op_version_set => ctx_version_set
  | Op_tls_set => ctx_tls_set
  | Op_tls_insecure_set => ctx_tls_insecure_set
  | Op_tls_psk_set => ctx_tls_psk_set
  | Op_threaded_set => ctx_threaded_set
  | Op_connect => ctx_connect
  | Op_connect_async => ctx_connect_async
  | Op_reconnect => ctx_reconnect
  | Op_reconnect_delay_set => ctx_reconnect_delay_set
  | Op_reconnect_async => ctx_reconnect_async
  | Op_disconnect => ctx_disconnect
  | Op_publish => ctx_publish
  | Op_subscribe => ctx_subscribe
  | Op_unsubscribe => ctx_unsubscribe
  | Op_loop => ctx_loop
  | Op_loop_forever => ctx_loop_forever
  | Op_loop_start => ctx_loop_start
  | Op_loop_stop => ctx_loop_stop
  | Op_loop_read => ctx_loop_read
  | Op_loop_write => ctx_loop_write
  | Op_loop_misc => ctx_loop_misc
  end.

(** What an operation returns when the codec reports success: the message
    id for the three messaging operations, the match flag for
    [topic_matches_sub], and what [mosq__pstatus] pushes for the rest. *)
Definition success_values (op : operation) (env : codec_reply) : list lua_value :=
  match op with
  | Op_publish | Op_subscribe | Op_unsubscribe => [LNumber (reply_mid env)]
  | Op_topic_matches_sub => [LBoolean (reply_flag env)]
  | _ => [LBoolean true]
  end.

(** The operations that run the network loop in the calling thread. *)
Inductive stepping :=
| Step_loop | Step_loop_forever | Step_loop_read | Step_loop_write | Step_loop_misc.

Definition run_stepping {h : host} (op : stepping) : lua_thread -> codec_reply -> M Z :=
  match op with
  | Step_loop => ctx_loop
  | Step_loop_forever => ctx_loop_forever
  | Step_loop_read => ctx_loop_read
  | Step_loop_write => ctx_loop_write
  | Step_loop_misc => ctx_loop_misc
  end.

(** The state a computation ends in. *)
Definition final_state {A} (r : result A) : option lua_State :=
  match r with
  | Done _ st | Raise _ st => Some st
  | Undef _ => None
  end.

(** The call reached libmosquitto. *)
Definition codec_called {A} (st : lua_State) (r : result A) : Prop :=
  match final_state r with
  | Some st' => codec_log st' <> codec_log st
  | None => False
  end.



(** [u] is a live instance: a [ctx_t] block carrying the metatable
    registered as [MOSQ_META_CTX]. *)
Definition is_instance (st : lua_State) (u : nat) (c : ctx_t) : Prop :=
  udata st !! u = Some c /\
  exists mt, meta st !! u = Some mt /\ named_meta st !! MOSQ_META_CTX = Some mt.

(** The values of a C [int]. *)
Definition is_int (z : Z) : Prop := - 2 ^ 31 <= z < 2 ^ 31.

(** The registry reference of the hook an event is dispatched to. *)
Definition hook_ref (c : ctx_t) (ev : mosq_event) : Z :=
  match ev with
  | EvConnect _ => on_connect c
  | EvDisconnect _ => on_disconnect c
  | EvPublish _ => on_publish c
  | EvMessage _ => on_message c
  | EvSubscribe _ _ => on_subscribe c
  | EvUnsubscribe _ => on_unsubscribe c
  | EvLog _ _ => on_log c
  end.

Definition is_cfunction (v : lua_value) : bool :=
  match v with
  | LCFunction _ => true
  | _ => false
  end.

(** A host for the examples: functions with an odd address raise, the
    others return. *)
Definition demo_host : host :=
  {| mosquitto_strerror := fun _ => "mosquitto error";
     strerror := fun _ => "os error";
     lua_str2number := fun _ => None;
     lua_closure := fun f _ => if Nat.even f then None else Some (LString "hook failed");
     LUAI_MAXCSTACK := 8000 |}.

Definition reply (rc : Z) (evs : list mosq_event) : codec_reply :=
  {| reply_rc := rc; reply_mid := 5; reply_errno := 11;
     reply_handle := Some 7%nat; reply_flag := false; reply_events := evs |}.

Definition state_after {A} (r : result A) (st : lua_State) : lua_State :=
  default st (final_state r).

Definition empty_state : lua_State := mkState [] ∅ ∅ ∅ ∅ ∅ 0%nat 0 [] [].

(** [require "mosquitto"], then [c = mosquitto.new("c1")]: the instance is
    userdata 2. *)
Definition st_open : lua_State :=
  state_after (lua_cfunction_call (luaopen_mosquitto 0%nat) [] empty_state)
              empty_state.

Definition st_new : lua_State :=
  state_after (lua_cfunction_call (mosq_new (h := demo_host) 0%nat (reply 0 [])) [LString "c1"] st_open)
              st_open.

(** [c:callback_set("ON_CONNECT", f1)], then
    [c:callback_set("ON_CONNECT", f2)]. *)
Definition st_hook1 : lua_State :=
  state_after (lua_cfunction_call (ctx_callback_set (h := demo_host) 0%nat (reply 0 []))
                 [LUserdata 2; LString "ON_CONNECT"; LFunction 1] st_new) st_new.

Definition st_hook2 : lua_State :=
  state_after (lua_cfunction_call (ctx_callback_set (h := demo_host) 0%nat (reply 0 []))
                 [LUserdata 2; LString "ON_CONNECT"; LFunction 2] st_hook1) st_hook1.

(** [c:callback_set("ON_DISCONNECT", f4)] after the first of them, and that
    instance inside a loop call (its back-reference bound). *)
Definition st_hook4 : lua_State :=
  state_after (lua_cfunction_call (ctx_callback_set (h := demo_host) 0%nat (reply 0 []))
                 [LUserdata 2; LString "ON_DISCONNECT"; LFunction 4] st_hook1) st_hook1.

Definition st_looping : lua_State :=
  state_after (store 2 (set_ctx_L (Some 0%nat)) st_hook4) st_hook4.

(** The instance of [st_looping]. *)
Definition ctx_looping : ctx_t := mkCtx (Some 0%nat) (Some 7%nat) 1 2 (-1) (-1) (-1) (-1) (-1).

(** The instance of [st_new] and of [st_hook1]. *)
Definition ctx_new : ctx_t := mkCtx None (Some 7%nat) (-1) (-1) (-1) (-1) (-1) (-1) (-1).
Definition ctx_hook1 : ctx_t := mkCtx None (Some 7%nat) 1 (-1) (-1) (-1) (-1) (-1) (-1).

Local Open Scope list_scope.

(** The return codes [mosq__pstatus] raises, and those it returns as a
    triple with the codec's own description. *)
Definition hard_error (rc : Z) : Prop :=
  rc = MOSQ_ERR_INVAL \/ rc = MOSQ_ERR_NOMEM \/ rc = MOSQ_ERR_PROTOCOL
  \/ rc = MOSQ_ERR_NOT_SUPPORTED.

Definition operational_error (rc : Z) : Prop :=
  rc = MOSQ_ERR_NO_CONN \/ rc = MOSQ_ERR_CONN_LOST \/ rc = MOSQ_ERR_PAYLOAD_SIZE.

(** The values a C function that ends with [n] hands back. *)
Definition returned (n : Z) (st : lua_State) : list lua_value :=
  drop (length (stack st) - Z.to_nat n)%nat (stack st).

(** What the state keeps from one callback to the next: all of it but the
    frame and the record of host calls. *)
Definition engine (st : lua_State) :=
  (registry st, named_meta st, udata st, meta st, type_meta st, next_obj st,
   errno st, codec_log st).

Definition extends (st st' : lua_State) : Prop :=
  engine st' = engine st /\ exists calls, hook_log st' = (calls ++ hook_log st)%list.

(** What [mosq__pstatus] makes of the code [reply_rc env] at the end of a C
    function, [succ] being the values handed back on success. *)
Definition verdict {h : host} (succ : list lua_value) (env : codec_reply) (r : result Z) : Prop :=
  let rc := reply_rc env in
  match r with
  | Done n st' =>
      ~ hard_error rc /\
      (rc = MOSQ_ERR_SUCCESS -> returned n st' = succ) /\
      (operational_error rc ->
       returned n st' = [LNil; LNumber rc; LString (mosquitto_strerror rc)]) /\
      (rc = MOSQ_ERR_ERRNO ->
       returned n st' = [LNil; LNumber (reply_errno env); LString (strerror (reply_errno env))])
  | Raise e st' => hard_error rc /\ e = ErrMsg (mosquitto_strerror rc)
  | Undef _ => True
  end.

(** Either the codec was not called since [st0], or the verdict holds. *)
Definition reported {h : host} (st0 : lua_State) (succ : list lua_value) (env : codec_reply)
    (r : result Z) : Prop :=
  match final_state r with
  | Some st' => codec_log st' = codec_log st0 \/ verdict succ env r
  | None => True
  end.

(** The record a call of the value [v] leaves: host functions are recorded,
    other values are not callable. *)
Definition log_call (v : lua_value) (args : list lua_value) (st : lua_State) : lua_State :=
  match v with
  | LFunction f => set_hook_log ((f, args) :: hook_log st) st
  | _ => st
  end.

(** The arguments a hook is called with for an event, and whether
    [lua_checkstack] lets the call be made. *)
Definition connack_string (rc : Z) : string :=
  if rc =? CONN_ACCEPT then "connection accepted"
  else if rc =? CONN_REF_BAD_PROTOCOL then "connection refused - incorrect protocol version"
  else if rc =? CONN_REF_BAD_ID then "connection refused - invalid client identifier"
  else if rc =? CONN_REF_SERVER_NOAVAIL then "connection refused - server unavailable"
  else if rc =? CONN_REF_BAD_LOGIN then "connection refused - bad username or password"
  else if rc =? CONN_REF_NO_AUTH then "connection refused - not authorised"
  else if rc =? CONN_REF_BAD_TLS then "connection refused - TLS error"
  else "reserved for future use".

Definition hook_args (ev : mosq_event) : list lua_value :=
  match ev with
  | EvConnect rc => [LBoolean (rc =? 0); LNumber rc; LString (connack_string rc)]
  | EvDisconnect rc =>
      [LBoolean (rc =? 0); LNumber rc;
       LString (if rc =? 0 then "client-initiated disconnect" else "unexpected disconnect")]
  | EvPublish mid => [LNumber mid]
  | EvMessage msg =>
      [LNumber (msg_mid msg); LString (msg_topic msg); LString (msg_payload msg);
       LNumber (msg_qos msg); LBoolean (msg_retain msg)]
  | EvSubscribe mid granted_qos => LNumber mid :: map LNumber granted_qos
  | EvUnsubscribe mid => [LNumber mid]
  | EvLog level str => [LNumber level; LString str]
  end.

Definition hook_called {h : host} (st : lua_State) (ev : mosq_event) : bool :=
  match ev with
  | EvSubscribe _ granted_qos =>
      (Z.of_nat (length granted_qos) + 2 <=? LUAI_MAXCSTACK)
      && (Z.of_nat (length (stack st)) + (Z.of_nat (length granted_qos) + 2) <=? LUAI_MAXCSTACK)
  | _ => true
  end.

(** The integers an event carries are C [int]s. *)
Definition event_ints (ev : mosq_event) : Prop :=
  match ev with
  | EvConnect rc | EvDisconnect rc => is_int rc
  | EvLog level _ => is_int level
  | _ => True
  end.

(** ** The rest of the binding: queries and the library as a whole *)

Section Library.

Context {h : host}.

(** [mosquitto_socket] and [mosquitto_want_write] only read the handle:
    what they answer for it is an input. *)
Definition ctx_socket (L : lua_thread) (mosquitto_socket : option nat -> Z) : M Z :=
  let* ctx := ctx_check 1 in
  let* mosq := load ctx ctx_mosq in
  let fd := mosquitto_socket mosq in
  (if fd =? -1 then lua_pushboolean false else lua_pushinteger fd) >>
  ret 1.

Definition ctx_want_write (L : lua_thread) (mosquitto_want_write : option nat -> bool) : M Z :=
  let* ctx := ctx_check 1 in
  let* mosq := load ctx ctx_mosq in
  lua_pushboolean (mosquitto_want_write mosq) >>
  ret 1.

(** The conversion [%i] of [sprintf]. *)
Definition sprintf_i (n : Z) : string := NilZero.string_of_int (Z.to_int n).

(** [mosq_version]: the three numbers [mosquitto_lib_version] stores are
    an input.  [sprintf] writes into [char version[16]]; a rendering that
    does not fit with its terminating NUL overruns the buffer. *)
Definition mosq_version (L : lua_thread) (mosquitto_lib_version : Z * Z * Z) : M Z :=
  let '(major, minor, rev) := mosquitto_lib_version in
  let version := (sprintf_i major ++ "." ++ sprintf_i minor ++ "." ++ sprintf_i rev)%string in
  if (16 <=? String.length version)%nat then undef WildPointer
  else lua_pushstring version >> ret 1.

(** The library as a whole: the static [mosq_initialized] and the calls of
    [mosquitto_lib_init] and [mosquitto_lib_cleanup], newest first. *)
Inductive lib_call :=
| Mosquitto_lib_init
| Mosquitto_lib_cleanup.

Record library := mkLibrary {
  mosq_initialized : Z;
  lib_log : list lib_call;
}.

(** The first two statements of [luaopen_mosquitto]. *)
Definition luaopen_library (lib : library) : library :=
  mkLibrary 1 (Mosquitto_lib_init :: lib_log lib).

Definition mosq_init (L : lua_thread) (lib : library) : M (library * Z) :=
  let lib :=
    if mosq_initialized lib =? 0
    then mkLibrary (mosq_initialized lib) (Mosquitto_lib_init :: lib_log lib)
    else lib in
  let* n := mosq__pstatus MOSQ_ERR_SUCCESS in
  ret (lib, n).

Definition mosq_cleanup (L : lua_thread) (lib : library) : M (library * Z) :=
  let lib := mkLibrary 0 (Mosquitto_lib_cleanup :: lib_log lib) in
  let* n := mosq__pstatus MOSQ_ERR_SUCCESS in
  ret (lib, n).

End Library.

(** ** What the properties below speak of *)

(** The first argument is no live instance: it is absent, not a userdata,
    or a userdata whose metatable is not the one registered as
    [MOSQ_META_CTX] (a destroyed instance). *)
Definition not_instance (st : lua_State) (args : list lua_value) : Prop :=
  forall u mt,
    index2value args 1 = Some (LUserdata u) -> meta st !! u = Some mt ->
    named_meta st !! MOSQ_META_CTX <> Some mt.

(** The return codes [mosq__pstatus] has no case for. *)
Definition unhandled (rc : Z) : Prop :=
  rc <> MOSQ_ERR_SUCCESS /\ ~ hard_error rc /\ ~ operational_error rc /\ rc <> MOSQ_ERR_ERRNO.

(** An optional argument: the value, or nil in its place. *)
Definition or_nil {A} (inj : A -> lua_value) (o : option A) : lua_value :=
  match o with
  | Some a => inj a
  | None => LNil
  end.

(** The hook calls one event leads to: one call of the function bound for
    its kind, if a callback is registered for the kind and the call can be
    made; none otherwise. *)
Definition delivery {h : host} (mosq : option nat) (c : ctx_t) (st : lua_State)
    (ev : mosq_event) : list (nat * list lua_value) :=
  if cb_registered mosq (event_kind ev) (codec_log st) && hook_called st ev then
    match rawget (registry st) (hook_ref c ev) with
    | LFunction f => [(f, hook_args ev)]
    | _ => []
    end
  else [].

(** The hook slots of an instance hold C [int]s, and what the registry has
    under them is none of the binding's own C functions. *)
Definition hooks_ok (st : lua_State) (c : ctx_t) : Prop :=
  forall ev, is_int (hook_ref c ev)
             /\ is_cfunction (rawget (registry st) (hook_ref c ev)) = false.

(** No hook is bound. *)
Definition no_hooks (c : ctx_t) : Prop :=
  forall ev, hook_ref c ev < 0.

(** What [luaL_optstring(L, i, NULL)] makes of an argument that is absent,
    nil, a string or a number, and what
    [lua_isboolean(L, i) ? lua_toboolean(L, i) : true] makes of any. *)
Definition string_arg (v : option lua_value) (s : option string) : Prop :=
  match v with
  | None | Some LNil => s = None
  | Some (LString x) => s = Some (c_str x)
  | Some (LNumber n) => s = Some (c_str (lua_number2str n))
  | _ => False
  end.

Definition boolean_arg (v : option lua_value) : bool :=
  match v with
  | Some (LBoolean b) => b
  | _ => true
  end.

(** The instance [mosq_new] makes for a handle. *)
Definition fresh_ctx (mosq : nat) : ctx_t :=
  mkCtx None (Some mosq) LUA_REFNIL LUA_REFNIL LUA_REFNIL LUA_REFNIL LUA_REFNIL
        LUA_REFNIL LUA_REFNIL.

(** [n] calls of [init] in a row, each in a frame of its own. *)
Fixpoint init_calls {h : host} (n : nat) (L : lua_thread) (lib : library) : M library :=
  match n with
  | O => ret lib
  | S n' =>
      let* r := in_frame [] (mosq_init L lib) in
      init_calls n' L (fst r)
  end.

(** An instance with the five other hooks bound, inside a loop call:
    [c:callback_set("ON_MESSAGE", f6)], and so on with ON_LOG and f8,
    ON_PUBLISH and f10, ON_SUBSCRIBE and f12, ON_UNSUBSCRIBE and f14. *)
Definition bind_sample (name : string) (f : nat) (st : lua_State) : lua_State :=
  state_after (lua_cfunction_call (ctx_callback_set (h := demo_host) 0%nat (reply 0 []))
                 [LUserdata 2; LString name; LFunction f] st) st.

Definition st_hooks : lua_State :=
  bind_sample "ON_UNSUBSCRIBE" 14
    (bind_sample "ON_SUBSCRIBE" 12
       (bind_sample "ON_PUBLISH" 10
          (bind_sample "ON_LOG" 8
             (bind_sample "ON_MESSAGE" 6 st_new)))).

Definition st_hooks_looping : lua_State :=
  state_after (store 2 (set_ctx_L (Some 0%nat)) st_hooks) st_hooks.

Definition ctx_hooks_looping : ctx_t :=
  mkCtx (Some 0%nat) (Some 7%nat) (-1) (-1) 3 1 4 5 2.

(** The instance of [st_hook4]. *)
Definition ctx_hook4 : ctx_t := mkCtx None (Some 7%nat) 1 2 (-1) (-1) (-1) (-1) (-1).

(** libmosquitto out of memory in [mosquitto_new]. *)
Definition reply_null : codec_reply :=
  {| reply_rc := 0; reply_mid := 0; reply_errno := 12; reply_handle := None;
     reply_flag := false; reply_events := [] |}.

Definition sample_message : mosquitto_message :=
  {| msg_mid := 9; msg_topic := "a/b"; msg_payload := "on"; msg_qos := 1;
     msg_retain := false |}.

Arguments c_int : simpl never.
Arguments luaD_call : simpl never.
Arguments returned : simpl never.

(** * Proofs *)

Section Proofs.

Context {h : host}.

(** ** Arithmetic, lists and records *)

Lemma c_int_id (z : Z) : is_int z -> c_int z = z.
Proof.
  unfold is_int, c_int. intros Hz.
  rewrite Z.mod_small by lia. lia.
Qed.

Lemma state_eta (st : lua_State) : set_stack (stack st) st = st.
Proof. destruct st; reflexivity. Qed.

Lemma drop_app_tail {A} (l1 l2 : list A) :
  drop (length (l1 ++ l2) - length l2) (l1 ++ l2) = l2.
Proof.
  rewrite length_app.
  replace (length l1 + length l2 - length l2)%nat with (length l1) by lia.
  now rewrite drop_app_length.
Qed.

Lemma returned_push1 (st : lua_State) (stk : list lua_value) (v : lua_value) :
  stack st = stk ++ [v] -> returned 1 st = [v].
Proof.
  intros Hstk. unfold returned. rewrite Hstk. apply (drop_app_tail stk [v]).
Qed.

Lemma returned_push3 (st : lua_State) (stk : list lua_value) (a b c : lua_value) :
  stack st = ((stk ++ [a]) ++ [b]) ++ [c] -> returned 3 st = [a; b; c].
Proof.
  intros Hstk. unfold returned. rewrite Hstk, <- !app_assoc. simpl.
  apply (drop_app_tail stk [a; b; c]).
Qed.

(** ** Computations that leave the state alone *)

Definition readonly {A} (m : M A) : Prop :=
  forall st,
    match m st with
    | Done _ st' | Raise _ st' => st' = st
    | Undef _ => True
    end.

Lemma readonly_ret {A} (a : A) : readonly (ret a).
Proof. intros st. reflexivity. Qed.

Lemma readonly_reads {A} (f : lua_State -> A) : readonly (reads f).
Proof. intros st. reflexivity. Qed.

Lemma readonly_throw {A} (e : lua_error) : readonly (throw (A := A) e).
Proof. intros st. reflexivity. Qed.

Lemma readonly_undef {A} (u : ub) : readonly (undef (A := A) u).
Proof. intros st. exact I. Qed.

Lemma readonly_bind {A B} (m : M A) (k : A -> M B) :
  readonly m -> (forall a, readonly (k a)) -> readonly (bind m k).
Proof.
  intros Hm Hk st. unfold bind. specialize (Hm st).
  destruct (m st) as [a st'|e st'|u]; subst; try reflexivity.
  apply Hk.
Qed.

Lemma readonly_if {A} (b : bool) (m1 m2 : M A) :
  readonly m1 -> readonly m2 -> readonly (if b then m1 else m2).
Proof. destruct b; auto. Qed.

Lemma readonly_load {A} (ctx : nat) (f : ctx_t -> A) : readonly (load ctx f).
Proof. intros st. unfold load. destruct (udata st !! ctx); reflexivity. Qed.

Lemma readonly_luaL_checkudata (ud : Z) (tname : string) : readonly (luaL_checkudata ud tname).
Proof.
  intros st. unfold luaL_checkudata.
  destruct (index2value (stack st) ud) as [[]|]; try reflexivity.
  destruct (meta st !! u), (named_meta st !! tname); try reflexivity.
  destruct (bool_decide _); reflexivity.
Qed.

Lemma readonly_strcmp_ptr (s1 : option string) (s2 : string) : readonly (strcmp_ptr s1 s2).
Proof. destruct s1; intros st; reflexivity. Qed.

Create HintDb readonly.

#[local] Hint Resolve readonly_ret readonly_reads readonly_throw readonly_undef
  readonly_load readonly_luaL_checkudata readonly_strcmp_ptr : readonly.

Ltac readonly_tac :=
  repeat first
    [ solve [ auto with readonly ]
    | apply readonly_bind; [ | intros ? ]
    | apply readonly_if
    | match goal with
      | |- readonly (match ?x with _ => _ end) => destruct x
      end ].

Lemma readonly_value_at (idx : Z) : readonly (value_at idx).
Proof. unfold value_at. readonly_tac. Qed.
#[local] Hint Resolve readonly_value_at : readonly.

Lemma readonly_lua_type (idx : Z) : readonly (lua_type idx).
Proof. unfold lua_type. readonly_tac. Qed.
#[local] Hint Resolve readonly_lua_type : readonly.

Lemma readonly_lua_isnil (idx : Z) : readonly (lua_isnil idx).
Proof. unfold lua_isnil. readonly_tac. Qed.

Lemma readonly_lua_isnoneornil (idx : Z) : readonly (lua_isnoneornil idx).
Proof. unfold lua_isnoneornil. readonly_tac. Qed.

Lemma readonly_lua_isboolean (idx : Z) : readonly (lua_isboolean idx).
Proof. unfold lua_isboolean. readonly_tac. Qed.

Lemma readonly_lua_isfunction (idx : Z) : readonly (lua_isfunction idx).
Proof. unfold lua_isfunction. readonly_tac. Qed.

Lemma readonly_lua_isstring (idx : Z) : readonly (lua_isstring idx).
Proof. unfold lua_isstring. readonly_tac. Qed.

Lemma readonly_lua_toboolean (idx : Z) : readonly (lua_toboolean idx).
Proof. unfold lua_toboolean. readonly_tac. Qed.

Lemma readonly_lua_tolstring (idx : Z) : readonly (lua_tolstring idx).
Proof. unfold lua_tolstring. readonly_tac. Qed.
#[local] Hint Resolve readonly_lua_isnil readonly_lua_isnoneornil readonly_lua_isboolean
  readonly_lua_isfunction readonly_lua_isstring readonly_lua_toboolean
  readonly_lua_tolstring : readonly.

Lemma readonly_lua_tostring (idx : Z) : readonly (lua_tostring idx).
Proof. unfold lua_tostring. readonly_tac. Qed.

Lemma readonly_lua_tointeger (idx : Z) : readonly (lua_tointeger idx).
Proof. unfold lua_tointeger. readonly_tac. Qed.

Lemma readonly_lua_isnumber (idx : Z) : readonly (lua_isnumber idx).
Proof. unfold lua_isnumber. readonly_tac. Qed.

Lemma readonly_luaL_checklstring (narg : Z) : readonly (luaL_checklstring narg).
Proof. unfold luaL_checklstring, luaL_typerror. readonly_tac. Qed.
#[local] Hint Resolve readonly_lua_tostring readonly_lua_tointeger readonly_lua_isnumber
  readonly_luaL_checklstring : readonly.

Lemma readonly_luaL_checkstring (narg : Z) : readonly (luaL_checkstring narg).
Proof. unfold luaL_checkstring. readonly_tac. Qed.
#[local] Hint Resolve readonly_luaL_checkstring : readonly.

Lemma readonly_luaL_optstring (narg : Z) (def : option string) :
  readonly (luaL_optstring narg def).
Proof. unfold luaL_optstring. readonly_tac. Qed.

Lemma readonly_luaL_checkinteger (narg : Z) : readonly (luaL_checkinteger narg).
Proof. unfold luaL_checkinteger, luaL_typerror. readonly_tac. Qed.
#[local] Hint Resolve readonly_luaL_optstring readonly_luaL_checkinteger : readonly.

Lemma readonly_luaL_optinteger (narg def : Z) : readonly (luaL_optinteger narg def).
Proof. unfold luaL_optinteger. readonly_tac. Qed.

Lemma readonly_ctx_check (i : Z) : readonly (ctx_check i).
Proof. unfold ctx_check. readonly_tac. Qed.

Lemma readonly_payload_at (idx : Z) : readonly (payload_at idx).
Proof. unfold payload_at. readonly_tac. Qed.

Lemma readonly_string_or_null (idx : Z) : readonly (string_or_null idx).
Proof. unfold string_or_null. readonly_tac. Qed.
#[local] Hint Resolve readonly_luaL_optinteger readonly_ctx_check readonly_payload_at
  readonly_string_or_null : readonly.

(** ** Computations that only call host functions *)

Lemma extends_refl (st : lua_State) : extends st st.
Proof. split; [reflexivity | exists []; reflexivity]. Qed.

Lemma extends_trans (st1 st2 st3 : lua_State) :
  extends st1 st2 -> extends st2 st3 -> extends st1 st3.
Proof.
  intros [He1 [c1 Hc1]] [He2 [c2 Hc2]]. split; [congruence |].
  exists (c2 ++ c1). rewrite Hc2, Hc1. apply app_assoc.
Qed.

Lemma extends_stack_l (x : list lua_value) (st st' : lua_State) :
  extends (set_stack x st) st' -> extends st st'.
Proof. intros He. destruct st; exact He. Qed.

Lemma extends_stack_r (x : list lua_value) (st st' : lua_State) :
  extends st st' -> extends st (set_stack x st').
Proof. intros He. destruct st'; exact He. Qed.

Definition quiet {A} (m : M A) : Prop :=
  forall st,
    match m st with
    | Done _ st' | Raise _ st' => extends st st'
    | Undef _ => True
    end.

Definition noraise {A} (m : M A) : Prop :=
  forall st,
    match m st with
    | Raise _ _ => False
    | _ => True
    end.

Lemma quiet_readonly {A} (m : M A) : readonly m -> quiet m.
Proof.
  intros Hm st. specialize (Hm st).
  destruct (m st); subst; auto using extends_refl.
Qed.

Lemma quiet_bind {A B} (m : M A) (k : A -> M B) :
  quiet m -> (forall a, quiet (k a)) -> quiet (bind m k).
Proof.
  intros Hm Hk st. unfold bind. specialize (Hm st).
  destruct (m st) as [a st'|e st'|u]; auto.
  specialize (Hk a st').
  destruct (k a st'); eauto using extends_trans.
Qed.

Lemma quiet_if {A} (b : bool) (m1 m2 : M A) :
  quiet m1 -> quiet m2 -> quiet (if b then m1 else m2).
Proof. destruct b; auto. Qed.

Lemma quiet_modify_stack (f : lua_State -> list lua_value) :
  quiet (modify (fun st => set_stack (f st) st)).
Proof. intros st. apply extends_stack_r, extends_refl. Qed.

Lemma quiet_lua_push (v : lua_value) : quiet (lua_push v).
Proof. apply quiet_modify_stack. Qed.

Lemma quiet_lua_pop (n : nat) : quiet (lua_pop n).
Proof. apply quiet_modify_stack. Qed.

Lemma quiet_with_state {A} (L : option lua_thread) (m : M A) :
  quiet m -> quiet (with_state L m).
Proof. destruct L; [auto | intros _ st; exact I]. Qed.

Lemma quiet_call_closure (f : nat) (args : list lua_value) : quiet (call_closure f args).
Proof.
  intros st. unfold call_closure.
  assert (extends st (set_hook_log ((f, args) :: hook_log st) st)).
  { split; [reflexivity | exists [(f, args)]; reflexivity]. }
  destruct (lua_closure f args); assumption.
Qed.

Lemma quiet_pop_call (nargs : nat) : quiet (pop_call nargs).
Proof.
  intros st. unfold pop_call.
  destruct (stack st !! _); [| exact I].
  destruct (_ <=? _)%nat; [| exact I].
  apply extends_stack_r, extends_refl.
Qed.

Lemma quiet_in_frame {A} (args : list lua_value) (body : M A) :
  quiet body -> quiet (in_frame args body).
Proof.
  intros Hb st. unfold in_frame. specialize (Hb (set_stack args st)).
  destruct (body (set_stack args st)); auto;
    apply extends_stack_r; eapply extends_stack_l; eassumption.
Qed.

Create HintDb quiet.

#[local] Hint Resolve quiet_modify_stack quiet_lua_push quiet_lua_pop quiet_call_closure
  quiet_pop_call : quiet.

Ltac quiet_tac :=
  repeat first
    [ solve [ auto with quiet ]
    | solve [ apply quiet_readonly; readonly_tac ]
    | apply quiet_bind; [ | intros ? ]
    | apply quiet_if
    | apply quiet_with_state
    | apply quiet_in_frame
    | match goal with
      | |- quiet (match ?x with _ => _ end) => destruct x
      end ].

Lemma quiet_lua_rawgeti_registry (n : Z) : quiet (lua_rawgeti_registry n).
Proof. unfold lua_rawgeti_registry. quiet_tac. Qed.
#[local] Hint Resolve quiet_lua_rawgeti_registry : quiet.

Lemma quiet_push_integers (ns : list Z) : quiet (push_integers ns).
Proof.
  induction ns as [|n ns IH]; simpl; [quiet_tac |].
  apply quiet_bind; [apply quiet_lua_push | intros _; exact IH].
Qed.
#[local] Hint Resolve quiet_push_integers : quiet.

Section QuietCalls.

Variable call : lua_value -> list lua_value -> M unit.
Hypothesis quiet_call : forall f args, quiet (call f args).

Lemma quiet_lua_call_with (nargs : nat) : quiet (lua_call_with call nargs).
Proof. unfold lua_call_with. quiet_tac. Qed.

Lemma quiet_lua_pcall_with (nargs : nat) : quiet (lua_pcall_with call nargs).
Proof.
  intros st. unfold lua_pcall_with.
  pose proof (quiet_pop_call nargs st) as Hp.
  destruct (pop_call nargs st) as [fa st1|e st1|u]; auto.
  pose proof (quiet_call (fst fa) (snd fa) st1) as Hc.
  destruct (call (fst fa) (snd fa) st1) as [[] st2|e st2|u]; auto;
    apply extends_stack_r; eapply extends_trans; eassumption.
Qed.

Lemma quiet_cfunction_body (c : cfunction) : quiet (cfunction_body call c).
Proof.
  pose proof quiet_lua_call_with as Hcall.
  destruct c; simpl;
    unfold ctx_on_connect_safe, ctx_on_disconnect_safe, ctx_on_message_safe,
      ctx_on_log_safe, lua_pushboolean, lua_pushinteger, lua_pushstring,
      lua_pushlstring, lua_touserdata;
    quiet_tac.
Qed.

End QuietCalls.

Lemma quiet_luaD_call (depth : nat) (f : lua_value) (args : list lua_value) :
  quiet (luaD_call depth f args).
Proof.
  revert f args. induction depth as [|depth IH]; intros f args;
    destruct f; unfold luaD_call; fold luaD_call; try solve [quiet_tac].
  apply quiet_bind; [| intros ?; quiet_tac].
  apply quiet_in_frame, quiet_cfunction_body, IH.
Qed.

Lemma quiet_lua_pcall (nargs : nat) : quiet (lua_pcall nargs).
Proof. apply quiet_lua_pcall_with, quiet_luaD_call. Qed.
#[local] Hint Resolve quiet_lua_pcall : quiet.

Lemma quiet_dispatch (obj : nat) (ev : mosq_event) : quiet (dispatch obj ev).
Proof.
  destruct ev; simpl;
    unfold ctx_on_connect, ctx_on_disconnect, ctx_on_publish, ctx_on_message,
      ctx_on_subscribe, ctx_on_unsubscribe, ctx_on_log, lua_pushcfunction,
      lua_pushinteger, lua_pushlightuserdata, lua_checkstack;
    quiet_tac.
Qed.

Lemma noraise_lua_pcall (nargs : nat) : noraise (lua_pcall nargs).
Proof.
  intros st. unfold lua_pcall, lua_pcall_with, pop_call.
  destruct (stack st !! _); [| exact I].
  destruct (_ <=? _)%nat; [| exact I].
  destruct (luaD_call _ _ _ _); exact I.
Qed.

Lemma noraise_bind {A B} (m : M A) (k : A -> M B) :
  noraise m -> (forall a, noraise (k a)) -> noraise (bind m k).
Proof.
  intros Hm Hk st. unfold bind. specialize (Hm st).
  destruct (m st) as [a st'|e st'|u]; auto. apply Hk.
Qed.

Lemma noraise_modify (f : lua_State -> lua_State) : noraise (modify f).
Proof. intros st. exact I. Qed.

Lemma noraise_ret {A} (a : A) : noraise (ret a).
Proof. intros st. exact I. Qed.

Lemma noraise_reads {A} (f : lua_State -> A) : noraise (reads f).
Proof. intros st. exact I. Qed.

Lemma noraise_load {A} (ctx : nat) (f : ctx_t -> A) : noraise (load ctx f).
Proof. intros st. unfold load. destruct (udata st !! ctx); exact I. Qed.

Lemma noraise_with_state {A} (L : option lua_thread) (m : M A) :
  noraise m -> noraise (with_state L m).
Proof. destruct L; [auto | intros _ st; exact I]. Qed.

Lemma noraise_if {A} (b : bool) (m1 m2 : M A) :
  noraise m1 -> noraise m2 -> noraise (if b then m1 else m2).
Proof. destruct b; auto. Qed.

Lemma noraise_push_integers (ns : list Z) : noraise (push_integers ns).
Proof.
  induction ns as [|n ns IH]; simpl; [apply noraise_ret |].
  apply noraise_bind; [apply noraise_modify | intros _; exact IH].
Qed.

Create HintDb noraise.

#[local] Hint Resolve noraise_lua_pcall noraise_modify noraise_ret noraise_reads
  noraise_load noraise_push_integers : noraise.

Ltac noraise_tac :=
  repeat first
    [ solve [ auto with noraise ]
    | apply noraise_bind; [ | intros ? ]
    | apply noraise_if
    | apply noraise_with_state ].

Lemma noraise_dispatch (obj : nat) (ev : mosq_event) : noraise (dispatch obj ev).
Proof.
  destruct ev; simpl;
    unfold ctx_on_connect, ctx_on_disconnect, ctx_on_publish, ctx_on_message,
      ctx_on_subscribe, ctx_on_unsubscribe, ctx_on_log, lua_pushcfunction,
      lua_pushinteger, lua_pushlightuserdata, lua_checkstack, lua_rawgeti_registry,
      lua_push, lua_pop;
    noraise_tac.
Qed.

Lemma quiet_report_all (mosq : option nat) (obj : nat) (evs : list mosq_event) :
  quiet (report_all mosq obj evs).
Proof.
  induction evs as [|ev evs IH]; simpl; [quiet_tac |].
  apply quiet_bind; [| intros _; exact IH].
  unfold report. quiet_tac. apply quiet_dispatch.
Qed.

Lemma noraise_report_all (mosq : option nat) (obj : nat) (evs : list mosq_event) :
  noraise (report_all mosq obj evs).
Proof.
  induction evs as [|ev evs IH]; simpl; [apply noraise_ret |].
  apply noraise_bind; [| intros _; exact IH].
  unfold report. noraise_tac. apply noraise_dispatch.
Qed.

(** A loop call into the codec is logged, answers with the reply's code
    and [errno], and never raises. *)
Lemma codec_loop_spec (c : codec_call) (mosq : option nat) (obj : nat)
    (env : codec_reply) (st : lua_State) :
  match codec_loop c mosq obj env st with
  | Done rc st' =>
      rc = reply_rc env /\ errno st' = reply_errno env
      /\ codec_log st' = c :: codec_log st /\ udata st' = udata st
  | Raise _ _ => False
  | Undef _ => True
  end.
Proof.
  unfold codec_loop, bind, modify, ret.
  set (st1 := set_codec_log (c :: codec_log st) st).
  pose proof (quiet_report_all mosq obj (reply_events env) st1) as Hq.
  pose proof (noraise_report_all mosq obj (reply_events env) st1) as Hn.
  destruct (report_all mosq obj (reply_events env) st1) as [[] st2|e st2|u]; auto.
  destruct Hq as [He _]. unfold engine in He.
  destruct st2, st. simpl in *. inversion He; subst. auto.
Qed.

(** ** The status handler *)

Lemma verdict_pstatus (env : codec_reply) (st : lua_State) :
  errno st = reply_errno env ->
  verdict [LBoolean true] env (mosq__pstatus (reply_rc env) st).
Proof.
  intros Herrno. unfold mosq__pstatus, verdict, hard_error, operational_error.
  set (rc := reply_rc env).
  destruct (Z.eqb_spec rc MOSQ_ERR_SUCCESS) as [H0|H0].
  { cbn. repeat split.
    - unfold MOSQ_ERR_INVAL, MOSQ_ERR_NOMEM, MOSQ_ERR_PROTOCOL, MOSQ_ERR_NOT_SUPPORTED,
        MOSQ_ERR_SUCCESS in *. lia.
    - intros _. eapply returned_push1. reflexivity.
    - unfold MOSQ_ERR_NO_CONN, MOSQ_ERR_CONN_LOST, MOSQ_ERR_PAYLOAD_SIZE,
        MOSQ_ERR_SUCCESS in *. lia.
    - unfold MOSQ_ERR_ERRNO, MOSQ_ERR_SUCCESS in *. lia. }
  destruct (Z.eqb_spec rc MOSQ_ERR_INVAL) as [H1|H1]; [cbn; tauto |].
  destruct (Z.eqb_spec rc MOSQ_ERR_NOMEM) as [H2|H2]; [cbn; tauto |].
  destruct (Z.eqb_spec rc MOSQ_ERR_PROTOCOL) as [H3|H3]; [cbn; tauto |].
  destruct (Z.eqb_spec rc MOSQ_ERR_NOT_SUPPORTED) as [H4|H4]; [cbn; tauto |].
  assert (Hhard : ~ (rc = MOSQ_ERR_INVAL \/ rc = MOSQ_ERR_NOMEM \/ rc = MOSQ_ERR_PROTOCOL
                     \/ rc = MOSQ_ERR_NOT_SUPPORTED)) by tauto.
  assert (Hop : forall st', stack st' = ((stack st ++ [LNil]) ++ [LNumber rc])
                                          ++ [LString (mosquitto_strerror rc)] ->
                (rc = MOSQ_ERR_NO_CONN \/ rc = MOSQ_ERR_CONN_LOST \/ rc = MOSQ_ERR_PAYLOAD_SIZE) ->
                ~ (rc = MOSQ_ERR_INVAL \/ rc = MOSQ_ERR_NOMEM \/ rc = MOSQ_ERR_PROTOCOL
                   \/ rc = MOSQ_ERR_NOT_SUPPORTED) /\
                (rc = MOSQ_ERR_SUCCESS -> returned 3 st' = [LBoolean true]) /\
                (rc = MOSQ_ERR_NO_CONN \/ rc = MOSQ_ERR_CONN_LOST \/ rc = MOSQ_ERR_PAYLOAD_SIZE ->
                 returned 3 st' = [LNil; LNumber rc; LString (mosquitto_strerror rc)]) /\
                (rc = MOSQ_ERR_ERRNO ->
                 returned 3 st' = [LNil; LNumber (reply_errno env);
                                   LString (strerror (reply_errno env))])).
  { intros st' Hstk Hrc. repeat split; try tauto.
    - intros _. eapply returned_push3. exact Hstk.
    - intros HE. exfalso. revert Hrc HE.
      unfold MOSQ_ERR_ERRNO, MOSQ_ERR_NO_CONN, MOSQ_ERR_CONN_LOST, MOSQ_ERR_PAYLOAD_SIZE.
      lia. }
  destruct (Z.eqb_spec rc MOSQ_ERR_NO_CONN) as [H5|H5];
    [cbn; apply Hop; [reflexivity | tauto] |].
  destruct (Z.eqb_spec rc MOSQ_ERR_CONN_LOST) as [H6|H6];
    [cbn; apply Hop; [reflexivity | tauto] |].
  destruct (Z.eqb_spec rc MOSQ_ERR_PAYLOAD_SIZE) as [H7|H7];
    [cbn; apply Hop; [reflexivity | tauto] |].
  destruct (Z.eqb_spec rc MOSQ_ERR_ERRNO) as [H8|H8]; cbn.
  - repeat split; try tauto.
    intros _. rewrite Herrno. eapply returned_push3. reflexivity.
  - repeat split; tauto.
Qed.

Lemma reported_verdict (st0 : lua_State) (succ : list lua_value) (env : codec_reply)
    (r : result Z) :
  verdict succ env r -> reported st0 succ env r.
Proof. unfold reported. destruct r; simpl; auto. Qed.

Lemma reported_bind_ro {A} (st0 : lua_State) (succ : list lua_value) (env : codec_reply)
    (m : M A) (k : A -> M Z) (st : lua_State) :
  readonly m ->
  codec_log st = codec_log st0 ->
  (forall a, reported st0 succ env (k a st)) ->
  reported st0 succ env (bind m k st).
Proof.
  intros Hm Hlog Hk. unfold bind. specialize (Hm st).
  destruct (m st) as [a st'|e st'|u]; subst.
  - apply Hk.
  - left. exact Hlog.
  - exact I.
Qed.

Lemma reported_bind_store (st0 : lua_State) (succ : list lua_value) (env : codec_reply)
    (ctx : nat) (f : ctx_t -> ctx_t) (k : unit -> M Z) (st : lua_State) :
  (forall c, reported st0 succ env (k tt (set_udata (<[ctx := f c]> (udata st)) st))) ->
  reported st0 succ env (bind (store ctx f) k st).
Proof.
  intros Hk. unfold bind, store.
  destruct (udata st !! ctx); [apply Hk | exact I].
Qed.

Lemma reported_bind_codec (st0 : lua_State) (succ : list lua_value) (env : codec_reply)
    (c : codec_call) (k : Z -> M Z) (st : lua_State) :
  (forall st', errno st' = reply_errno env -> verdict succ env (k (reply_rc env) st')) ->
  reported st0 succ env (bind (codec c env) k st).
Proof.
  intros Hk. apply reported_verdict. apply Hk. reflexivity.
Qed.

Lemma reported_bind_codec_loop (st0 : lua_State) (succ : list lua_value) (env : codec_reply)
    (c : codec_call) (mosq : option nat) (obj : nat) (k : Z -> M Z) (st : lua_State) :
  (forall st', errno st' = reply_errno env -> verdict succ env (k (reply_rc env) st')) ->
  reported st0 succ env (bind (codec_loop c mosq obj env) k st).
Proof.
  intros Hk. apply reported_verdict. unfold bind.
  pose proof (codec_loop_spec c mosq obj env st) as Hs.
  destruct (codec_loop c mosq obj env st) as [rc st'|e st'|u]; [| contradiction | exact I].
  destruct Hs as (-> & Herrno & _). apply Hk, Herrno.
Qed.

(** What may run between the codec call and the handler: it neither
    raises nor touches [errno]. *)
Definition keeps_errno {A} (m : M A) : Prop :=
  forall st,
    match m st with
    | Done _ st' => errno st' = errno st
    | Raise _ _ => False
    | Undef _ => True
    end.

Lemma keeps_errno_bind {A B} (m : M A) (k : A -> M B) :
  keeps_errno m -> (forall a, keeps_errno (k a)) -> keeps_errno (bind m k).
Proof.
  intros Hm Hk st. unfold bind. specialize (Hm st).
  destruct (m st) as [a st'|e st'|u]; auto.
  specialize (Hk a st'). destruct (k a st'); auto. congruence.
Qed.

Lemma keeps_errno_store (ctx : nat) (f : ctx_t -> ctx_t) : keeps_errno (store ctx f).
Proof. intros st. unfold store. destruct (udata st !! ctx); [reflexivity | exact I]. Qed.

Lemma keeps_errno_load {A} (ctx : nat) (f : ctx_t -> A) : keeps_errno (load ctx f).
Proof. intros st. unfold load. destruct (udata st !! ctx); [reflexivity | exact I]. Qed.

Lemma keeps_errno_luaL_unref (L : option lua_thread) (ref : Z) : keeps_errno (luaL_unref L ref).
Proof.
  intros st. unfold luaL_unref.
  destruct (0 <=? ref); [| reflexivity]. destruct L; [reflexivity | exact I].
Qed.

Lemma keeps_errno_ctx__on_init (ctx : nat) : keeps_errno (ctx__on_init ctx).
Proof.
  unfold ctx__on_init.
  repeat first [apply keeps_errno_store | apply keeps_errno_bind; [| intros ?]].
Qed.

Lemma keeps_errno_ctx__on_clear (ctx : nat) : keeps_errno (ctx__on_clear ctx).
Proof.
  unfold ctx__on_clear.
  repeat first [apply keeps_errno_load | apply keeps_errno_luaL_unref
               | apply keeps_errno_bind; [| intros ?]].
Qed.

Lemma verdict_after {A} (env : codec_reply) (m : M A) (st : lua_State) :
  keeps_errno m ->
  errno st = reply_errno env ->
  verdict [LBoolean true] env (bind m (fun _ => mosq__pstatus (reply_rc env)) st).
Proof.
  intros Hm Herrno. unfold bind. specialize (Hm st).
  destruct (m st) as [a st'|e st'|u]; [| contradiction | exact I].
  apply verdict_pstatus. congruence.
Qed.

(** The tail of the messaging operations: the handler on failure, the
    value the codec stored on success. *)
Lemma verdict_or_value (env : codec_reply) (v : lua_value) (st : lua_State) :
  errno st = reply_errno env ->
  verdict [v] env
    ((if negb (reply_rc env =? MOSQ_ERR_SUCCESS) then mosq__pstatus (reply_rc env)
      else bind (lua_push v) (fun _ => ret 1)) st).
Proof.
  intros Herrno.
  destruct (Z.eqb_spec (reply_rc env) MOSQ_ERR_SUCCESS) as [H0|H0]; simpl.
  - unfold verdict, hard_error, operational_error. cbn. rewrite H0. repeat split.
    + unfold MOSQ_ERR_INVAL, MOSQ_ERR_NOMEM, MOSQ_ERR_PROTOCOL, MOSQ_ERR_NOT_SUPPORTED,
        MOSQ_ERR_SUCCESS. lia.
    + intros _. eapply returned_push1. reflexivity.
    + unfold MOSQ_ERR_NO_CONN, MOSQ_ERR_CONN_LOST, MOSQ_ERR_PAYLOAD_SIZE,
        MOSQ_ERR_SUCCESS. lia.
    + unfold MOSQ_ERR_ERRNO, MOSQ_ERR_SUCCESS. lia.
  - pose proof (verdict_pstatus env st Herrno) as Hv.
    unfold verdict in *. destruct (mosq__pstatus (reply_rc env) st); auto.
    destruct Hv as (Hh & _ & Hrest). repeat split; tauto.
Qed.

Lemma reported_if_argerror (st0 : lua_State) (succ : list lua_value) (env : codec_reply)
    (b : bool) (narg : Z) (msg : string) (m : M Z) (st : lua_State) :
  codec_log st = codec_log st0 ->
  reported st0 succ env (m st) ->
  reported st0 succ env ((if b then luaL_argerror narg msg else m) st).
Proof. intros Hlog Hm. destruct b; [left; exact Hlog | exact Hm]. Qed.

Ltac reported_tac :=
  repeat first
    [ apply reported_bind_ro; [ solve [ readonly_tac ] | reflexivity | intros ? ]
    | apply reported_if_argerror; [ reflexivity | ]
    | apply reported_bind_codec; intros ? ?
    | apply reported_bind_codec_loop; intros ? ?
    | apply reported_bind_store; intros ? ].

Lemma reported_operation (op : operation) (L : lua_thread) (env : codec_reply)
    (st0 : lua_State) :
  reported st0 (success_values op env) env (run_operation op L env st0).
Proof.
  destruct op; simpl;
    unfold mosq_topic_matches_sub, ctx_reinitialise, ctx_will_set, ctx_will_clear,
      ctx_login_set, ctx_tls_opts_set, ctx_version_set, ctx_tls_set,
      ctx_tls_insecure_set, ctx_tls_psk_set, ctx_threaded_set, ctx_connect,
      ctx_connect_async, ctx_reconnect, ctx_reconnect_delay_set, ctx_reconnect_async,
      ctx_disconnect, ctx_publish, ctx_subscribe, ctx_unsubscribe, ctx_loop,
      ctx_loop_forever, mosq_loop, ctx_loop_start, ctx_loop_stop, ctx_loop_read,
      ctx_loop_write, ctx_loop_misc;
    reported_tac.
  all: try (apply verdict_pstatus; assumption).
  all: try (apply verdict_or_value; assumption).
  all: try (apply verdict_after;
            [ repeat first [ apply keeps_errno_store | apply keeps_errno_ctx__on_init
                           | apply keeps_errno_ctx__on_clear
                           | apply keeps_errno_bind; [| intros ?] ]
            | assumption ]).
  unfold bind at 1.
  pose proof (keeps_errno_ctx__on_clear a st') as Hc.
  destruct (ctx__on_clear a st') as [[] st2|e st2|u]; [| contradiction | exact I].
  apply verdict_after; [apply keeps_errno_ctx__on_init | congruence].
Qed.

Lemma codes_disjoint (rc : Z) :
  (hard_error rc -> rc <> MOSQ_ERR_SUCCESS /\ ~ operational_error rc /\ rc <> MOSQ_ERR_ERRNO).
Proof.
  unfold hard_error, operational_error, MOSQ_ERR_INVAL, MOSQ_ERR_NOMEM, MOSQ_ERR_PROTOCOL,
    MOSQ_ERR_NOT_SUPPORTED, MOSQ_ERR_SUCCESS, MOSQ_ERR_NO_CONN, MOSQ_ERR_CONN_LOST,
    MOSQ_ERR_PAYLOAD_SIZE, MOSQ_ERR_ERRNO.
  lia.
Qed.

(** C1 (amended).  Every operation that hands the codec's return code to
    the shared status handler [mosq__pstatus] ([operation] lists them), once
    the call has reached the codec: invalid-argument, out-of-memory,
    protocol-error and not-supported are raised as a Lua error and not
    returned; no-connection, connection-lost and payload-too-large are
    returned as nil, the code and the codec's description; OS-errno is
    returned as nil, [errno] and its description; and success is returned
    as [success_values] says: the boolean true, except that publish,
    subscribe and unsubscribe return the message id and topic_matches_sub
    the match flag. *)
Theorem status_handler_outcomes (op : operation) (L : lua_thread) (env : codec_reply)
    (args : list lua_value) (st : lua_State) (r : result (list lua_value)) :
  r = lua_cfunction_call (run_operation op L env) args st ->
  codec_called st r ->
  (reply_rc env = MOSQ_ERR_SUCCESS ->
   exists st', r = Done (success_values op env) st') /\
  (hard_error (reply_rc env) ->
   exists st', r = Raise (ErrMsg (mosquitto_strerror (reply_rc env))) st') /\
  (operational_error (reply_rc env) ->
   exists st', r = Done [LNil; LNumber (reply_rc env);
                         LString (mosquitto_strerror (reply_rc env))] st') /\
  (reply_rc env = MOSQ_ERR_ERRNO ->
   exists st', r = Done [LNil; LNumber (reply_errno env);
                         LString (strerror (reply_errno env))] st').
Proof.
  intros -> Hcalled. unfold lua_cfunction_call, codec_called in *.
  pose proof (reported_operation op L env (set_stack args st)) as Hr.
  unfold reported in Hr.
  destruct (run_operation op L env (set_stack args st)) as [n st'|e st'|u];
    simpl in Hr, Hcalled; [| | contradiction].
  - destruct Hr as [Hlog | (Hhard & Hok & Hop & Herr)]; [contradiction |].
    fold (returned n st'). repeat split.
    + intros H0. rewrite (Hok H0). eauto.
    + intros Hh. contradiction.
    + intros Ho. rewrite (Hop Ho). eauto.
    + intros He. rewrite (Herr He). eauto.
  - destruct Hr as [Hlog | (Hhard & ->)]; [contradiction |].
    destruct (codes_disjoint _ Hhard) as (H0 & Ho & He).
    repeat split; try contradiction. eauto.
Qed.

(** ** Dispatch *)

Lemma pop_call_app (nargs : nat) (st : lua_State) (stk : list lua_value)
    (f : lua_value) (args : list lua_value) :
  stack st = stk ++ f :: args -> length args = nargs ->
  pop_call nargs st = Done (f, args) (set_stack stk st).
Proof.
  intros Hstk Hlen. unfold pop_call. rewrite Hstk, length_app. simpl. rewrite Hlen.
  replace (length stk + S nargs - S nargs)%nat with (length stk) by lia.
  replace (length stk + S nargs - nargs)%nat with (S (length stk)) by lia.
  rewrite list_lookup_middle by reflexivity.
  rewrite take_app_length.
  change (stk ++ f :: args) with (stk ++ [f] ++ args).
  rewrite app_assoc.
  replace (S (length stk)) with (length (stk ++ [f])) by (rewrite length_app; simpl; lia).
  rewrite drop_app_length.
  replace (length stk + S nargs)%nat with (S (length stk + nargs)) by lia.
  destruct (Nat.leb_spec nargs (length stk + nargs)); [reflexivity | lia].
Qed.

Lemma luaD_call_host (d : nat) (v : lua_value) (args : list lua_value) (st : lua_State) :
  is_cfunction v = false ->
  luaD_call d v args st = Done tt (log_call v args st)
  \/ exists e, luaD_call d v args st = Raise e (log_call v args st).
Proof.
  intros Hv.
  destruct d, v; try discriminate Hv; unfold luaD_call; simpl;
    try (right; eexists; reflexivity);
    unfold call_closure; destruct (lua_closure _ _); eauto.
Qed.

Lemma set_stack_log_call (x : list lua_value) (v : lua_value) (args : list lua_value)
    (st : lua_State) :
  set_stack x (log_call v args st) = log_call v args (set_stack x st).
Proof. destruct v; reflexivity. Qed.

Lemma set_stack_set_stack (x y : list lua_value) (st : lua_State) :
  set_stack x (set_stack y st) = set_stack x st.
Proof. reflexivity. Qed.

Lemma stack_log_call (v : lua_value) (args : list lua_value) (st : lua_State) :
  stack (log_call v args st) = stack st.
Proof. destruct v; reflexivity. Qed.

Lemma luaD_call_cfunction (d : nat) (c : cfunction) (args : list lua_value) :
  luaD_call (S d) (LCFunction c) args
  = (in_frame args (cfunction_body (luaD_call d) c) >> ret tt).
Proof. reflexivity. Qed.

(** [if (lua_pcall(L, nargs, 0, 0)) lua_pop(L, 1);]. *)
Definition protected_call (nargs : nat) : M unit :=
  let* status := lua_pcall nargs in
  if negb (status =? 0) then lua_pop 1 else ret tt.

(** A protected call of a hook that is not one of the binding's own C
    functions: whether the hook returns or raises, the call is recorded and
    the frame is as it was below the hook. *)
Lemma protected_call_host (nargs : nat) (st : lua_State) (stk : list lua_value)
    (v : lua_value) (args : list lua_value) :
  stack st = stk ++ v :: args -> length args = nargs ->
  is_cfunction v = false ->
  protected_call nargs st = Done tt (set_stack stk (log_call v args st)).
Proof.
  intros Hstk Hlen Hv.
  unfold protected_call, bind, lua_pcall, lua_pcall_with.
  rewrite (pop_call_app nargs st stk v args Hstk Hlen). simpl.
  destruct (luaD_call_host LUAI_MAXCCALLS v args (set_stack stk st) Hv) as [-> | [e ->]].
  - simpl. rewrite !set_stack_log_call. reflexivity.
  - simpl. unfold lua_pop, modify. f_equal.
    rewrite !set_stack_log_call. simpl. f_equal.
    rewrite stack_log_call. simpl.
    rewrite length_app. simpl.
    replace (length stk + 1 - 1)%nat with (length stk) by lia.
    rewrite take_app_length. reflexivity.
Qed.

(** What a C function of the binding does in its frame: it calls [v] with
    [hargs], and ends as the call ends. *)
Definition calls_hook (body : M Z) (cargs : list lua_value) (v : lua_value)
    (hargs : list lua_value) (st : lua_State) : Prop :=
  exists stk',
    body (set_stack cargs st) = Done 0 (set_stack stk' (log_call v hargs st))
    \/ exists e, body (set_stack cargs st) = Raise e (set_stack stk' (log_call v hargs st)).

Lemma protected_call_safe (nargs : nat) (st : lua_State) (stk : list lua_value)
    (c : cfunction) (cargs : list lua_value) (v : lua_value) (hargs : list lua_value) :
  stack st = stk ++ LCFunction c :: cargs -> length cargs = nargs ->
  calls_hook (cfunction_body (luaD_call (pred LUAI_MAXCCALLS)) c) cargs v hargs
    (set_stack stk st) ->
  protected_call nargs st = Done tt (set_stack stk (log_call v hargs st)).
Proof.
  intros Hstk Hlen [stk' Hbody].
  unfold protected_call, bind, lua_pcall, lua_pcall_with.
  rewrite (pop_call_app nargs st stk (LCFunction c) cargs Hstk Hlen). cbn [fst snd].
  change LUAI_MAXCCALLS with (S (pred LUAI_MAXCCALLS)).
  rewrite luaD_call_cfunction. unfold bind, in_frame.
  destruct Hbody as [-> | [e ->]]; cbn [stack set_stack ret].
  - rewrite !set_stack_log_call. reflexivity.
  - unfold lua_pop, modify. f_equal.
    rewrite !set_stack_log_call. simpl. f_equal.
    rewrite stack_log_call. simpl.
    rewrite length_app. simpl.
    replace (length stk + 1 - 1)%nat with (length stk) by lia.
    rewrite take_app_length, ?set_stack_log_call. reflexivity.
Qed.

Lemma connack_pair (rc : Z) :
  (if rc =? CONN_ACCEPT then (true, "connection accepted")
   else if rc =? CONN_REF_BAD_PROTOCOL
     then (false, "connection refused - incorrect protocol version")
   else if rc =? CONN_REF_BAD_ID
     then (false, "connection refused - invalid client identifier")
   else if rc =? CONN_REF_SERVER_NOAVAIL
     then (false, "connection refused - server unavailable")
   else if rc =? CONN_REF_BAD_LOGIN
     then (false, "connection refused - bad username or password")
   else if rc =? CONN_REF_NO_AUTH
     then (false, "connection refused - not authorised")
   else if rc =? CONN_REF_BAD_TLS
     then (false, "connection refused - TLS error")
   else (false, "reserved for future use"))
  = (rc =? 0, connack_string rc).
Proof.
  unfold connack_string, CONN_ACCEPT.
  repeat match goal with
         | |- context [if ?b then _ else _] => destruct b; try reflexivity
         end.
Qed.

Lemma disconnect_pair (rc : Z) :
  (if negb (rc =? 0) then (false, "unexpected disconnect")
   else (true, "client-initiated disconnect"))
  = (rc =? 0,
     if rc =? 0 then "client-initiated disconnect" else "unexpected disconnect").
Proof. destruct (rc =? 0); reflexivity. Qed.

Ltac finish_calls_hook stk Hc :=
  exists stk;
  destruct Hc as [Hc | [e Hc]]; rewrite Hc;
  [ left | right; exists e ];
  cbn [bind ret]; rewrite ?set_stack_log_call; reflexivity.

Lemma calls_hook_connect (d : nat) (ref rc : Z) (v : lua_value) (st : lua_State) :
  is_int ref -> is_int rc ->
  rawget (registry st) ref = v -> is_cfunction v = false ->
  calls_hook (ctx_on_connect_safe (luaD_call d)) [LNumber ref; LNumber rc]
    v (hook_args (EvConnect rc)) st.
Proof.
  intros Href Hrc <- Hv. unfold calls_hook, ctx_on_connect_safe.
  cbn. simpl (lookup _ _). simpl (tointeger _).
  rewrite (c_int_id ref Href), (c_int_id rc Hrc), connack_pair.
  unfold bind, lua_call_with, bind, pop_call. cbn.
  match goal with
  | |- context [luaD_call d ?v ?a ?s] =>
      pose proof (luaD_call_host d v a s Hv) as Hc
  end.
  finish_calls_hook [LNumber ref; LNumber rc] Hc.
Qed.

Lemma calls_hook_disconnect (d : nat) (ref rc : Z) (v : lua_value) (st : lua_State) :
  is_int ref -> is_int rc ->
  rawget (registry st) ref = v -> is_cfunction v = false ->
  calls_hook (ctx_on_disconnect_safe (luaD_call d)) [LNumber ref; LNumber rc]
    v (hook_args (EvDisconnect rc)) st.
Proof.
  intros Href Hrc <- Hv. unfold calls_hook, ctx_on_disconnect_safe.
  cbn. simpl (lookup _ _). simpl (tointeger _).
  rewrite (c_int_id ref Href), (c_int_id rc Hrc), disconnect_pair.
  unfold bind, lua_call_with, bind, pop_call. cbn.
  match goal with
  | |- context [luaD_call d ?v ?a ?s] =>
      pose proof (luaD_call_host d v a s Hv) as Hc
  end.
  finish_calls_hook [LNumber ref; LNumber rc] Hc.
Qed.

Lemma calls_hook_message (d : nat) (ref : Z) (msg : mosquitto_message) (v : lua_value)
    (st : lua_State) :
  is_int ref ->
  rawget (registry st) ref = v -> is_cfunction v = false ->
  calls_hook (ctx_on_message_safe (luaD_call d)) [LNumber ref; LLightuserdata (CMessage msg)]
    v (hook_args (EvMessage msg)) st.
Proof.
  intros Href <- Hv. unfold calls_hook, ctx_on_message_safe.
  cbn. simpl (lookup _ _). simpl (tointeger _).
  rewrite (c_int_id ref Href).
  unfold bind, lua_call_with, bind, pop_call. cbn.
  match goal with
  | |- context [luaD_call d ?v ?a ?s] =>
      pose proof (luaD_call_host d v a s Hv) as Hc
  end.
  finish_calls_hook [LNumber ref; LLightuserdata (CMessage msg)] Hc.
Qed.

Lemma calls_hook_log (d : nat) (ref level : Z) (str : string) (v : lua_value)
    (st : lua_State) :
  is_int ref -> is_int level ->
  rawget (registry st) ref = v -> is_cfunction v = false ->
  calls_hook (ctx_on_log_safe (luaD_call d))
    [LNumber ref; LNumber level; LLightuserdata (CString str)]
    v (hook_args (EvLog level str)) st.
Proof.
  intros Href Hlevel <- Hv. unfold calls_hook, ctx_on_log_safe.
  cbn. simpl (lookup _ _). simpl (tointeger _).
  rewrite (c_int_id ref Href), (c_int_id level Hlevel).
  unfold bind, lua_call_with, bind, pop_call. cbn.
  match goal with
  | |- context [luaD_call d ?v ?a ?s] =>
      pose proof (luaD_call_host d v a s Hv) as Hc
  end.
  finish_calls_hook [LNumber ref; LNumber level; LLightuserdata (CString str)] Hc.
Qed.

Lemma push_integers_spec (ns : list Z) (st : lua_State) :
  push_integers ns st = Done tt (set_stack (stack st ++ map LNumber ns) st).
Proof.
  revert st. induction ns as [|n ns IH]; intros st; simpl.
  - unfold ret. rewrite app_nil_r, state_eta. reflexivity.
  - unfold bind, lua_pushinteger, lua_push, modify. rewrite IH. simpl.
    rewrite <- app_assoc. reflexivity.
Qed.

Ltac dispatch_safe st lem :=
  match goal with
  | |- _ ?st' = _ =>
      erewrite (protected_call_safe _ st' (stack st));
      [ rewrite set_stack_log_call, !set_stack_set_stack, state_eta; reflexivity
      | cbn [stack set_stack]; rewrite <- !app_assoc; reflexivity
      | reflexivity
      | eapply lem; first [ assumption | reflexivity ] ]
  end.

Ltac dispatch_host st :=
  match goal with
  | |- _ ?st' = _ =>
      erewrite (protected_call_host _ st' (stack st));
      [ rewrite set_stack_log_call, !set_stack_set_stack, state_eta; reflexivity
      | cbn [stack set_stack]; rewrite <- !app_assoc; reflexivity
      | reflexivity
      | assumption ]
  end.

Lemma bind_modify {B} (f : lua_State -> lua_State) (k : unit -> M B) (st : lua_State) :
  bind (modify f) k st = k tt (f st).
Proof. reflexivity. Qed.

Lemma bind_reads {A B} (f : lua_State -> A) (k : A -> M B) (st : lua_State) :
  bind (reads f) k st = k (f st) st.
Proof. reflexivity. Qed.

Lemma bind_ret {A B} (a : A) (k : A -> M B) (st : lua_State) :
  bind (ret a) k st = k a st.
Proof. reflexivity. Qed.

Lemma bind_load {A B} (u : nat) (field : ctx_t -> A) (k : A -> M B) (st : lua_State)
    (c : ctx_t) :
  udata st !! u = Some c -> bind (load u field) k st = k (field c) st.
Proof. intros Hu. unfold bind, load. rewrite Hu. reflexivity. Qed.

Lemma bind_assoc {A B C} (m : M A) (k1 : A -> M B) (k2 : B -> M C) (st : lua_State) :
  bind (bind m k1) k2 st = bind m (fun a => bind (k1 a) k2) st.
Proof. unfold bind. destruct (m st); reflexivity. Qed.

Ltac run_pushes Hu :=
  unfold lua_pushcfunction, lua_pushinteger, lua_pushlightuserdata, lua_pushboolean,
    lua_pushstring, lua_pushnil, lua_rawgeti_registry, lua_push;
  repeat first
    [ rewrite bind_assoc
    | rewrite bind_modify
    | rewrite bind_reads
    | rewrite bind_ret
    | erewrite bind_load by (exact Hu) ];
  cbn [stack registry set_stack].

(** What a callback does when its instance is inside a loop call and the
    hook slot holds none of the binding's own C functions: the hook is
    called once with the arguments of the event, and nothing else changes,
    whether the hook returns or raises. *)
Lemma dispatch_spec (u : nat) (ev : mosq_event) (st : lua_State) (c : ctx_t) (l : lua_thread) :
  udata st !! u = Some c -> ctx_L c = Some l ->
  is_int (hook_ref c ev) -> event_ints ev ->
  is_cfunction (rawget (registry st) (hook_ref c ev)) = false ->
  dispatch u ev st
  = Done tt (if hook_called st ev
             then log_call (rawget (registry st) (hook_ref c ev)) (hook_args ev) st
             else st).
Proof.
  intros Hu HL Href Hev Hv.
  destruct ev; simpl in *;
    unfold ctx_on_connect, ctx_on_disconnect, ctx_on_publish, ctx_on_message,
      ctx_on_subscribe, ctx_on_unsubscribe, ctx_on_log;
    rewrite (bind_load _ _ _ _ _ Hu), HL; cbn [with_state].
  - run_pushes Hu. fold (protected_call 2). dispatch_safe st calls_hook_connect.
  - run_pushes Hu. fold (protected_call 2). dispatch_safe st calls_hook_disconnect.
  - run_pushes Hu. fold (protected_call 1). dispatch_host st.
  - run_pushes Hu. fold (protected_call 2). dispatch_safe st calls_hook_message.
  - unfold lua_checkstack. rewrite bind_reads.
    destruct (_ && _); cbn [negb]; [| reflexivity].
    run_pushes Hu.
    unfold bind at 1. rewrite push_integers_spec. cbn [stack set_stack].
    fold (protected_call (length granted_qos + 1)).
    match goal with
    | |- _ ?st' = _ =>
        rewrite (protected_call_host _ st' (stack st) (rawget (registry st) (on_subscribe c))
                   (LNumber mid :: map LNumber granted_qos))
    end.
    + rewrite set_stack_log_call, !set_stack_set_stack, state_eta. reflexivity.
    + cbn [stack set_stack]. rewrite <- !app_assoc. reflexivity.
    + simpl. rewrite length_map. lia.
    + assumption.
  - run_pushes Hu. fold (protected_call 1). dispatch_host st.
  - run_pushes Hu. fold (protected_call 3). dispatch_safe st calls_hook_log.
Qed.

(** C3.  Inside a loop call (the back-reference bound), for every kind of
    event and whatever the registered hook does, raising an error
    included: the callback returns normally, the state it leaves is the
    state it found with the hook's call recorded (frame, registry, instance
    and codec untouched), and the loop goes on to report the remaining
    events from that state. *)
Theorem hook_errors_are_caught (mosq : option nat) (u : nat) (ev : mosq_event)
    (rest : list mosq_event) (st : lua_State) (c : ctx_t) (l : lua_thread) :
  udata st !! u = Some c -> ctx_L c = Some l ->
  is_int (hook_ref c ev) -> event_ints ev ->
  is_cfunction (rawget (registry st) (hook_ref c ev)) = false ->
  exists calls,
    dispatch u ev st = Done tt (set_hook_log (calls ++ hook_log st) st) /\
    (cb_registered mosq (event_kind ev) (codec_log st) = true ->
     report_all mosq u (ev :: rest) st
     = report_all mosq u rest (set_hook_log (calls ++ hook_log st) st)).
Proof.
  intros Hu HL Href Hev Hv.
  pose proof (dispatch_spec u ev st c l Hu HL Href Hev Hv) as Hd.
  assert (Hex : exists calls,
             (if hook_called st ev
              then log_call (rawget (registry st) (hook_ref c ev)) (hook_args ev) st
              else st) = set_hook_log (calls ++ hook_log st) st).
  { destruct (hook_called st ev).
    - destruct (rawget (registry st) (hook_ref c ev)) eqn:Hraw;
        try (exists []; destruct st; reflexivity).
      exists [(f, hook_args ev)]. reflexivity.
    - exists []. destruct st; reflexivity. }
  destruct Hex as [calls Hcalls]. exists calls.
  rewrite Hcalls in Hd. split; [exact Hd |].
  intros Hreg. simpl. unfold bind at 1. unfold report. rewrite bind_reads, Hreg, Hd.
  reflexivity.
Qed.

(** C6.  When the handshake resolves with return code [rc], the connect
    hook is called with three arguments: success, true exactly when [rc] is
    0; the code [rc] itself; and the reason, "connection accepted" for 0,
    the refusal text for each of 1 to 6, and "reserved for future use" for
    every other code. *)
Theorem connect_hook_arguments (u : nat) (rc : Z) (st : lua_State) (c : ctx_t)
    (l : lua_thread) (f : nat) :
  udata st !! u = Some c -> ctx_L c = Some l ->
  is_int (on_connect c) -> is_int rc ->
  registry st !! on_connect c = Some (LFunction f) ->
  exists success reason,
    ctx_on_connect u rc st
    = Done tt (set_hook_log
                 ((f, [LBoolean success; LNumber rc; LString reason]) :: hook_log st) st) /\
    (success = true <-> rc = 0) /\
    (rc = 0 -> reason = "connection accepted") /\
    (rc = 1 -> reason = "connection refused - incorrect protocol version") /\
    (rc = 2 -> reason = "connection refused - invalid client identifier") /\
    (rc = 3 -> reason = "connection refused - server unavailable") /\
    (rc = 4 -> reason = "connection refused - bad username or password") /\
    (rc = 5 -> reason = "connection refused - not authorised") /\
    (rc = 6 -> reason = "connection refused - TLS error") /\
    (rc < 0 \/ 6 < rc -> reason = "reserved for future use").
Proof.
  intros Hu HL Href Hrc Hreg.
  assert (Hraw : rawget (registry st) (on_connect c) = LFunction f).
  { unfold rawget. rewrite Hreg. reflexivity. }
  pose proof (dispatch_spec u (EvConnect rc) st c l Hu HL Href Hrc) as Hd.
  simpl in Hd. rewrite Hraw in Hd. specialize (Hd eq_refl).
  exists (rc =? 0), (connack_string rc). split; [exact Hd |].
  split; [apply Z.eqb_eq |].
  repeat split; try (intros ->; reflexivity).
  intros Hout. unfold connack_string, CONN_ACCEPT, CONN_REF_BAD_PROTOCOL, CONN_REF_BAD_ID,
    CONN_REF_SERVER_NOAVAIL, CONN_REF_BAD_LOGIN, CONN_REF_NO_AUTH, CONN_REF_BAD_TLS.
  repeat match goal with
         | |- context [?a =? ?b] => destruct (Z.eqb_spec a b); [lia |]
         end.
  reflexivity.
Qed.

(** C7.  When the connection drops with raw code [rc], the disconnect hook
    is called with success, the code [rc], and a reason: true and
    "client-initiated disconnect" when [rc] is 0, false and "unexpected
    disconnect" for every other [rc]. *)
Theorem disconnect_hook_arguments (u : nat) (rc : Z) (st : lua_State) (c : ctx_t)
    (l : lua_thread) (f : nat) :
  udata st !! u = Some c -> ctx_L c = Some l ->
  is_int (on_disconnect c) -> is_int rc ->
  registry st !! on_disconnect c = Some (LFunction f) ->
  exists success reason,
    ctx_on_disconnect u rc st
    = Done tt (set_hook_log
                 ((f, [LBoolean success; LNumber rc; LString reason]) :: hook_log st) st) /\
    (rc = 0 -> success = true /\ reason = "client-initiated disconnect") /\
    (rc <> 0 -> success = false /\ reason = "unexpected disconnect").
Proof.
  intros Hu HL Href Hrc Hreg.
  assert (Hraw : rawget (registry st) (on_disconnect c) = LFunction f).
  { unfold rawget. rewrite Hreg. reflexivity. }
  pose proof (dispatch_spec u (EvDisconnect rc) st c l Hu HL Href Hrc) as Hd.
  simpl in Hd. rewrite Hraw in Hd. specialize (Hd eq_refl).
  exists (rc =? 0), (if rc =? 0 then "client-initiated disconnect" else "unexpected disconnect").
  split; [exact Hd |].
  destruct (Z.eqb_spec rc 0); split; intros; try contradiction; auto.
Qed.

(** ** The back-reference *)

(** The computation did not go through a NULL [lua_State]. *)
Definition not_null {A} (r : result A) : Prop :=
  match r with
  | Undef NullLuaState => False
  | _ => True
  end.

Definition nonull {A} (m : M A) : Prop := forall st, not_null (m st).

Lemma not_null_neq {A} (r : result A) : not_null r -> r <> Undef NullLuaState.
Proof. intros Hr ->. exact Hr. Qed.

Lemma nonull_ret {A} (a : A) : nonull (ret a).
Proof. intros st. exact I. Qed.

Lemma nonull_reads {A} (f : lua_State -> A) : nonull (reads f).
Proof. intros st. exact I. Qed.

Lemma nonull_modify (f : lua_State -> lua_State) : nonull (modify f).
Proof. intros st. exact I. Qed.

Lemma nonull_throw {A} (e : lua_error) : nonull (throw (A := A) e).
Proof. intros st. exact I. Qed.

Lemma nonull_undef_wild {A} : nonull (undef (A := A) WildPointer).
Proof. intros st. exact I. Qed.

Lemma nonull_bind {A B} (m : M A) (k : A -> M B) :
  nonull m -> (forall a, nonull (k a)) -> nonull (bind m k).
Proof.
  intros Hm Hk st. unfold bind. specialize (Hm st).
  destruct (m st) as [a st'|e st'|u]; [apply Hk | exact I | exact Hm].
Qed.

Lemma nonull_if {A} (b : bool) (m1 m2 : M A) :
  nonull m1 -> nonull m2 -> nonull (if b then m1 else m2).
Proof. destruct b; auto. Qed.

Lemma nonull_load {A} (ctx : nat) (f : ctx_t -> A) : nonull (load ctx f).
Proof. intros st. unfold load. destruct (udata st !! ctx); exact I. Qed.

Lemma nonull_store (ctx : nat) (f : ctx_t -> ctx_t) : nonull (store ctx f).
Proof. intros st. unfold store. destruct (udata st !! ctx); exact I. Qed.

Lemma nonull_call_closure (f : nat) (args : list lua_value) : nonull (call_closure f args).
Proof. intros st. unfold call_closure. destruct (lua_closure f args); exact I. Qed.

Lemma nonull_pop_call (nargs : nat) : nonull (pop_call nargs).
Proof.
  intros st. unfold pop_call.
  destruct (stack st !! _); [| exact I].
  destruct (_ <=? _)%nat; exact I.
Qed.

Lemma nonull_in_frame {A} (args : list lua_value) (body : M A) :
  nonull body -> nonull (in_frame args body).
Proof.
  intros Hb st. unfold in_frame. specialize (Hb (set_stack args st)).
  destruct (body (set_stack args st)); [exact I | exact I | exact Hb].
Qed.

Create HintDb nonull.

#[local] Hint Resolve nonull_ret nonull_reads nonull_modify nonull_throw nonull_undef_wild
  nonull_load nonull_store nonull_call_closure nonull_pop_call : nonull.

Ltac nonull_tac :=
  repeat first
    [ solve [ auto with nonull ]
    | apply nonull_bind; [ | intros ? ]
    | apply nonull_if
    | apply nonull_in_frame
    | match goal with
      | |- nonull (match ?x with _ => _ end) => destruct x
      end ].

Lemma nonull_push_integers (ns : list Z) : nonull (push_integers ns).
Proof.
  induction ns as [|n ns IH]; simpl; [apply nonull_ret |].
  apply nonull_bind; [apply nonull_modify | intros _; exact IH].
Qed.
#[local] Hint Resolve nonull_push_integers : nonull.

Section NonullCalls.

Variable call : lua_value -> list lua_value -> M unit.
Hypothesis nonull_call : forall f args, nonull (call f args).

Lemma nonull_lua_call_with (nargs : nat) : nonull (lua_call_with call nargs).
Proof. unfold lua_call_with. nonull_tac. Qed.

Lemma nonull_lua_pcall_with (nargs : nat) : nonull (lua_pcall_with call nargs).
Proof.
  intros st. unfold lua_pcall_with.
  pose proof (nonull_pop_call nargs st) as Hp.
  destruct (pop_call nargs st) as [fa st1|e st1|u]; [| exact I | exact Hp].
  pose proof (nonull_call (fst fa) (snd fa) st1) as Hc.
  destruct (call (fst fa) (snd fa) st1); [exact I | exact I | exact Hc].
Qed.

Lemma nonull_cfunction_body (c : cfunction) : nonull (cfunction_body call c).
Proof.
  pose proof nonull_lua_call_with as Hcall.
  destruct c; simpl;
    unfold ctx_on_connect_safe, ctx_on_disconnect_safe, ctx_on_message_safe,
      ctx_on_log_safe, lua_pushboolean, lua_pushinteger, lua_pushstring,
      lua_pushlstring, lua_touserdata, lua_tointeger, lua_rawgeti_registry,
      lua_push, value_at;
    nonull_tac.
Qed.

End NonullCalls.

Lemma nonull_luaD_call (depth : nat) (f : lua_value) (args : list lua_value) :
  nonull (luaD_call depth f args).
Proof.
  revert f args. induction depth as [|depth IH]; intros f args;
    destruct f; unfold luaD_call; fold luaD_call; try solve [nonull_tac].
  apply nonull_bind; [| intros ?; nonull_tac].
  apply nonull_in_frame, nonull_cfunction_body, IH.
Qed.

Lemma nonull_lua_pcall (nargs : nat) : nonull (lua_pcall nargs).
Proof. apply nonull_lua_pcall_with, nonull_luaD_call. Qed.
#[local] Hint Resolve nonull_lua_pcall : nonull.

(** With the back-reference bound, a callback never goes through a NULL
    [lua_State]. *)
Lemma dispatch_bound (u : nat) (ev : mosq_event) (st : lua_State) (c : ctx_t) (l : lua_thread) :
  udata st !! u = Some c -> ctx_L c = Some l ->
  not_null (dispatch u ev st).
Proof.
  intros Hu HL.
  destruct ev; simpl;
    unfold ctx_on_connect, ctx_on_disconnect, ctx_on_publish, ctx_on_message,
      ctx_on_subscribe, ctx_on_unsubscribe, ctx_on_log;
    rewrite (bind_load _ _ _ _ _ Hu), HL; cbn [with_state];
    match goal with
    | |- not_null (?m st) => assert (Hn : nonull m); [| apply Hn]
    end;
    unfold lua_pushcfunction, lua_pushinteger, lua_pushlightuserdata,
      lua_rawgeti_registry, lua_push, lua_pop, lua_checkstack;
    nonull_tac.
Qed.

Lemma report_all_bound (mosq : option nat) (u : nat) (evs : list mosq_event)
    (st : lua_State) (c : ctx_t) (l : lua_thread) :
  udata st !! u = Some c -> ctx_L c = Some l ->
  not_null (report_all mosq u evs st).
Proof.
  revert st. induction evs as [|ev evs IH]; intros st Hu HL; simpl; [exact I |].
  unfold bind at 1, report. rewrite bind_reads.
  destruct (cb_registered mosq (event_kind ev) (codec_log st)).
  - pose proof (dispatch_bound u ev st c l Hu HL) as Hb.
    pose proof (quiet_dispatch u ev st) as Hq.
    destruct (dispatch u ev st) as [[] st'|e st'|ub]; [| exact I | exact Hb].
    apply IH; [| exact HL].
    destruct Hq as [He _]. unfold engine in He.
    assert (udata st' = udata st) as -> by congruence. exact Hu.
  - apply IH; assumption.
Qed.

Lemma nonull_luaL_checkudata (ud : Z) (tname : string) : nonull (luaL_checkudata ud tname).
Proof.
  intros st. unfold luaL_checkudata.
  destruct (index2value (stack st) ud) as [[]|]; try exact I.
  destruct (meta st !! u), (named_meta st !! tname); try exact I.
  destruct (bool_decide _); exact I.
Qed.

Lemma nonull_luaL_optinteger (narg def : Z) : nonull (luaL_optinteger narg def).
Proof.
  unfold luaL_optinteger, luaL_checkinteger, lua_isnoneornil, lua_type, lua_tointeger,
    lua_isnumber, value_at, luaL_typerror.
  nonull_tac.
Qed.

Lemma nonull_lua_toboolean (idx : Z) : nonull (lua_toboolean idx).
Proof. unfold lua_toboolean, value_at. nonull_tac. Qed.


Lemma pstatus_codec_log (rc : Z) (st : lua_State) :
  exists st', final_state (mosq__pstatus rc st) = Some st' /\ codec_log st' = codec_log st.
Proof.
  unfold mosq__pstatus.
  repeat match goal with
         | |- context [if ?b then _ else _] => destruct b
         end;
    eexists; split; reflexivity.
Qed.

Lemma codec_loop_bound (cc : codec_call) (mosq : option nat) (u : nat) (env : codec_reply)
    (st : lua_State) (c : ctx_t) (l : lua_thread) :
  udata st !! u = Some c -> ctx_L c = Some l ->
  not_null (codec_loop cc mosq u env st).
Proof.
  intros Hu HL. unfold codec_loop. rewrite bind_modify. unfold bind at 1.
  pose proof (report_all_bound mosq u (reply_events env)
                (set_codec_log (cc :: codec_log st) st) c l Hu HL) as Hb.
  destruct (report_all _ _ _ _); [exact I | exact I | exact Hb].
Qed.

Lemma ctx_check_instance (st : lua_State) (u : nat) (c : ctx_t) (rest : list lua_value) :
  is_instance st u c -> stack st = LUserdata u :: rest ->
  ctx_check 1 st = Done u st.
Proof.
  intros (_ & mt & Hmeta & Hnamed) Hstk.
  unfold ctx_check, luaL_checkudata. rewrite Hstk. simpl.
  rewrite Hmeta, Hnamed, bool_decide_eq_true_2 by reflexivity. reflexivity.
Qed.

Lemma final_state_cfunction_call (f : M Z) (args : list lua_value) (st : lua_State) :
  final_state (lua_cfunction_call f args st)
  = set_stack (stack st) <$> final_state (f (set_stack args st)).
Proof. unfold lua_cfunction_call. destruct (f (set_stack args st)); reflexivity. Qed.


Lemma bind_codec {B} (c : codec_call) (env : codec_reply) (k : Z -> M B) (st : lua_State) :
  bind (codec c env) k st
  = k (reply_rc env) (set_errno (reply_errno env) (set_codec_log (c :: codec_log st) st)).
Proof. reflexivity. Qed.



(** ** Construction and reinitialise *)

(** What [luaL_optstring] makes of the value at an index. *)
Lemma luaL_optstring_userdata (idx : Z) (def : option string) (st : lua_State) (u : nat) :
  index2value (stack st) idx = Some (LUserdata u) ->
  luaL_optstring idx def st = Raise (ErrType idx "string") st.
Proof.
  intros Hv.
  unfold luaL_optstring, lua_isnoneornil, lua_type, luaL_checkstring, luaL_checklstring,
    lua_tolstring, value_at, luaL_typerror.
  cbv [bind reads ret throw]. rewrite Hv. simpl. rewrite Hv. reflexivity.
Qed.

(** [new] rejects an absent id with [clean_session] false before it
    allocates the instance or calls the codec. *)
Lemma mosq_new_rejects (L : lua_thread) (env : codec_reply) (rest : list lua_value)
    (st : lua_State) :
  lua_cfunction_call (mosq_new L env) (LNil :: LBoolean false :: rest) st
  = Raise (ErrArg 2 "if 'id' is nil then 'clean session' must be true") st.
Proof.
  destruct st. reflexivity.
Qed.

Lemma ctx_check_cases (i : Z) (st : lua_State) :
  (exists u, ctx_check i st = Done u st /\ index2value (stack st) i = Some (LUserdata u))
  \/ ctx_check i st = Raise (ErrType i MOSQ_META_CTX) st.
Proof.
  unfold ctx_check, luaL_checkudata.
  destruct (index2value (stack st) i) as [[| | | | | | | |u]|]; auto.
  destruct (meta st !! u); auto.
  destruct (named_meta st !! MOSQ_META_CTX); auto.
  destruct (bool_decide _); eauto.
Qed.

(** C2, the reinitialise half as the code has it.  [ctx_reinitialise]
    reads the client id from stack index 1, where the instance itself is:
    whatever the arguments (an id present and clean_session true included),
    the call ends in an error before the codec is reached, and the state is
    as it was.  No combination of arguments passes the check. *)
Theorem reinitialise_never_proceeds (L : lua_thread) (env : codec_reply)
    (args : list lua_value) (st : lua_State) :
  exists e, lua_cfunction_call (ctx_reinitialise L env) args st = Raise e st.
Proof.
  unfold lua_cfunction_call, ctx_reinitialise.
  unfold bind at 1.
  destruct (ctx_check_cases 1 (set_stack args st)) as [(u & -> & Hv) | ->].
  - unfold bind at 1. rewrite (luaL_optstring_userdata 1 None _ u Hv).
    eexists. destruct st; reflexivity.
  - eexists. destruct st; reflexivity.
Qed.

(** ** The protocol version *)

Lemma strcmp_eq (s1 s2 : string) : (strcmp s1 s2 =? 0) = true <-> s1 = s2.
Proof.
  unfold strcmp. split.
  - destruct (String.compare s1 s2) eqn:Hcmp; try discriminate.
    intros _. apply String.compare_eq_iff. exact Hcmp.
  - intros ->. pose proof (String.compare_antisym s2 s2) as Hanti.
    destruct (String.compare s2 s2); simpl in Hanti; [reflexivity | discriminate | discriminate].
Qed.

(** C8, the absent token as the code has it.  [version_set] on a live
    instance without a token, or with nil for it: [strcmp] is handed the
    NULL that [luaL_optstring] returns for an absent argument, so the call
    has undefined behaviour and neither falls back to the older protocol
    version nor reports success. *)
Theorem version_set_absent_token (L : lua_thread) (env : codec_reply) (st : lua_State)
    (u : nat) (c : ctx_t) (rest : list lua_value) :
  is_instance st u c ->
  rest = [] \/ (exists r, rest = LNil :: r) ->
  lua_cfunction_call (ctx_version_set L env) (LUserdata u :: rest) st = Undef NullString.
Proof.
  intros Hinst Hrest. unfold lua_cfunction_call, ctx_version_set.
  unfold bind at 1.
  rewrite (ctx_check_instance (set_stack (LUserdata u :: rest) st) u c rest Hinst eq_refl).
  unfold luaL_optstring, lua_isnoneornil, lua_type, value_at.
  repeat first [rewrite bind_assoc | rewrite bind_reads | rewrite bind_ret].
  destruct Hrest as [-> | [r ->]]; reflexivity.
Qed.

Lemma luaL_optstring_string (idx : Z) (def : option string) (st : lua_State) (s : string) :
  index2value (stack st) idx = Some (LString s) ->
  luaL_optstring idx def st = Done (Some (c_str s)) st.
Proof.
  intros Hv.
  unfold luaL_optstring, lua_isnoneornil, lua_type, luaL_checkstring, luaL_checklstring,
    lua_tolstring, value_at, luaL_typerror.
  cbv [bind reads ret throw]. rewrite Hv. simpl. rewrite Hv. reflexivity.
Qed.

(** With a token, the version handed to the codec is the newer one for
    "mqttv311" and the older one for every other string. *)
Lemma version_set_token (L : lua_thread) (env : codec_reply) (st : lua_State)
    (u : nat) (c : ctx_t) (s : string) :
  is_instance st u c ->
  exists st',
    final_state (lua_cfunction_call (ctx_version_set L env) [LUserdata u; LString s] st)
    = Some st' /\
    codec_log st'
    = Mosquitto_opts_set (ctx_mosq c) MOSQ_OPT_PROTOCOL_VERSION
        (if String.eqb (c_str s) "mqttv311" then MQTT_PROTOCOL_V311 else MQTT_PROTOCOL_V31)
      :: codec_log st.
Proof.
  intros Hinst. rewrite final_state_cfunction_call. unfold ctx_version_set.
  set (st0 := set_stack [LUserdata u; LString s] st).
  unfold bind at 1.
  rewrite (ctx_check_instance st0 u c [LString s] Hinst eq_refl).
  destruct Hinst as (Hu & _).
  unfold bind at 1. rewrite (luaL_optstring_string 2 None st0 s eq_refl).
  cbn [strcmp_ptr]. rewrite bind_ret.
  assert (Htail : forall pv,
            exists st',
              set_stack (stack st) <$>
                final_state
                  ((let* mosq := load u ctx_mosq in
                    let* rc := codec (Mosquitto_opts_set mosq MOSQ_OPT_PROTOCOL_VERSION pv) env in
                    mosq__pstatus rc) st0) = Some st' /\
              codec_log st'
              = Mosquitto_opts_set (ctx_mosq c) MOSQ_OPT_PROTOCOL_VERSION pv :: codec_log st).
  { intros pv. erewrite bind_load by exact Hu. rewrite bind_codec.
    match goal with
    | |- context [mosq__pstatus ?rc ?s1] =>
        destruct (pstatus_codec_log rc s1) as (st' & -> & Hlog)
    end.
    eexists. split; [reflexivity |]. simpl. exact Hlog. }
  destruct (strcmp (c_str s) "mqttv31" =? 0) eqn:H31.
  - apply strcmp_eq in H31. rewrite H31, bind_ret. apply Htail.
  - rewrite bind_assoc, bind_ret.
    destruct (strcmp (c_str s) "mqttv311" =? 0) eqn:H311.
    + apply strcmp_eq in H311. rewrite H311, bind_ret. apply Htail.
    + rewrite bind_ret.
      destruct (String.eqb_spec (c_str s) "mqttv311") as [Heq|_]; [| apply Htail].
      apply strcmp_eq in Heq. congruence.
Qed.

(** ** Teardown *)

(** [luaL_unref] through a NULL [lua_State]. *)
Lemma unref_null {B} (ref : Z) (k : unit -> M B) (st : lua_State) :
  bind (luaL_unref None ref) k st = if 0 <=? ref then Undef NullLuaState else k tt st.
Proof. unfold luaL_unref. destruct (0 <=? ref); reflexivity. Qed.

(** C9, the first destroy as the code has it.  [destroy] on a live
    instance with at least one hook bound, outside any loop call (the
    back-reference unset): [ctx__on_clear] releases the hook through
    [ctx->L], which is NULL, so the call has undefined behaviour before the
    instance is invalidated. *)
Theorem destroy_with_bound_hook (L : lua_thread) (env : codec_reply) (st : lua_State)
    (u : nat) (c : ctx_t) (rest : list lua_value) :
  is_instance st u c -> ctx_L c = None ->
  (0 <= on_connect c \/ 0 <= on_disconnect c \/ 0 <= on_publish c \/ 0 <= on_message c
   \/ 0 <= on_subscribe c \/ 0 <= on_unsubscribe c \/ 0 <= on_log c) ->
  lua_cfunction_call (ctx_destroy L env) (LUserdata u :: rest) st = Undef NullLuaState.
Proof.
  intros Hinst HL Hhook. unfold lua_cfunction_call, ctx_destroy.
  set (st0 := set_stack (LUserdata u :: rest) st).
  unfold bind at 1. rewrite (ctx_check_instance st0 u c rest Hinst eq_refl).
  destruct Hinst as (Hu & _).
  erewrite bind_load by exact Hu. rewrite bind_codec.
  set (st1 := set_errno _ _).
  assert (Hu1 : udata st1 !! u = Some c) by exact Hu.
  unfold ctx__on_clear.
  repeat (repeat first [rewrite bind_assoc | erewrite bind_load by exact Hu1];
          rewrite ?HL; rewrite unref_null;
          match goal with
          | |- context [0 <=? ?r] => destruct (Z.leb_spec 0 r); [reflexivity |]
          end).
  exfalso. lia.
Qed.

(** ** The kind of a callback *)

(** The seven names are recognised. *)
Lemma callback_type_of_names :
  callback_type_from_string "ON_CONNECT" = CONNECT /\
  callback_type_from_string "ON_DISCONNECT" = DISCONNECT /\
  callback_type_from_string "ON_PUBLISH" = PUBLISH /\
  callback_type_from_string "ON_MESSAGE" = MESSAGE /\
  callback_type_from_string "ON_SUBSCRIBE" = SUBSCRIBE /\
  callback_type_from_string "ON_UNSUBSCRIBE" = UNSUBSCRIBE /\
  callback_type_from_string "ON_LOG" = LOG.
Proof. repeat split; reflexivity. Qed.

(** Every other C string is mapped to -1, the exported LOG_ names
    included. *)
Lemma callback_type_recognised (s : string) :
  callback_type_from_string s <> -1 ->
  s = "ON_CONNECT" \/ s = "ON_DISCONNECT" \/ s = "ON_PUBLISH" \/ s = "ON_MESSAGE"
  \/ s = "ON_SUBSCRIBE" \/ s = "ON_UNSUBSCRIBE" \/ s = "ON_LOG".
Proof.
  unfold callback_type_from_string.
  destruct (bool_decide (strstr s "ON_" = Some 0%nat)) eqn:Hp; [| intros []; reflexivity].
  cbn [negb]. unfold D, find_define.
  repeat match goal with
         | |- context [strcmp ?name s =? 0] =>
             destruct (strcmp name s =? 0) eqn:?;
             [ match goal with
               | H : (strcmp name s =? 0) = true |- _ =>
                   apply strcmp_eq in H; subst s;
                   first [ discriminate Hp | intros _; tauto ]
               end
             | ]
         end.
  intros []. reflexivity.
Qed.

Lemma callback_type_other_head (c : ascii) (rest : string) :
  c <> "O"%char -> callback_type_from_string (String c rest) = -1.
Proof.
  intros Hc. unfold callback_type_from_string, strstr.
  change (String.index 0 "ON_" (String c rest))
    with (if String.prefix "ON_" (String c rest) then Some 0%nat
          else match String.index 0 "ON_" rest with
               | Some n => Some (S n)
               | None => None
               end).
  change (String.prefix "ON_" (String c rest))
    with (if ascii_dec "O" c then String.prefix "N_" rest else false).
  destruct (ascii_dec "O" c) as [Heq|_]; [congruence |].
  destruct (String.index 0 "ON_" rest); reflexivity.
Qed.

Lemma decimal_head (m : Z) :
  exists c rest, decimal m = String c rest /\ c <> "O"%char /\ c <> "000"%char.
Proof.
  unfold decimal, NilZero.string_of_uint.
  destruct (N.to_uint (Z.to_N m)); simpl;
    eexists _, _; (split; [reflexivity | split; discriminate]).
Qed.

Lemma number_string_head (n : Z) :
  exists c rest, c_str (lua_number2str n) = String c rest /\ c <> "O"%char.
Proof.
  unfold lua_number2str.
  destruct (Z.abs n <? 10 ^ 14).
  - unfold NilZero.string_of_int, NilZero.string_of_uint.
    destruct (Z.to_int n) as [d|d]; [destruct d | ]; simpl;
      eexists _, _; (split; [reflexivity | discriminate]).
  - destruct (n <? 0);
      [cbv beta iota delta [String.append]; cbn [c_str]; simpl;
       eexists _, _; (split; [reflexivity | discriminate]) |].
    unfold sprintf_e14. cbv zeta.
    match goal with
    | |- context [decimal ?q] => destruct (decimal_head q) as (c & rest & -> & Hc & Hz)
    end.
    cbv beta iota delta [String.append]. cbn [c_str].
    destruct (Ascii.eqb_spec c "000"%char) as [->|_]; [congruence |].
    eexists _, _. split; [reflexivity | exact Hc].
Qed.

Lemma luaL_ref_value (st : lua_State) (stk : list lua_value) (v : lua_value) :
  stack st = stk ++ [v] -> v <> LNil ->
  exists ref st', luaL_ref st = Done ref st' /\ udata st' = udata st.
Proof.
  intros Hstk Hv. unfold luaL_ref. rewrite Hstk, last_snoc.
  destruct v; try contradiction;
    destruct (c_int (tointeger (registry st !! FREELIST_REF)) =? 0);
    eexists _, _; split; reflexivity.
Qed.

(** C10, the numeric kind as the code has it.  On a live instance a
    numeric kind never gets past [lua_isstring], which holds of numbers
    too: the number is rendered as a string, no rendering starts with
    "ON_", and the call ends in the invalid-kind error, for the seven kind
    codes as for any other number. *)
Theorem numeric_kind_rejected (L : lua_thread) (env : codec_reply) (st : lua_State)
    (u : nat) (c : ctx_t) (n : Z) (f : nat) :
  is_instance st u c ->
  exists st',
    lua_cfunction_call (ctx_callback_set L env) [LUserdata u; LNumber n; LFunction f] st
    = Raise (ErrArg 2 "not a proper callback type") st'.
Proof.
  intros Hinst. unfold lua_cfunction_call, ctx_callback_set.
  set (st0 := set_stack [LUserdata u; LNumber n; LFunction f] st).
  unfold bind at 1.
  rewrite (ctx_check_instance st0 u c [LNumber n; LFunction f] Hinst eq_refl).
  destruct Hinst as (Hu & _).
  destruct (number_string_head n) as (ch & rest & Hstr & Hch).
  unfold lua_isstring, lua_type, lua_tostring, lua_tolstring, lua_isfunction, value_at.
  repeat first [rewrite bind_assoc | rewrite bind_reads | rewrite bind_ret].
  cbv beta.
  change (index2value (stack st0) 2) with (Some (LNumber n)).
  change (index2value (stack st0) 3) with (Some (LFunction f)).
  cbn [type_of].
  change ((LUA_TNUMBER =? LUA_TSTRING) || (LUA_TNUMBER =? LUA_TNUMBER)) with true.
  change (LUA_TFUNCTION =? LUA_TFUNCTION) with true.
  cbv iota.
  repeat first [rewrite bind_assoc | rewrite bind_reads | rewrite bind_ret].
  cbv beta.
  change (index2value (stack st0) 2) with (Some (LNumber n)).
  cbn [fmap option_fmap option_map]. rewrite Hstr.
  rewrite (callback_type_other_head ch rest Hch), bind_ret.
  unfold lua_type, value_at.
  repeat first [rewrite bind_assoc | rewrite bind_reads | rewrite bind_ret].
  cbv beta.
  change (index2value (stack st0) 3) with (Some (LFunction f)).
  cbn [type_of].
  change (LUA_TFUNCTION =? LUA_TFUNCTION) with true.
  cbn [negb]. cbv iota.
  destruct (luaL_ref_value st0 [LUserdata u; LNumber n] (LFunction f) eq_refl)
    as (ref & st2 & Href & Hud); [discriminate |].
  unfold bind at 1. rewrite Href.
  erewrite bind_load by (rewrite Hud; exact Hu).
  change (-1 =? CONNECT) with false.
  change (-1 =? DISCONNECT) with false.
  change (-1 =? PUBLISH) with false.
  change (-1 =? MESSAGE) with false.
  change (-1 =? SUBSCRIBE) with false.
  change (-1 =? UNSUBSCRIBE) with false.
  change (-1 =? LOG) with false.
  cbv iota.
  unfold luaL_unref. destruct (0 <=? ref); cbn [with_state];
    rewrite bind_assoc, ?bind_modify, ?bind_ret;
    unfold luaL_argerror, throw, bind; eexists; reflexivity.
Qed.

(** * Further properties of the binding *)

Ltac st_simpl :=
  unfold set_stack, set_registry, set_named_meta, set_udata, set_meta, set_type_meta,
    set_next_obj, set_errno, set_codec_log, set_hook_log;
  cbn [stack registry named_meta udata meta type_meta next_obj errno codec_log hook_log].

Ltac st_simpl_in H :=
  unfold set_stack, set_registry, set_named_meta, set_udata, set_meta, set_type_meta,
    set_next_obj, set_errno, set_codec_log, set_hook_log in H;
  cbn [stack registry named_meta udata meta type_meta next_obj errno codec_log hook_log] in H.

(** ** More steps of the monad and of the Lua API *)

Lemma bind_store {B} (u : nat) (f : ctx_t -> ctx_t) (k : unit -> M B) (st : lua_State)
    (c : ctx_t) :
  udata st !! u = Some c ->
  bind (store u f) k st = k tt (set_udata (<[u := f c]> (udata st)) st).
Proof. intros Hu. unfold bind, store. rewrite Hu. reflexivity. Qed.

Lemma pstatus_only_stack (rc : Z) (st : lua_State) :
  exists stk, final_state (mosq__pstatus rc st) = Some (set_stack stk st).
Proof.
  unfold mosq__pstatus.
  repeat match goal with
         | |- context [if ?b then _ else _] => destruct b
         end;
    try (eexists; reflexivity).
  all: exists (stack st); destruct st; reflexivity.
Qed.

Lemma luaL_optinteger_absent (i d : Z) (st : lua_State) :
  index2value (stack st) i = None -> luaL_optinteger i d st = Done d st.
Proof.
  intros Hv. unfold luaL_optinteger, lua_isnoneornil, lua_type, value_at.
  cbv [bind reads ret]. rewrite Hv. reflexivity.
Qed.

Lemma index2value_below_top (l : list lua_value) (a b : lua_value) :
  index2value ((l ++ [a]) ++ [b]) (-2) = Some a.
Proof.
  unfold index2value. rewrite !length_app. cbn [length].
  replace (0 <? -2) with false by reflexivity.
  replace (-2 <? 0) with true by reflexivity.
  replace (0 <=? Z.of_nat (length l + 1 + 1) + -2) with true
    by (symmetry; apply Z.leb_le; lia).
  cbn [andb].
  replace (Z.to_nat (Z.of_nat (length l + 1 + 1) + -2)) with (length l + 0)%nat by lia.
  rewrite <- app_assoc. apply list_lookup_middle. lia.
Qed.

Lemma lua_isfunction_at (i : Z) (st : lua_State) {B} (k : bool -> M B) :
  bind (lua_isfunction i) k st
  = k (type_of (index2value (stack st) i) =? LUA_TFUNCTION) st.
Proof. reflexivity. Qed.

(** ** Calls on what is no instance *)

Lemma ctx_check_rejects (st : lua_State) :
  not_instance st (stack st) -> ctx_check 1 st = Raise (ErrType 1 MOSQ_META_CTX) st.
Proof.
  intros Hno. unfold ctx_check, luaL_checkudata.
  destruct (index2value (stack st) 1) as [[| | | | | | | |u]|] eqn:Hv; try reflexivity.
  destruct (meta st !! u) as [mt|] eqn:Hmeta; [| reflexivity].
  specialize (Hno u mt Hv Hmeta).
  destruct (named_meta st !! MOSQ_META_CTX) as [t|]; [| reflexivity].
  rewrite bool_decide_eq_false_2; [reflexivity | congruence].
Qed.

Lemma cfunction_call_rejects (f : M Z) (k : nat -> M Z) (args : list lua_value)
    (st : lua_State) :
  not_instance st args ->
  f = bind (ctx_check 1) k ->
  lua_cfunction_call f args st = Raise (ErrType 1 MOSQ_META_CTX) st.
Proof.
  intros Hno ->. unfold lua_cfunction_call, bind.
  rewrite ctx_check_rejects by exact Hno.
  destruct st; reflexivity.
Qed.

(** X1.  Every method of an instance checks its first argument before
    anything else: called on a value that is no live instance (nothing, a
    value of another type, another userdata, a destroyed instance) it raises
    the type error for argument 1 and leaves the state as it was;
    libmosquitto is not called. *)
Theorem methods_reject_non_instances (L : lua_thread) (env : codec_reply)
    (mosquitto_socket : option nat -> Z) (mosquitto_want_write : option nat -> bool)
    (args : list lua_value) (st : lua_State) :
  not_instance st args ->
  (forall op, op <> Op_topic_matches_sub ->
     lua_cfunction_call (run_operation op L env) args st
     = Raise (ErrType 1 MOSQ_META_CTX) st) /\
  lua_cfunction_call (ctx_destroy L env) args st = Raise (ErrType 1 MOSQ_META_CTX) st /\
  lua_cfunction_call (ctx_callback_set L env) args st = Raise (ErrType 1 MOSQ_META_CTX) st /\
  lua_cfunction_call (ctx_socket L mosquitto_socket) args st
  = Raise (ErrType 1 MOSQ_META_CTX) st /\
  lua_cfunction_call (ctx_want_write L mosquitto_want_write) args st
  = Raise (ErrType 1 MOSQ_META_CTX) st.
Proof.
  intros Hno.
  split; [| repeat split; eapply cfunction_call_rejects; try exact Hno; reflexivity].
  intros op Hop.
  destruct op; try contradiction;
    eapply cfunction_call_rejects; try exact Hno; reflexivity.
Qed.

(** ** Construction *)

Lemma luaL_optstring_arg (i : Z) (st : lua_State) (s : option string) :
  string_arg (index2value (stack st) i) s -> luaL_optstring i None st = Done s st.
Proof.
  unfold string_arg, luaL_optstring, lua_isnoneornil, lua_type, luaL_checkstring,
    luaL_checklstring, lua_tolstring, value_at, luaL_typerror.
  intros Hs. cbv [bind reads ret throw].
  destruct (index2value (stack st) i) as [[| | | | | | | |]|] eqn:Hv; simpl in *;
    rewrite ?Hv; simpl; try contradiction; subst; reflexivity.
Qed.




Lemma bind_boolean_arg {B} (i : Z) (k : bool -> M B) (st : lua_State) :
  (let* isbool := lua_isboolean i in
   let* b := (if isbool then lua_toboolean i else ret true) in k b) st
  = k (boolean_arg (index2value (stack st) i)) st.
Proof.
  unfold lua_isboolean, lua_toboolean, lua_type, value_at, boolean_arg.
  cbv [bind reads ret].
  destruct (index2value (stack st) i) as [[|[]| | | | | | |]|] eqn:Hv; simpl;
    rewrite ?Hv; reflexivity.
Qed.

(** X2.  [new] with an acceptable id (a string, a number, which Lua hands
    over as the string [lua_number2str] makes of it, or none) and not both
    no id and [clean_session] false, in a process where the module
    is loaded and libmosquitto hands out a handle: the result is one fresh
    userdata that is a live instance holding the handle, with no hook bound
    and the back-reference unset; libmosquitto was asked once, with the id
    and with [clean_session] true unless the second argument is the boolean
    false; no other instance is touched. *)
Theorem new_creates_instance (L : lua_thread) (env : codec_reply) (args : list lua_value)
    (st : lua_State) (id : option string) (mt mosq : nat) :
  string_arg (index2value args 1) id ->
  (id = None -> boolean_arg (index2value args 2) = true) ->
  named_meta st !! MOSQ_META_CTX = Some mt ->
  reply_handle env = Some mosq ->
  exists st',
    lua_cfunction_call (mosq_new L env) args st = Done [LUserdata (next_obj st)] st' /\
    is_instance st' (next_obj st) (fresh_ctx mosq) /\
    codec_log st'
    = Mosquitto_new id (boolean_arg (index2value args 2)) (next_obj st) :: codec_log st /\
    (forall u, u <> next_obj st -> udata st' !! u = udata st !! u).
Proof.
  intros Hid Hcs Hmt Hmosq. unfold lua_cfunction_call, mosq_new.
  unfold bind at 1. rewrite (luaL_optstring_arg 1 (set_stack args st) id Hid).
  rewrite bind_boolean_arg.
  destruct st as [stk reg nm ud me tm no er cl hl]. st_simpl_in Hmt. st_simpl.
  assert (Hok : is_null id && negb (boolean_arg (index2value args 2)) = false).
  { destruct id as [s|]; [reflexivity |]. rewrite Hcs by reflexivity. reflexivity. }
  rewrite Hok.
  unfold bind at 1, lua_newuserdata. st_simpl.
  rewrite bind_codec. st_simpl.
  erewrite bind_store by (st_simpl; apply lookup_insert_eq). st_simpl.
  rewrite Hmosq. cbn [is_null].
  unfold ctx__on_init.
  repeat (first [rewrite bind_assoc
                | erewrite bind_store by (st_simpl; apply lookup_insert_eq); st_simpl;
                  rewrite insert_insert_eq ]).
  unfold luaL_getmetatable. rewrite bind_assoc, bind_reads. st_simpl. rewrite Hmt.
  unfold lua_push. rewrite bind_modify. st_simpl.
  unfold bind at 1, lua_setmetatable. st_simpl.
  rewrite index2value_below_top, last_snoc, removelast_last. st_simpl.
  cbn [bind ret]. st_simpl.
  eexists. split; [| split; [| split]].
  - f_equal. change (Z.to_nat 1) with (length [LUserdata no]).
    apply drop_app_tail.
  - split; st_simpl.
    + rewrite lookup_insert_eq. reflexivity.
    + exists mt. split; [apply lookup_insert_eq | exact Hmt].
  - reflexivity.
  - intros u Hu. st_simpl. rewrite !lookup_insert_ne by congruence. reflexivity.
Qed.


(** X3.  [new] when libmosquitto hands out no handle (it returns NULL):
    the call raises the description of the [errno] libmosquitto left, after
    the one call of [mosquitto_new]; no metatable was attached to anything,
    so no instance came into being. *)
Theorem new_reports_failure (L : lua_thread) (env : codec_reply) (args : list lua_value)
    (st : lua_State) (id : option string) :
  string_arg (index2value args 1) id ->
  (id = None -> boolean_arg (index2value args 2) = true) ->
  reply_handle env = None ->
  exists st',
    lua_cfunction_call (mosq_new L env) args st
    = Raise (ErrMsg (strerror (reply_errno env))) st' /\
    codec_log st'
    = Mosquitto_new id (boolean_arg (index2value args 2)) (next_obj st) :: codec_log st /\
    meta st' = meta st /\ type_meta st' = type_meta st.
Proof.
  intros Hid Hcs Hmosq. unfold lua_cfunction_call, mosq_new.
  unfold bind at 1. rewrite (luaL_optstring_arg 1 (set_stack args st) id Hid).
  rewrite bind_boolean_arg.
  destruct st as [stk reg nm ud me tm no er cl hl]. st_simpl.
  assert (Hok : is_null id && negb (boolean_arg (index2value args 2)) = false).
  { destruct id as [s|]; [reflexivity |]. rewrite Hcs by reflexivity. reflexivity. }
  rewrite Hok.
  unfold bind at 1, lua_newuserdata. st_simpl.
  rewrite bind_codec. st_simpl.
  erewrite bind_store by (st_simpl; apply lookup_insert_eq). st_simpl.
  rewrite Hmosq. cbn [is_null].
  rewrite bind_reads. st_simpl. unfold luaL_error, throw.
  eexists. repeat split.
Qed.

(** ** What an operation ends in *)

(** The end of an operation once its arguments are read: a return code
    [mosq__pstatus] has no case for yields no value at all, and the only
    error raised is the handler's own. *)
Definition outcome (env : codec_reply) (r : result Z) : Prop :=
  match r with
  | Done n st' => unhandled (reply_rc env) -> returned n st' = []
  | Raise e _ => hard_error (reply_rc env) /\ e = ErrMsg (mosquitto_strerror (reply_rc env))
  | Undef _ => True
  end.

(** Up to there nothing has changed: an operation ends in the state it
    started from, or as [outcome] says. *)
Definition staged (st0 : lua_State) (env : codec_reply) (r : result Z) : Prop :=
  match r with
  | Done _ st' | Raise _ st' => st' = st0 \/ outcome env r
  | Undef _ => True
  end.

Lemma outcome_pstatus (env : codec_reply) (st : lua_State) :
  outcome env (mosq__pstatus (reply_rc env) st).
Proof.
  unfold mosq__pstatus, outcome, unhandled, hard_error, operational_error.
  set (rc := reply_rc env).
  destruct (Z.eqb_spec rc MOSQ_ERR_SUCCESS) as [H0|H0]; [cbn; tauto |].
  destruct (Z.eqb_spec rc MOSQ_ERR_INVAL) as [H1|H1]; [cbn; tauto |].
  destruct (Z.eqb_spec rc MOSQ_ERR_NOMEM) as [H2|H2]; [cbn; tauto |].
  destruct (Z.eqb_spec rc MOSQ_ERR_PROTOCOL) as [H3|H3]; [cbn; tauto |].
  destruct (Z.eqb_spec rc MOSQ_ERR_NOT_SUPPORTED) as [H4|H4]; [cbn; tauto |].
  destruct (Z.eqb_spec rc MOSQ_ERR_NO_CONN) as [H5|H5]; [cbn; tauto |].
  destruct (Z.eqb_spec rc MOSQ_ERR_CONN_LOST) as [H6|H6]; [cbn; tauto |].
  destruct (Z.eqb_spec rc MOSQ_ERR_PAYLOAD_SIZE) as [H7|H7]; [cbn; tauto |].
  destruct (Z.eqb_spec rc MOSQ_ERR_ERRNO) as [H8|H8]; [cbn; tauto |].
  cbn. intros _. unfold returned. cbn [Z.to_nat]. rewrite Nat.sub_0_r. apply drop_all.
Qed.

Lemma outcome_or_value (env : codec_reply) (v : lua_value) (st : lua_State) :
  outcome env
    ((if negb (reply_rc env =? MOSQ_ERR_SUCCESS) then mosq__pstatus (reply_rc env)
      else bind (lua_push v) (fun _ => ret 1)) st).
Proof.
  destruct (Z.eqb_spec (reply_rc env) MOSQ_ERR_SUCCESS) as [H0|H0]; simpl.
  - unfold unhandled. tauto.
  - apply outcome_pstatus.
Qed.

Lemma outcome_after {A} (env : codec_reply) (m : M A) (st : lua_State) :
  keeps_errno m ->
  outcome env (bind m (fun _ => mosq__pstatus (reply_rc env)) st).
Proof.
  intros Hm. unfold bind. specialize (Hm st).
  destruct (m st) as [a st'|e st'|u]; [| contradiction | exact I].
  apply outcome_pstatus.
Qed.

Lemma outcome_bind_codec (env : codec_reply) (c : codec_call) (k : Z -> M Z)
    (st : lua_State) :
  (forall st', outcome env (k (reply_rc env) st')) ->
  outcome env (bind (codec c env) k st).
Proof. intros Hk. rewrite bind_codec. apply Hk. Qed.

Lemma outcome_bind_codec_loop (env : codec_reply) (c : codec_call) (mosq : option nat)
    (obj : nat) (k : Z -> M Z) (st : lua_State) :
  (forall st', outcome env (k (reply_rc env) st')) ->
  outcome env (bind (codec_loop c mosq obj env) k st).
Proof.
  intros Hk. unfold bind.
  pose proof (codec_loop_spec c mosq obj env st) as Hs.
  destruct (codec_loop c mosq obj env st) as [rc st'|e st'|u]; [| contradiction | exact I].
  destruct Hs as (-> & _). apply Hk.
Qed.

Lemma outcome_bind_store (env : codec_reply) (ctx : nat) (f : ctx_t -> ctx_t)
    (k : unit -> M Z) (st : lua_State) :
  (forall st', outcome env (k tt st')) ->
  outcome env (bind (store ctx f) k st).
Proof.
  intros Hk. unfold bind, store.
  destruct (udata st !! ctx); [apply Hk | exact I].
Qed.

Lemma outcome_bind_load {A} (env : codec_reply) (ctx : nat) (f : ctx_t -> A)
    (k : A -> M Z) (st : lua_State) :
  (forall a st', outcome env (k a st')) ->
  outcome env (bind (load ctx f) k st).
Proof.
  intros Hk. unfold bind, load.
  destruct (udata st !! ctx); [apply Hk | exact I].
Qed.

Lemma staged_outcome (st0 : lua_State) (env : codec_reply) (r : result Z) :
  outcome env r -> staged st0 env r.
Proof. unfold staged. destruct r; auto. Qed.

Lemma staged_bind_ro {A} (st0 : lua_State) (env : codec_reply) (m : M A) (k : A -> M Z) :
  readonly m ->
  (forall a, staged st0 env (k a st0)) ->
  staged st0 env (bind m k st0).
Proof.
  intros Hm Hk. unfold bind. specialize (Hm st0).
  destruct (m st0) as [a st'|e st'|u]; subst.
  - apply Hk.
  - left. reflexivity.
  - exact I.
Qed.

Lemma staged_if_argerror (st0 : lua_State) (env : codec_reply) (b : bool) (narg : Z)
    (msg : string) (m : M Z) :
  staged st0 env (m st0) ->
  staged st0 env ((if b then luaL_argerror narg msg else m) st0).
Proof. intros Hm. destruct b; [left; reflexivity | exact Hm]. Qed.

Ltac outcome_tac :=
  repeat first
    [ apply outcome_pstatus
    | apply outcome_or_value
    | apply outcome_bind_codec; intros ?
    | apply outcome_bind_codec_loop; intros ?
    | apply outcome_bind_store; intros ?
    | apply outcome_bind_load; intros ? ?
    | apply outcome_after;
      repeat first [ apply keeps_errno_store | apply keeps_errno_ctx__on_init
                   | apply keeps_errno_ctx__on_clear
                   | apply keeps_errno_bind; [| intros ?] ] ].

Ltac staged_tac :=
  repeat first
    [ apply staged_bind_ro; [ solve [ readonly_tac ] | intros ? ]
    | apply staged_if_argerror ];
  apply staged_outcome; outcome_tac.

Lemma staged_operation (op : operation) (L : lua_thread) (env : codec_reply)
    (st0 : lua_State) :
  staged st0 env (run_operation op L env st0).
Proof.
  destruct op; simpl;
    unfold mosq_topic_matches_sub, ctx_reinitialise, ctx_will_set, ctx_will_clear,
      ctx_login_set, ctx_tls_opts_set, ctx_version_set, ctx_tls_set,
      ctx_tls_insecure_set, ctx_tls_psk_set, ctx_threaded_set, ctx_connect,
      ctx_connect_async, ctx_reconnect, ctx_reconnect_delay_set, ctx_reconnect_async,
      ctx_disconnect, ctx_publish, ctx_subscribe, ctx_unsubscribe, ctx_loop,
      ctx_loop_forever, mosq_loop, ctx_loop_start, ctx_loop_stop, ctx_loop_read,
      ctx_loop_write, ctx_loop_misc;
    staged_tac.
  unfold bind at 1.
  pose proof (keeps_errno_ctx__on_clear a st') as Hc.
  destruct (ctx__on_clear a st') as [[] st2|e st2|u]; [| contradiction | exact I].
  apply outcome_after, keeps_errno_ctx__on_init.
Qed.

(** X4.  For every operation that reports the codec's return code: once
    libmosquitto has been called, a return code outside the nine that
    [mosq__pstatus] has a case for (connection refused, TLS, authentication
    and so on) makes the operation return no value at all: neither true,
    nor the nil-code-message triple, nor an error. *)
Theorem unhandled_status_returns_nothing (op : operation) (L : lua_thread)
    (env : codec_reply) (args : list lua_value) (st : lua_State)
    (r : result (list lua_value)) :
  r = lua_cfunction_call (run_operation op L env) args st ->
  codec_called st r ->
  unhandled (reply_rc env) ->
  exists st', r = Done [] st'.
Proof.
  intros -> Hcalled Hrc. unfold lua_cfunction_call, codec_called in *.
  pose proof (staged_operation op L env (set_stack args st)) as Hs.
  unfold staged in Hs.
  destruct (run_operation op L env (set_stack args st)) as [n st'|e st'|u];
    simpl in Hs, Hcalled; [| | contradiction].
  - destruct Hs as [-> | Hout]; [exfalso; apply Hcalled; reflexivity |].
    fold (returned n st'). rewrite (Hout Hrc). eauto.
  - destruct Hs as [-> | (Hhard & _)]; [exfalso; apply Hcalled; reflexivity |].
    destruct Hrc as (_ & Hno & _). contradiction.
Qed.

(** X5.  For every operation that reports the codec's return code: an
    error it raises is either the handler's error for one of the four hard
    codes, or it was raised while the arguments were being checked, and then
    nothing has happened: the state is the one the call started from, and
    libmosquitto was not called. *)
Theorem argument_errors_change_nothing (op : operation) (L : lua_thread)
    (env : codec_reply) (args : list lua_value) (st st' : lua_State) (e : lua_error) :
  lua_cfunction_call (run_operation op L env) args st = Raise e st' ->
  (hard_error (reply_rc env) /\ e = ErrMsg (mosquitto_strerror (reply_rc env)))
  \/ st' = st.
Proof.
  unfold lua_cfunction_call.
  pose proof (staged_operation op L env (set_stack args st)) as Hs.
  unfold staged in Hs.
  destruct (run_operation op L env (set_stack args st)) as [n st1|e1 st1|u];
    [discriminate | | discriminate].
  intros [= <- <-].
  destruct Hs as [-> | Hout]; [right; destruct st; reflexivity | left; exact Hout].
Qed.

(** ** What the other hooks are called with *)

(** X6.  Inside a loop call, the message hook is called once with the
    message id, the topic, the payload (all of its bytes, NULs included),
    the quality of service and the retain flag of the message, in this
    order; an error the hook raises is dropped. *)
Theorem message_hook_arguments (u : nat) (msg : mosquitto_message) (st : lua_State)
    (c : ctx_t) (l : lua_thread) (f : nat) :
  udata st !! u = Some c -> ctx_L c = Some l ->
  is_int (on_message c) ->
  registry st !! on_message c = Some (LFunction f) ->
  ctx_on_message u msg st
  = Done tt (set_hook_log
               ((f, [LNumber (msg_mid msg); LString (msg_topic msg);
                     LString (msg_payload msg); LNumber (msg_qos msg);
                     LBoolean (msg_retain msg)]) :: hook_log st) st).
Proof.
  intros Hu HL Href Hreg.
  assert (Hraw : rawget (registry st) (on_message c) = LFunction f).
  { unfold rawget. rewrite Hreg. reflexivity. }
  pose proof (dispatch_spec u (EvMessage msg) st c l Hu HL Href I) as Hd.
  simpl in Hd. rewrite Hraw in Hd. exact (Hd eq_refl).
Qed.

(** X7.  Inside a loop call, the log hook is called once with the level
    and the text of the log line; an error the hook raises is dropped. *)
Theorem log_hook_arguments (u : nat) (level : Z) (str : string) (st : lua_State)
    (c : ctx_t) (l : lua_thread) (f : nat) :
  udata st !! u = Some c -> ctx_L c = Some l ->
  is_int (on_log c) -> is_int level ->
  registry st !! on_log c = Some (LFunction f) ->
  ctx_on_log u level str st
  = Done tt (set_hook_log ((f, [LNumber level; LString str]) :: hook_log st) st).
Proof.
  intros Hu HL Href Hlevel Hreg.
  assert (Hraw : rawget (registry st) (on_log c) = LFunction f).
  { unfold rawget. rewrite Hreg. reflexivity. }
  pose proof (dispatch_spec u (EvLog level str) st c l Hu HL Href Hlevel) as Hd.
  simpl in Hd. rewrite Hraw in Hd. exact (Hd eq_refl).
Qed.

(** X8.  Inside a loop call, the publish hook and the unsubscribe hook are
    each called once with the message id alone; an error the hook raises is
    dropped. *)
Theorem publish_and_unsubscribe_hook_arguments (u : nat) (mid : Z) (st : lua_State)
    (c : ctx_t) (l : lua_thread) :
  udata st !! u = Some c -> ctx_L c = Some l ->
  (forall f, registry st !! on_publish c = Some (LFunction f) ->
     ctx_on_publish u mid st
     = Done tt (set_hook_log ((f, [LNumber mid]) :: hook_log st) st)) /\
  (forall f, registry st !! on_unsubscribe c = Some (LFunction f) ->
     ctx_on_unsubscribe u mid st
     = Done tt (set_hook_log ((f, [LNumber mid]) :: hook_log st) st)).
Proof.
  intros Hu HL. split; intros f Hreg.
  - assert (Hraw : rawget (registry st) (on_publish c) = LFunction f).
    { unfold rawget. rewrite Hreg. reflexivity. }
    unfold ctx_on_publish. rewrite (bind_load _ _ _ _ _ Hu), HL. cbn [with_state].
    run_pushes Hu. fold (protected_call 1).
    rewrite (protected_call_host 1 _ (stack st) (rawget (registry st) (on_publish c))
               [LNumber mid]).
    + rewrite Hraw. destruct st; reflexivity.
    + cbn [stack set_stack]. rewrite <- !app_assoc. reflexivity.
    + reflexivity.
    + rewrite Hraw. reflexivity.
  - assert (Hraw : rawget (registry st) (on_unsubscribe c) = LFunction f).
    { unfold rawget. rewrite Hreg. reflexivity. }
    unfold ctx_on_unsubscribe. rewrite (bind_load _ _ _ _ _ Hu), HL. cbn [with_state].
    run_pushes Hu. fold (protected_call 1).
    rewrite (protected_call_host 1 _ (stack st) (rawget (registry st) (on_unsubscribe c))
               [LNumber mid]).
    + rewrite Hraw. destruct st; reflexivity.
    + cbn [stack set_stack]. rewrite <- !app_assoc. reflexivity.
    + reflexivity.
    + rewrite Hraw. reflexivity.
Qed.

(** X9.  Inside a loop call, the subscribe hook is called once with the
    message id followed by every granted quality of service, in order.  When
    [lua_checkstack] finds no room for them on the Lua stack the event is
    dropped: the hook is not called, nothing is raised and nothing
    changes. *)
Theorem subscribe_hook_arguments (u : nat) (mid : Z) (granted_qos : list Z)
    (st : lua_State) (c : ctx_t) (l : lua_thread) (f : nat) :
  udata st !! u = Some c -> ctx_L c = Some l ->
  registry st !! on_subscribe c = Some (LFunction f) ->
  ctx_on_subscribe u mid granted_qos st
  = Done tt
      (if (Z.of_nat (length granted_qos) + 2 <=? LUAI_MAXCSTACK)
          && (Z.of_nat (length (stack st)) + (Z.of_nat (length granted_qos) + 2)
              <=? LUAI_MAXCSTACK)
       then set_hook_log ((f, LNumber mid :: map LNumber granted_qos) :: hook_log st) st
       else st).
Proof.
  intros Hu HL Hreg.
  assert (Hraw : rawget (registry st) (on_subscribe c) = LFunction f).
  { unfold rawget. rewrite Hreg. reflexivity. }
  unfold ctx_on_subscribe. rewrite (bind_load _ _ _ _ _ Hu), HL. cbn [with_state].
  unfold lua_checkstack. rewrite bind_reads.
  destruct (_ && _); cbn [negb]; [| reflexivity].
  run_pushes Hu.
  unfold bind at 1. rewrite push_integers_spec. cbn [stack set_stack].
  fold (protected_call (length granted_qos + 1)).
  match goal with
  | |- _ ?st' = _ =>
      rewrite (protected_call_host _ st' (stack st) (rawget (registry st) (on_subscribe c))
                 (LNumber mid :: map LNumber granted_qos))
  end.
  - rewrite Hraw. destruct st; reflexivity.
  - cbn [stack set_stack]. rewrite <- !app_assoc. reflexivity.
  - simpl. rewrite length_map. lia.
  - rewrite Hraw. reflexivity.
Qed.

(** ** The events of a loop call *)

Lemma dispatch_delivery (u : nat) (ev : mosq_event) (st : lua_State) (c : ctx_t)
    (l : lua_thread) :
  udata st !! u = Some c -> ctx_L c = Some l ->
  hooks_ok st c -> event_ints ev ->
  report (ctx_mosq c) u ev st
  = Done tt (set_hook_log (delivery (ctx_mosq c) c st ev ++ hook_log st) st).
Proof.
  intros Hu HL Hok Hev. destruct (Hok ev) as [Href Hv].
  unfold report, delivery. rewrite bind_reads.
  destruct (cb_registered _ _ _); cbn [andb]; [| destruct st; reflexivity].
  rewrite (dispatch_spec u ev st c l Hu HL Href Hev Hv).
  destruct (hook_called st ev); [| destruct st; reflexivity].
  destruct (rawget (registry st) (hook_ref c ev)); destruct st; reflexivity.
Qed.

Lemma report_all_delivery (u : nat) (evs : list mosq_event) (st : lua_State) (c : ctx_t)
    (l : lua_thread) (log : list (nat * list lua_value)) :
  udata st !! u = Some c -> ctx_L c = Some l ->
  hooks_ok st c -> Forall event_ints evs ->
  report_all (ctx_mosq c) u evs (set_hook_log log st)
  = Done tt (set_hook_log
               (rev (flat_map (delivery (ctx_mosq c) c st) evs) ++ log) st).
Proof.
  intros Hu HL Hok Hevs. revert log.
  induction Hevs as [|ev evs Hev Hevs IH]; intros log; [reflexivity |].
  cbn [report_all flat_map]. unfold bind at 1.
  rewrite (dispatch_delivery u ev (set_hook_log log st) c l Hu HL Hok Hev).
  change (delivery (ctx_mosq c) c (set_hook_log log st) ev)
    with (delivery (ctx_mosq c) c st ev).
  change (set_hook_log ?x (set_hook_log log st)) with (set_hook_log x st).
  cbn [hook_log set_hook_log]. rewrite IH.
  rewrite rev_app_distr, <- app_assoc.
  f_equal. f_equal. f_equal.
  unfold delivery. destruct (_ && _); [| reflexivity].
  destruct (rawget _ _); reflexivity.
Qed.



(** The codec calls that run the loop register nothing. *)
Definition loop_call (cc : codec_call) : bool :=
  match cc with
  | Mosquitto_loop _ _ _ | Mosquitto_loop_forever _ _ _ | Mosquitto_loop_read _ _
  | Mosquitto_loop_write _ _ | Mosquitto_loop_misc _ => true
  | _ => false
  end.

Lemma stepping_delivery (u : nat) (L : lua_thread) (mk : option nat -> codec_call)
    (env : codec_reply) (st : lua_State) (c : ctx_t) :
  udata st !! u = Some c ->
  hooks_ok st c -> Forall event_ints (reply_events env) ->
  loop_call (mk (ctx_mosq c)) = true ->
  exists stk,
    final_state
      ((store u (set_ctx_L (Some L)) >>
        let* mosq := load u ctx_mosq in
        let* rc := codec_loop (mk mosq) mosq u env in
        store u (set_ctx_L None) >> mosq__pstatus rc) st)
    = Some (set_stack stk
              (set_udata (<[u := set_ctx_L None c]> (udata st))
                 (set_errno (reply_errno env)
                    (set_codec_log (mk (ctx_mosq c) :: codec_log st)
                       (set_hook_log
                          (rev (flat_map (delivery (ctx_mosq c) c st) (reply_events env))
                           ++ hook_log st) st))))).
Proof.
  intros Hu Hok Hevs Hcc.
  rewrite (bind_store u _ _ st c Hu).
  set (c1 := set_ctx_L (Some L) c).
  set (st1 := set_udata (<[u := c1]> (udata st)) st).
  assert (Hu1 : udata st1 !! u = Some c1) by (apply lookup_insert_eq).
  rewrite (bind_load _ _ _ _ _ Hu1).
  change (ctx_mosq c1) with (ctx_mosq c).
  unfold codec_loop. rewrite !bind_assoc, bind_modify.
  set (st2 := set_codec_log (mk (ctx_mosq c) :: codec_log st1) st1).
  assert (Hu2 : udata st2 !! u = Some c1) by exact Hu1.
  assert (Hok2 : hooks_ok st2 c1) by exact Hok.
  pose proof (report_all_delivery u (reply_events env) st2 c1 L (hook_log st2)
                Hu2 eq_refl Hok2 Hevs) as Hrep.
  replace (set_hook_log (hook_log st2) st2) with st2 in Hrep by (destruct st; reflexivity).
  change (ctx_mosq c1) with (ctx_mosq c) in Hrep.
  rewrite bind_assoc. unfold bind at 1. rewrite Hrep.
  rewrite bind_assoc, bind_modify, bind_ret.
  erewrite bind_store by (cbn [udata set_errno set_hook_log]; exact Hu2).
  match goal with
  | |- context [mosq__pstatus ?rc ?s] => destruct (pstatus_only_stack rc s) as [stk Hfin]
  end.
  exists stk. rewrite Hfin. f_equal.
  assert (Hdel : forall ev, delivery (ctx_mosq c) c1 st2 ev = delivery (ctx_mosq c) c st ev).
  { intros ev. unfold delivery.
    replace (cb_registered (ctx_mosq c) (event_kind ev) (codec_log st2))
      with (cb_registered (ctx_mosq c) (event_kind ev) (codec_log st))
      by (unfold st2, st1; cbn [codec_log set_codec_log set_udata];
          destruct (mk (ctx_mosq c)); try discriminate Hcc; reflexivity).
    destruct ev; reflexivity. }
  rewrite (flat_map_ext _ _ Hdel).
  unfold st2, st1, c1. destruct st. cbn. rewrite insert_insert_eq. reflexivity.
Qed.

Lemma stepping_delivers (op : stepping) (L : lua_thread) (env : codec_reply)
    (st : lua_State) (u : nat) (c : ctx_t) :
  is_instance st u c ->
  hooks_ok st c ->
  Forall event_ints (reply_events env) ->
  exists st',
    final_state (lua_cfunction_call (run_stepping op L env) [LUserdata u] st) = Some st' /\
    hook_log st'
    = rev (flat_map (delivery (ctx_mosq c) c (set_stack [LUserdata u] st)) (reply_events env))
      ++ hook_log st /\
    udata st' = <[u := set_ctx_L None c]> (udata st) /\
    registry st' = registry st /\ stack st' = stack st.
Proof.
  intros Hinst Hok Hevs.
  rewrite final_state_cfunction_call.
  set (st0 := set_stack [LUserdata u] st).
  assert (Hchk : ctx_check 1 st0 = Done u st0)
    by (apply (ctx_check_instance st0 u c []); [exact Hinst | reflexivity]).
  destruct Hinst as (Hu & _).
  assert (Hu0 : udata st0 !! u = Some c) by exact Hu.
  assert (Hok0 : hooks_ok st0 c) by exact Hok.
  assert (Htail : forall mk, loop_call (mk (ctx_mosq c)) = true ->
            exists st',
              set_stack (stack st) <$>
                final_state
                  ((store u (set_ctx_L (Some L)) >>
                    let* mosq := load u ctx_mosq in
                    let* rc := codec_loop (mk mosq) mosq u env in
                    store u (set_ctx_L None) >> mosq__pstatus rc) st0) = Some st' /\
              hook_log st'
              = rev (flat_map (delivery (ctx_mosq c) c st0) (reply_events env))
                ++ hook_log st /\
              udata st' = <[u := set_ctx_L None c]> (udata st) /\
              registry st' = registry st /\ stack st' = stack st).
  { intros mk Hmk.
    destruct (stepping_delivery u L mk env st0 c Hu0 Hok0 Hevs Hmk) as [stk ->].
    eexists. split; [reflexivity |]. repeat split. }
  destruct op; simpl;
    unfold ctx_loop, ctx_loop_forever, mosq_loop, ctx_loop_read, ctx_loop_write,
      ctx_loop_misc;
    unfold bind at 1; rewrite Hchk;
    repeat (unfold bind at 1; rewrite luaL_optinteger_absent by reflexivity).
  - apply (Htail (fun mosq => Mosquitto_loop mosq (c_int (-1)) (c_int 1))). reflexivity.
  - apply (Htail (fun mosq => Mosquitto_loop_forever mosq (c_int (-1)) (c_int 1))). reflexivity.
  - apply (Htail (fun mosq => Mosquitto_loop_read mosq (c_int 1))). reflexivity.
  - apply (Htail (fun mosq => Mosquitto_loop_write mosq (c_int 1))). reflexivity.
  - apply (Htail (fun mosq => Mosquitto_loop_misc mosq)). reflexivity.
Qed.
(** X10.  A loop operation called with the instance alone reports the
    events libmosquitto hands over during the call one after the other:
    each event whose kind has a callback registered and a function bound
    leads to one call of that function with the arguments of the event
    (whether or not earlier hooks raised errors; a subscribe event only when
    the Lua stack has room for its arguments), and the calls are made in
    the order of the events.  Afterwards the registry and the caller's
    frame are as they were, and the instance is as it was with its
    back-reference unset. *)
Theorem loop_delivers_events (op : stepping) (L : lua_thread) (env : codec_reply)
    (st : lua_State) (u : nat) (c : ctx_t) :
  is_instance st u c ->
  hooks_ok st c ->
  Forall event_ints (reply_events env) ->
  exists st',
    final_state (lua_cfunction_call (run_stepping op L env) [LUserdata u] st) = Some st' /\
    hook_log st'
    = rev (flat_map (delivery (ctx_mosq c) c (set_stack [LUserdata u] st)) (reply_events env))
      ++ hook_log st /\
    udata st' = <[u := set_ctx_L None c]> (udata st) /\
    registry st' = registry st /\ stack st' = stack st.
Proof. apply stepping_delivers. Qed.

(** ** The lifetime of the back-reference *)



(** ** Binding a hook *)

(** What [luaL_ref] does with a function on top of the stack: the function
    is popped and stored under the reference returned; of the other keys
    only the head of the free list may change, and no value appears that
    was not there. *)
Lemma luaL_ref_function (st : lua_State) (stk : list lua_value) (f : nat) :
  stack st = stk ++ [LFunction f] ->
  exists ref reg,
    luaL_ref st = Done ref (set_registry reg (set_stack stk st)) /\
    reg !! ref = Some (LFunction f) /\
    (forall k, k <> ref -> k <> FREELIST_REF -> reg !! k = registry st !! k) /\
    (forall k v, reg !! k = Some v -> v = LFunction f \/ exists k', registry st !! k' = Some v).
Proof.
  intros Hstk. unfold luaL_ref. rewrite Hstk, last_snoc, removelast_last.
  destruct (c_int (tointeger (registry st !! FREELIST_REF)) =? 0) eqn:Hfree.
  - eexists _, _. split; [reflexivity |]. cbn [rawset]. split; [apply lookup_insert_eq |].
    split.
    + intros k Hk _. apply lookup_insert_ne. congruence.
    + intros k v Hv. apply lookup_insert_Some in Hv as [[_ <-] | [_ Hv]]; eauto.
  - eexists _, _. split; [reflexivity |]. cbn [rawset]. split; [apply lookup_insert_eq |].
    split.
    + intros k Hk Hk0. rewrite lookup_insert_ne by congruence.
      unfold rawset. destruct (rawget (registry st) _);
        first [apply lookup_delete_ne; congruence | apply lookup_insert_ne; congruence].
    + intros k v Hv. apply lookup_insert_Some in Hv as [[_ <-] | [_ Hv]]; [eauto |].
      right. unfold rawset, rawget in Hv.
      destruct (registry st !! c_int (tointeger (registry st !! FREELIST_REF)))
        as [w|] eqn:Hw; cbn [default] in Hv.
      * destruct w;
          try (apply lookup_insert_Some in Hv as [[_ <-] | [_ Hv]]; eauto).
        apply lookup_delete_Some in Hv as [_ Hv]. eauto.
      * apply lookup_delete_Some in Hv as [_ Hv]. eauto.
Qed.

(** The start of [ctx_callback_set] on an instance and a string: the kind
    is the one [callback_type_from_string] gives for the C string. *)
Lemma callback_set_kind (L : lua_thread) (env : codec_reply) (st : lua_State) (u : nat)
    (c : ctx_t) (s : string) (rest : list lua_value) (k : nat -> Z -> M Z) :
  is_instance st u c ->
  stack st = LUserdata u :: LString s :: rest ->
  (let* ctx := ctx_check 1 in
   let* isstr := lua_isstring 2 in
   let* callback_type :=
     (if isstr then
        let* s := lua_tostring 2 in
        match s with
        | Some typestr => ret (callback_type_from_string typestr)
        | None => undef NullString
        end
      else
        let* n := luaL_checkinteger 2 in ret (c_int n)) in
   k ctx callback_type) st
  = k u (callback_type_from_string (c_str s)) st.
Proof.
  intros Hinst Hstk.
  unfold bind at 1. rewrite (ctx_check_instance st u c _ Hinst Hstk).
  assert (Hst : st = set_stack (LUserdata u :: LString s :: rest) st)
    by (rewrite <- Hstk; destruct st; reflexivity).
  rewrite Hst. reflexivity.
Qed.


(** X11.  [callback_set] on a live instance with a string that is not one
    of the seven names and a function: the call fails with the invalid-kind
    error, the instance and the codec are as they were, and the reference
    [luaL_ref] had handed out for the function is released again: it heads
    the free list of the registry. *)
Theorem unknown_kind_releases_reference (L : lua_thread) (env : codec_reply)
    (st : lua_State) (u : nat) (c : ctx_t) (s : string) (f : nat) :
  is_instance st u c ->
  callback_type_from_string (c_str s) = -1 ->
  exists ref st1 st',
    luaL_ref (set_stack [LUserdata u; LString s; LFunction f] st) = Done ref st1 /\
    lua_cfunction_call (ctx_callback_set L env) [LUserdata u; LString s; LFunction f] st
    = Raise (ErrArg 2 "not a proper callback type") st' /\
    udata st' = udata st /\ codec_log st' = codec_log st /\
    (0 <= ref -> registry st' !! FREELIST_REF = Some (LNumber ref)).
Proof.
  intros Hinst Hkind. unfold lua_cfunction_call, ctx_callback_set.
  set (st0 := set_stack [LUserdata u; LString s; LFunction f] st).
  rewrite (callback_set_kind L env st0 u c s [LFunction f] _ Hinst eq_refl).
  rewrite Hkind, lua_isfunction_at.
  change (type_of (index2value (stack st0) 3) =? LUA_TFUNCTION) with true. cbn [negb].
  destruct (luaL_ref_function st0 [LUserdata u; LString s] f eq_refl)
    as (ref & reg & Href & _).
  exists ref. eexists. rewrite Href. unfold bind at 1. rewrite Href.
  destruct Hinst as (Hu & _).
  erewrite bind_load by exact Hu.
  change (-1 =? CONNECT) with false.
  change (-1 =? DISCONNECT) with false.
  change (-1 =? PUBLISH) with false.
  change (-1 =? MESSAGE) with false.
  change (-1 =? SUBSCRIBE) with false.
  change (-1 =? UNSUBSCRIBE) with false.
  change (-1 =? LOG) with false.
  cbv iota.
  unfold luaL_unref. destruct (Z.leb_spec 0 ref) as [Hle|Hlt]; cbn [with_state];
    rewrite bind_assoc, ?bind_modify, ?bind_ret;
    unfold luaL_argerror, throw, bind; eexists; (split; [reflexivity |]);
    (split; [reflexivity |]); repeat split.
  - intros _. cbn [registry set_stack set_registry rawset]. apply lookup_insert_eq.
  - intros Hge. lia.
Qed.

(** X12.  [callback_set] on a live instance with a string for the kind and
    a third argument that is no function (nothing, nil, or any other value):
    the call fails with the error for argument 3, whatever the kind, and
    nothing has changed; so a hook cannot be unbound by binding nil. *)
Theorem callback_set_requires_function (L : lua_thread) (env : codec_reply)
    (st : lua_State) (u : nat) (c : ctx_t) (s : string) (rest : list lua_value) :
  is_instance st u c ->
  type_of (index2value (LUserdata u :: LString s :: rest) 3) <> LUA_TFUNCTION ->
  lua_cfunction_call (ctx_callback_set L env) (LUserdata u :: LString s :: rest) st
  = Raise (ErrArg 3 "expecting a callback function") st.
Proof.
  intros Hinst Hfun. unfold lua_cfunction_call, ctx_callback_set.
  set (st0 := set_stack (LUserdata u :: LString s :: rest) st).
  rewrite (callback_set_kind L env st0 u c s rest _ Hinst eq_refl).
  rewrite lua_isfunction_at.
  change (stack st0) with (LUserdata u :: LString s :: rest).
  destruct (Z.eqb_spec (type_of (index2value (LUserdata u :: LString s :: rest) 3))
              LUA_TFUNCTION) as [Heq|_]; [contradiction |].
  cbn [negb]. unfold luaL_argerror, throw. destruct st; reflexivity.
Qed.

Lemma callback_set_binds_state (L : lua_thread) (env : codec_reply) (st : lua_State)
    (u : nat) (c : ctx_t) (s : string) (f : nat) (kind : Z) :
  is_instance st u c ->
  callback_type_from_string (c_str s) = kind -> kind <> -1 ->
  exists ref reg c',
    luaL_ref (set_stack [LUserdata u; LString s; LFunction f] st)
    = Done ref (set_registry reg (set_stack [LUserdata u; LString s] st)) /\
    lua_cfunction_call (ctx_callback_set L env) [LUserdata u; LString s; LFunction f] st
    = Done [LBoolean true]
        (set_udata (<[u := c']> (udata st))
           (set_errno (reply_errno env)
              (set_codec_log (Mosquitto_callback_set (ctx_mosq c) kind :: codec_log st)
                 (set_registry reg st)))) /\
    reg !! ref = Some (LFunction f) /\
    (forall k, k <> ref -> k <> FREELIST_REF -> reg !! k = registry st !! k) /\
    (forall k v, reg !! k = Some v ->
       v = LFunction f \/ exists k', registry st !! k' = Some v) /\
    (forall ev, event_kind ev = kind -> hook_ref c' ev = ref) /\
    (forall ev, event_kind ev <> kind -> hook_ref c' ev = hook_ref c ev) /\
    ctx_L c' = ctx_L c /\ ctx_mosq c' = ctx_mosq c.
Proof.
  intros Hinst Hkind Hvalid. unfold lua_cfunction_call, ctx_callback_set.
  set (st0 := set_stack [LUserdata u; LString s; LFunction f] st).
  rewrite (callback_set_kind L env st0 u c s [LFunction f] _ Hinst eq_refl).
  rewrite Hkind, lua_isfunction_at.
  change (type_of (index2value (stack st0) 3) =? LUA_TFUNCTION) with true. cbn [negb].
  destruct (luaL_ref_function st0 [LUserdata u; LString s] f eq_refl)
    as (ref & reg & Href & Hreg & Hother & Hfrom).
  exists ref, reg.
  unfold bind at 1. rewrite Href.
  destruct Hinst as (Hu & _).
  erewrite bind_load by exact Hu.
  assert (Hnames : kind = CONNECT \/ kind = DISCONNECT \/ kind = PUBLISH \/ kind = MESSAGE
                   \/ kind = SUBSCRIBE \/ kind = UNSUBSCRIBE \/ kind = LOG).
  { rewrite <- Hkind in Hvalid.
    destruct (callback_type_recognised _ Hvalid) as [H|[H|[H|[H|[H|[H|H]]]]]];
      rewrite H in Hkind; rewrite <- Hkind; vm_compute; tauto. }
  assert (Hend : forall (set : Z -> ctx_t -> ctx_t) k,
            ((store u (set ref) >>
              codec (Mosquitto_callback_set (ctx_mosq c) k) env >> ret tt) >>
             mosq__pstatus MOSQ_ERR_SUCCESS)
              (set_registry reg (set_stack [LUserdata u; LString s] st0))
            = Done 1
                (set_stack [LUserdata u; LString s; LBoolean true]
                   (set_udata (<[u := set ref c]> (udata st))
                      (set_errno (reply_errno env)
                         (set_codec_log (Mosquitto_callback_set (ctx_mosq c) k :: codec_log st)
                            (set_registry reg st)))))).
  { intros set k. rewrite bind_assoc.
    erewrite bind_store by exact Hu.
    rewrite bind_assoc, bind_codec, bind_ret. reflexivity. }
  destruct Hnames as [->|[->|[->|[->|[->|[->| ->]]]]]].
  all: match goal with
       | |- context [if ?k =? CONNECT then _ else _] =>
           let b := eval vm_compute in (k =? CONNECT) in
           change (k =? CONNECT) with b;
           let b := eval vm_compute in (k =? DISCONNECT) in
           change (k =? DISCONNECT) with b;
           let b := eval vm_compute in (k =? PUBLISH) in
           change (k =? PUBLISH) with b;
           let b := eval vm_compute in (k =? MESSAGE) in
           change (k =? MESSAGE) with b;
           let b := eval vm_compute in (k =? SUBSCRIBE) in
           change (k =? SUBSCRIBE) with b;
           let b := eval vm_compute in (k =? UNSUBSCRIBE) in
           change (k =? UNSUBSCRIBE) with b;
           let b := eval vm_compute in (k =? LOG) in
           change (k =? LOG) with b
       end; cbv iota; rewrite Hend.
  all: eexists; split; [reflexivity |]; split; [reflexivity |].
  all: split; [exact Hreg |]; split; [exact Hother |]; split; [exact Hfrom |].
  all: split; [| split; [| split; reflexivity]].
  all: intros ev Hev; destruct ev; try reflexivity; exfalso;
    revert Hev; vm_compute; congruence.
Qed.

(** X13.  [callback_set] on a live instance with one of the seven names
    and a function: the call returns true; the function is in the registry
    under a reference, the slot of the named kind holds that reference and
    the other slots, the handle and the back-reference are as they were;
    the callback of that kind is registered with libmosquitto; of the
    registry's other entries only the head of the free list may have
    changed. *)
Theorem callback_set_binds (L : lua_thread) (env : codec_reply) (st : lua_State)
    (u : nat) (c : ctx_t) (s : string) (f : nat) (kind : Z) :
  is_instance st u c ->
  callback_type_from_string (c_str s) = kind -> kind <> -1 ->
  exists ref st' c',
    lua_cfunction_call (ctx_callback_set L env) [LUserdata u; LString s; LFunction f] st
    = Done [LBoolean true] st' /\
    registry st' !! ref = Some (LFunction f) /\
    is_instance st' u c' /\
    (forall ev, event_kind ev = kind -> hook_ref c' ev = ref) /\
    (forall ev, event_kind ev <> kind -> hook_ref c' ev = hook_ref c ev) /\
    ctx_L c' = ctx_L c /\ ctx_mosq c' = ctx_mosq c /\
    codec_log st' = Mosquitto_callback_set (ctx_mosq c) kind :: codec_log st /\
    (forall k, k <> ref -> k <> FREELIST_REF -> registry st' !! k = registry st !! k).
Proof.
  intros Hinst Hkind Hvalid.
  destruct (callback_set_binds_state L env st u c s f kind Hinst Hkind Hvalid)
    as (ref & reg & c' & _ & Hcall & Hreg & Hother & _ & Hslot & Hslots & HL & Hmosq).
  exists ref. eexists. exists c'. split; [exact Hcall |].
  destruct Hinst as (Hu & mt & Hmeta & Hnamed).
  split; [exact Hreg |]. split.
  { split; [apply lookup_insert_eq | exists mt; split; assumption]. }
  repeat split; assumption.
Qed.

Lemma c_int_range (z : Z) : is_int (c_int z).
Proof.
  unfold is_int, c_int.
  pose proof (Z.mod_pos_bound (z + 2 ^ 31) (2 ^ 32) ltac:(lia)). lia.
Qed.

Lemma border_bound (fuel : nat) (n : Z) (t : gmap Z lua_value) :
  n <= border fuel n t <= n + Z.of_nat fuel.
Proof.
  revert n. induction fuel as [|fuel IH]; intros n; cbn [border]; [lia |].
  destruct (t !! (n + 1)); [| lia].
  specialize (IH (n + 1)). lia.
Qed.

Lemma luaL_ref_int (st : lua_State) (ref : Z) (st' : lua_State) :
  Z.of_nat (size (registry st)) < 2 ^ 31 - 1 ->
  luaL_ref st = Done ref st' -> is_int ref.
Proof.
  intros Hsize. unfold luaL_ref.
  destruct (last (stack st)) as [v|]; [| discriminate].
  pose proof (border_bound (size (registry st)) 0 (registry st)) as Hb.
  fold (lua_objlen (registry st)) in Hb.
  assert (Hlen : is_int (c_int (lua_objlen (registry st)) + 1)).
  { rewrite c_int_id by (unfold is_int; lia). unfold is_int. lia. }
  destruct v; try (intros [= <- _]; unfold is_int, LUA_REFNIL; lia);
    destruct (c_int (tointeger (registry st !! FREELIST_REF)) =? 0);
    intros [= <- _]; first [exact Hlen | apply c_int_range].
Qed.

(** X14.  Binding and delivery compose: after [callback_set] has bound a
    function for a kind by its name, a [loop] call during which
    libmosquitto reports one event of that kind calls that function, once,
    with the arguments of the event (a subscribe event needs room for its
    arguments on the Lua stack).  The registry holds none of the binding's
    own C functions and has fewer than 2^31 - 1 entries. *)
Theorem bound_hook_receives_event (L : lua_thread) (env env' : codec_reply)
    (st : lua_State) (u : nat) (c : ctx_t) (s : string) (f : nat) (ev : mosq_event) :
  is_instance st u c ->
  (forall k, is_cfunction (rawget (registry st) k) = false) ->
  (forall e, is_int (hook_ref c e)) ->
  Z.of_nat (size (registry st)) < 2 ^ 31 - 1 ->
  callback_type_from_string (c_str s) = event_kind ev ->
  event_ints ev ->
  hook_called (set_stack [LUserdata u] st) ev = true ->
  reply_events env' = [ev] ->
  exists st1 st2,
    lua_cfunction_call (ctx_callback_set L env) [LUserdata u; LString s; LFunction f] st
    = Done [LBoolean true] st1 /\
    final_state (lua_cfunction_call (ctx_loop L env') [LUserdata u] st1) = Some st2 /\
    hook_log st2 = (f, hook_args ev) :: hook_log st.
Proof.
  intros Hinst Hreg0 Hints Hsize Hkind Hev Hroom Hevs.
  assert (Hvalid : event_kind ev <> -1) by (destruct ev; discriminate).
  destruct (callback_set_binds_state L env st u c s f _ Hinst Hkind Hvalid)
    as (ref & reg & c' & Href & Hcall & Hreg & Hother & Hfrom & Hslot & Hslots & HL & Hmosq).
  rewrite Hcall. eexists. 
  set (st1 := set_udata _ _).
  assert (Hint : is_int ref) by (eapply luaL_ref_int; [| exact Href]; exact Hsize).
  assert (Hinst1 : is_instance st1 u c').
  { destruct Hinst as (Hu & mt & Hmeta & Hnamed).
    split; [apply lookup_insert_eq | exists mt; split; assumption]. }
  assert (Hok1 : hooks_ok st1 c').
  { intros e. split.
    - destruct (Z.eq_dec (event_kind e) (event_kind ev)) as [Heq|Hne].
      + rewrite (Hslot e Heq). exact Hint.
      + rewrite (Hslots e Hne). apply Hints.
    - unfold rawget. change (registry st1) with reg.
      destruct (reg !! hook_ref c' e) as [v|] eqn:Hv; [| reflexivity].
      destruct (Hfrom _ _ Hv) as [-> | [k' Hk']]; [reflexivity |].
      specialize (Hreg0 k'). unfold rawget in Hreg0. rewrite Hk' in Hreg0. exact Hreg0. }
  assert (Hevs1 : Forall event_ints (reply_events env')).
  { rewrite Hevs. constructor; [exact Hev | constructor]. }
  destruct (stepping_delivers Step_loop L env' st1 u c' Hinst1 Hok1 Hevs1)
    as (st2 & Hfin & Hlog & _).
  exists st2. split; [reflexivity |]. split; [exact Hfin |].
  rewrite Hlog, Hevs. cbn [flat_map]. rewrite app_nil_r.
  unfold delivery.
  replace (cb_registered (ctx_mosq c') (event_kind ev) (codec_log (set_stack [LUserdata u] st1)))
    with true.
  2:{ unfold st1. cbn [codec_log set_stack set_udata set_errno set_codec_log cb_registered].
      rewrite Hmosq, bool_decide_eq_true_2, Z.eqb_refl by reflexivity. reflexivity. }
  change (hook_called (set_stack [LUserdata u] st1) ev)
    with (hook_called (set_stack [LUserdata u] st) ev).
  rewrite Hroom. cbn [andb].
  rewrite (Hslot ev eq_refl). unfold rawget.
  change (registry (set_stack [LUserdata u] st1)) with reg.
  rewrite Hreg. reflexivity.
Qed.

(** ** Teardown without hooks *)

Lemma on_clear_no_hooks (u : nat) (c : ctx_t) (st : lua_State) :
  udata st !! u = Some c -> no_hooks c -> ctx__on_clear u st = Done tt st.
Proof.
  intros Hu Hno. unfold ctx__on_clear, luaL_unref.
  pose proof (Hno (EvConnect 0)) as H1. pose proof (Hno (EvDisconnect 0)) as H2.
  pose proof (Hno (EvPublish 0)) as H3.
  pose proof (Hno (EvMessage (Build_mosquitto_message 0 "" "" 0 false))) as H4.
  pose proof (Hno (EvSubscribe 0 [])) as H5. pose proof (Hno (EvUnsubscribe 0)) as H6.
  pose proof (Hno (EvLog 0 "")) as H7.
  cbn [hook_ref] in *.
  repeat first
    [ rewrite bind_assoc
    | erewrite bind_load by exact Hu
    | rewrite bind_ret
    | match goal with
      | |- context [0 <=? ?r] => destruct (Z.leb_spec 0 r); [lia |]
      end ].
  reflexivity.
Qed.


(** X15.  [destroy] on a live instance with no hook bound, called with the
    instance alone (as the garbage collector calls it): it returns true,
    the handle is handed to [mosquitto_destroy] once, and the instance is
    invalidated, its metatable being replaced by a fresh empty table: any
    later call on it, a second [destroy] included, fails in the check of
    argument 1 and reaches libmosquitto no more. *)
Theorem destroy_invalidates (L : lua_thread) (env env' : codec_reply) (st : lua_State)
    (u : nat) (c : ctx_t) (mt : nat) :
  is_instance st u c ->
  no_hooks c ->
  named_meta st !! MOSQ_META_CTX = Some mt -> mt <> next_obj st ->
  exists st',
    lua_cfunction_call (ctx_destroy L env) [LUserdata u] st = Done [LBoolean true] st' /\
    codec_log st' = Mosquitto_destroy (ctx_mosq c) :: codec_log st /\
    (forall rest, not_instance st' (LUserdata u :: rest)) /\
    lua_cfunction_call (ctx_destroy L env') [LUserdata u] st'
    = Raise (ErrType 1 MOSQ_META_CTX) st'.
Proof.
  intros Hinst Hno Hmt Hfresh. unfold lua_cfunction_call at 1, ctx_destroy.
  unfold bind at 1.
  rewrite (ctx_check_instance (set_stack [LUserdata u] st) u c [] Hinst eq_refl).
  destruct Hinst as (Hu & _).
  erewrite bind_load by exact Hu. rewrite bind_codec.
  unfold bind at 1. rewrite (on_clear_no_hooks u c) by (try exact Hno; exact Hu).
  unfold lua_newtable. rewrite bind_modify.
  destruct st as [stk reg nm ud me tm no er cl hl]. st_simpl. st_simpl_in Hmt.
  cbn [next_obj] in Hfresh.
  unfold bind at 1, lua_setmetatable. st_simpl.
  change (index2value ([LUserdata u] ++ [LTable no]) (-2)) with (Some (LUserdata u)).
  change (last ([LUserdata u] ++ [LTable no])) with (Some (LTable no)).
  cbv iota. st_simpl.
  change (removelast ([LUserdata u] ++ [LTable no])) with [LUserdata u].
  unfold mosq__pstatus. change (MOSQ_ERR_SUCCESS =? MOSQ_ERR_SUCCESS) with true. cbv iota.
  unfold lua_pushboolean, lua_push. rewrite bind_modify. st_simpl. cbn [ret].
  assert (Hnot : forall rest,
            not_instance
              (mkState stk reg nm ud (<[u := no]> me) tm (S no) (reply_errno env)
                 (Mosquitto_destroy (ctx_mosq c) :: cl) hl) (LUserdata u :: rest)).
  { intros rest u0 mt0 Hv Hm. cbn [named_meta meta] in *.
    injection Hv as <-. rewrite lookup_insert_eq in Hm. injection Hm as <-.
    rewrite Hmt. congruence. }
  eexists. split; [reflexivity |]. split; [reflexivity |]. split; [exact Hnot |].
  eapply cfunction_call_rejects; [exact (Hnot []) | reflexivity].
Qed.

(** ** How arguments reach libmosquitto *)

(** Reading an argument that is given, or has nil in its place. *)
Lemma luaL_checkstring_string {B} (i : Z) (s : string) (k : string -> M B) (st : lua_State) :
  index2value (stack st) i = Some (LString s) ->
  bind (luaL_checkstring i) k st = k (c_str s) st.
Proof.
  intros Hv. unfold luaL_checkstring, luaL_checklstring, lua_tolstring, value_at.
  cbv beta iota delta [bind reads ret]. rewrite Hv. reflexivity.
Qed.

Lemma payload_at_or_nil {B} (i : Z) (p : option string) (k : option string -> M B)
    (st : lua_State) :
  index2value (stack st) i = Some (or_nil LString p) \/
  (index2value (stack st) i = None /\ p = None) ->
  bind (payload_at i) k st = k p st.
Proof.
  unfold payload_at, lua_isnil, lua_type, lua_tolstring, value_at.
  cbv beta iota delta [bind reads ret].
  intros [Hv | [Hv ->]]; rewrite Hv; [destruct p |]; cbn; rewrite ?Hv; reflexivity.
Qed.

Lemma luaL_optinteger_or_nil {B} (i d : Z) (n : option Z) (k : Z -> M B) (st : lua_State) :
  index2value (stack st) i = Some (or_nil LNumber n) \/
  (index2value (stack st) i = None /\ n = None) ->
  bind (luaL_optinteger i d) k st = k (default d n) st.
Proof.
  unfold luaL_optinteger, luaL_checkinteger, lua_isnoneornil, lua_type, lua_tointeger,
    lua_isnumber, value_at.
  cbv beta iota delta [bind reads ret].
  intros [Hv | [Hv ->]]; rewrite Hv; [destruct n |]; cbn; rewrite ?Hv; cbn;
    rewrite ?andb_false_r; reflexivity.
Qed.

Lemma lua_toboolean_or_nil {B} (i : Z) (b : option bool) (k : bool -> M B) (st : lua_State) :
  index2value (stack st) i = Some (or_nil LBoolean b) \/
  (index2value (stack st) i = None /\ b = None) ->
  bind (lua_toboolean i) k st = k (default false b) st.
Proof.
  unfold lua_toboolean, value_at.
  cbv beta iota delta [bind reads ret].
  intros [Hv | [Hv ->]]; rewrite Hv; [destruct b as [[]|] |]; reflexivity.
Qed.

Lemma luaL_optstring_or_nil {B} (i : Z) (d : option string) (s : option string)
    (k : option string -> M B) (st : lua_State) :
  index2value (stack st) i = Some (or_nil LString s) \/
  (index2value (stack st) i = None /\ s = None) ->
  bind (luaL_optstring i d) k st
  = k (match s with Some x => Some (c_str x) | None => d end) st.
Proof.
  unfold luaL_optstring, luaL_checkstring, luaL_checklstring, lua_isnoneornil, lua_type,
    lua_tolstring, value_at.
  cbv beta iota delta [bind reads ret].
  intros [Hv | [Hv ->]]; rewrite Hv; [destruct s |]; cbn; rewrite ?Hv; reflexivity.
Qed.

Lemma string_or_null_or_nil {B} (i : Z) (s : option string) (k : option string -> M B)
    (st : lua_State) :
  index2value (stack st) i = Some (or_nil LString s) ->
  bind (string_or_null i) k st = k (c_str <$> s) st.
Proof.
  unfold string_or_null, luaL_checkstring, luaL_checklstring, lua_isnil, lua_type,
    lua_tolstring, value_at.
  cbv beta iota delta [bind reads ret].
  intros Hv; rewrite Hv; destruct s; cbn; rewrite ?Hv; reflexivity.
Qed.

Lemma string_or_null_absent {B} (i : Z) (k : option string -> M B) (st : lua_State) :
  index2value (stack st) i = None ->
  bind (string_or_null i) k st = Raise (ErrType i "string") st.
Proof.
  unfold string_or_null, luaL_checkstring, luaL_checklstring, lua_isnil, lua_type,
    lua_tolstring, value_at, luaL_typerror.
  cbv beta iota delta [bind reads ret throw].
  intros Hv; rewrite Hv; cbn; rewrite ?Hv; reflexivity.
Qed.

Lemma mid_or_status_only_stack (rc mid : Z) (st : lua_State) :
  exists stk,
    final_state
      ((if negb (rc =? MOSQ_ERR_SUCCESS) then mosq__pstatus rc
        else lua_pushinteger mid >> ret 1) st) = Some (set_stack stk st).
Proof.
  destruct (negb (rc =? MOSQ_ERR_SUCCESS)); [apply pstatus_only_stack |].
  eexists. reflexivity.
Qed.

Ltac read_args :=
  repeat first
    [ erewrite luaL_checkstring_string by reflexivity
    | erewrite payload_at_or_nil by (first [left; reflexivity | right; split; reflexivity])
    | erewrite luaL_optinteger_or_nil
        by (first [left; reflexivity | right; split; reflexivity])
    | erewrite lua_toboolean_or_nil
        by (first [left; reflexivity | right; split; reflexivity])
    | erewrite luaL_optstring_or_nil
        by (first [left; reflexivity | right; split; reflexivity])
    | erewrite string_or_null_or_nil by reflexivity ].

(** X16.  [publish] on a live instance: the topic reaches libmosquitto as
    a C string (cut at its first NUL), the payload with all of its bytes, or
    as no payload at all when it is nil or left out; the quality of service
    is 0 and the retain flag false when nil or left out. *)
Theorem publish_arguments (L : lua_thread) (env : codec_reply) (st : lua_State) (u : nat)
    (c : ctx_t) (topic : string) (payload : option string) (qos : option Z)
    (retain : option bool) :
  is_instance st u c ->
  (exists st',
     final_state
       (lua_cfunction_call (ctx_publish L env)
          [LUserdata u; LString topic; or_nil LString payload; or_nil LNumber qos;
           or_nil LBoolean retain] st) = Some st' /\
     codec_log st'
     = Mosquitto_publish (ctx_mosq c) (c_str topic) payload (c_int (default 0 qos))
         (default false retain) :: codec_log st) /\
  (exists st',
     final_state (lua_cfunction_call (ctx_publish L env) [LUserdata u; LString topic] st)
     = Some st' /\
     codec_log st' = Mosquitto_publish (ctx_mosq c) (c_str topic) None (c_int 0) false
                     :: codec_log st).
Proof.
  intros Hinst. split; rewrite final_state_cfunction_call; unfold ctx_publish;
    unfold bind at 1;
    erewrite ctx_check_instance by (first [exact Hinst | reflexivity]);
    destruct Hinst as (Hu & _).
  - read_args.
    erewrite bind_load by exact Hu. rewrite bind_codec.
    match goal with
    | |- context [(if negb (?rc =? _) then _ else lua_pushinteger ?mid >> _) ?s] =>
        destruct (mid_or_status_only_stack rc mid s) as [stk ->]
    end.
    eexists. split; reflexivity.
  - read_args.
    erewrite bind_load by exact Hu. rewrite bind_codec.
    match goal with
    | |- context [(if negb (?rc =? _) then _ else lua_pushinteger ?mid >> _) ?s] =>
        destruct (mid_or_status_only_stack rc mid s) as [stk ->]
    end.
    eexists. split; reflexivity.
Qed.

(** X17.  [connect] on a live instance: the host is "localhost", the port
    1883 and the keepalive 60 seconds wherever the argument is nil or left
    out; a host given reaches libmosquitto as a C string and the numbers as
    C [int]s. *)
Theorem connect_arguments (L : lua_thread) (env : codec_reply) (st : lua_State) (u : nat)
    (c : ctx_t) (host : option string) (port keepalive : option Z) :
  is_instance st u c ->
  (exists st',
     final_state
       (lua_cfunction_call (ctx_connect L env)
          [LUserdata u; or_nil LString host; or_nil LNumber port; or_nil LNumber keepalive]
          st) = Some st' /\
     codec_log st'
     = Mosquitto_connect (ctx_mosq c)
         (match host with Some x => c_str x | None => "localhost" end)
         (c_int (default 1883 port)) (c_int (default 60 keepalive)) :: codec_log st) /\
  (exists st',
     final_state (lua_cfunction_call (ctx_connect L env) [LUserdata u] st) = Some st' /\
     codec_log st'
     = Mosquitto_connect (ctx_mosq c) "localhost" (c_int 1883) (c_int 60) :: codec_log st).
Proof.
  intros Hinst. split; rewrite final_state_cfunction_call; unfold ctx_connect;
    unfold bind at 1;
    erewrite ctx_check_instance by (first [exact Hinst | reflexivity]);
    destruct Hinst as (Hu & _);
    read_args;
    erewrite bind_load by exact Hu; rewrite bind_codec;
    match goal with
    | |- context [mosq__pstatus ?rc ?s] => destruct (pstatus_only_stack rc s) as [stk ->]
    end;
    eexists; (split; [reflexivity |]).
  - destruct host; reflexivity.
  - reflexivity.
Qed.

(** X18.  [login_set] on a live instance takes nil for the user name and
    for the password and passes NULL for each, but it does not take them
    left out: called with the user name alone, or with no argument, it
    raises the type error for the first position left out, and libmosquitto
    is not called. *)
Theorem login_set_arguments (L : lua_thread) (env : codec_reply) (st : lua_State) (u : nat)
    (c : ctx_t) (username password : option string) :
  is_instance st u c ->
  (exists st',
     final_state
       (lua_cfunction_call (ctx_login_set L env)
          [LUserdata u; or_nil LString username; or_nil LString password] st) = Some st' /\
     codec_log st'
     = Mosquitto_username_pw_set (ctx_mosq c) (c_str <$> username) (c_str <$> password)
       :: codec_log st) /\
  lua_cfunction_call (ctx_login_set L env) [LUserdata u; or_nil LString username] st
  = Raise (ErrType 3 "string") st /\
  lua_cfunction_call (ctx_login_set L env) [LUserdata u] st
  = Raise (ErrType 2 "string") st.
Proof.
  intros Hinst. split; [| split].
  - rewrite final_state_cfunction_call. unfold ctx_login_set. unfold bind at 1.
    erewrite ctx_check_instance by (first [exact Hinst | reflexivity]).
    destruct Hinst as (Hu & _).
    read_args.
    erewrite bind_load by exact Hu. rewrite bind_codec.
    match goal with
    | |- context [mosq__pstatus ?rc ?s] => destruct (pstatus_only_stack rc s) as [stk ->]
    end.
    eexists. split; reflexivity.
  - unfold lua_cfunction_call, ctx_login_set. unfold bind at 1.
    erewrite ctx_check_instance by (first [exact Hinst | reflexivity]).
    read_args. rewrite string_or_null_absent by reflexivity.
    destruct st; reflexivity.
  - unfold lua_cfunction_call, ctx_login_set. unfold bind at 1.
    erewrite ctx_check_instance by (first [exact Hinst | reflexivity]).
    rewrite string_or_null_absent by reflexivity.
    destruct st; reflexivity.
Qed.

(** X19.  [will_set] reads its arguments as [publish] does: the topic as a
    C string, the payload with all of its bytes or none when nil or left
    out, quality of service 0 and retain false when nil or left out. *)
Theorem will_set_arguments (L : lua_thread) (env : codec_reply) (st : lua_State) (u : nat)
    (c : ctx_t) (topic : string) (payload : option string) (qos : option Z)
    (retain : option bool) :
  is_instance st u c ->
  (exists st',
     final_state
       (lua_cfunction_call (ctx_will_set L env)
          [LUserdata u; LString topic; or_nil LString payload; or_nil LNumber qos;
           or_nil LBoolean retain] st) = Some st' /\
     codec_log st'
     = Mosquitto_will_set (ctx_mosq c) (c_str topic) payload (c_int (default 0 qos))
         (default false retain) :: codec_log st) /\
  (exists st',
     final_state (lua_cfunction_call (ctx_will_set L env) [LUserdata u; LString topic] st)
     = Some st' /\
     codec_log st' = Mosquitto_will_set (ctx_mosq c) (c_str topic) None (c_int 0) false
                     :: codec_log st).
Proof.
  intros Hinst. split; rewrite final_state_cfunction_call; unfold ctx_will_set;
    unfold bind at 1;
    erewrite ctx_check_instance by (first [exact Hinst | reflexivity]);
    destruct Hinst as (Hu & _);
    read_args;
    erewrite bind_load by exact Hu; rewrite bind_codec;
    match goal with
    | |- context [mosq__pstatus ?rc ?s] => destruct (pstatus_only_stack rc s) as [stk ->]
    end;
    eexists; split; reflexivity.
Qed.

(** X20.  [reconnect_delay_set] on a live instance: the delay is 1 and the
    maximal delay 30 seconds when nil or left out, and the exponential
    backoff is on unless the fourth argument is the boolean false: nil,
    nothing and any value that is no boolean all leave it on. *)
Theorem reconnect_delay_arguments (L : lua_thread) (env : codec_reply) (st : lua_State)
    (u : nat) (c : ctx_t) (delay delay_max : option Z) (rest : list lua_value) :
  is_instance st u c ->
  exists st',
    final_state
      (lua_cfunction_call (ctx_reconnect_delay_set L env)
         (LUserdata u :: or_nil LNumber delay :: or_nil LNumber delay_max :: rest) st)
    = Some st' /\
    codec_log st'
    = Mosquitto_reconnect_delay_set (ctx_mosq c) (c_int (default 1 delay))
        (c_int (default 30 delay_max))
        (boolean_arg (index2value (LUserdata u :: or_nil LNumber delay
                                   :: or_nil LNumber delay_max :: rest) 4))
      :: codec_log st.
Proof.
  intros Hinst. rewrite final_state_cfunction_call. unfold ctx_reconnect_delay_set.
  unfold bind at 1.
  erewrite ctx_check_instance by (first [exact Hinst | reflexivity]).
  destruct Hinst as (Hu & _).
  read_args. rewrite bind_boolean_arg.
  erewrite bind_load by exact Hu. rewrite bind_codec.
  match goal with
  | |- context [mosq__pstatus ?rc ?s] => destruct (pstatus_only_stack rc s) as [stk ->]
  end.
  eexists. split; reflexivity.
Qed.

(** ** Queries and the library *)

(** X21.  [socket] on a live instance returns one value: false when
    libmosquitto has no socket for the handle (it answers -1), the
    descriptor otherwise; [want_write] returns libmosquitto's answer as a
    boolean.  Neither changes anything. *)
Theorem socket_and_want_write (L : lua_thread) (mosquitto_socket : option nat -> Z)
    (mosquitto_want_write : option nat -> bool) (st : lua_State) (u : nat) (c : ctx_t) :
  is_instance st u c ->
  lua_cfunction_call (ctx_socket L mosquitto_socket) [LUserdata u] st
  = Done [if mosquitto_socket (ctx_mosq c) =? -1 then LBoolean false
          else LNumber (mosquitto_socket (ctx_mosq c))] st /\
  lua_cfunction_call (ctx_want_write L mosquitto_want_write) [LUserdata u] st
  = Done [LBoolean (mosquitto_want_write (ctx_mosq c))] st.
Proof.
  intros Hinst. split; unfold lua_cfunction_call, ctx_socket, ctx_want_write;
    unfold bind at 1;
    erewrite ctx_check_instance by (first [exact Hinst | reflexivity]);
    destruct Hinst as (Hu & _);
    erewrite bind_load by exact Hu.
  - destruct (mosquitto_socket (ctx_mosq c) =? -1); destruct st; reflexivity.
  - destruct st; reflexivity.
Qed.

Lemma string_length_append (s1 s2 : string) :
  String.length (s1 ++ s2)%string = (String.length s1 + String.length s2)%nat.
Proof. induction s1 as [|a s1 IH]; simpl; [reflexivity | rewrite IH; reflexivity]. Qed.

Lemma sprintf_i_length (n : Z) :
  0 <= n < 10000 -> (String.length (sprintf_i n) <= 4)%nat.
Proof.
  intros Hn.
  assert (Hall : forallb (fun k => (String.length (sprintf_i (Z.of_nat k)) <=? 4)%nat)
                   (seq 0 (Z.to_nat 10000)) = true) by (vm_compute; reflexivity).
  rewrite forallb_forall in Hall.
  specialize (Hall (Z.to_nat n)).
  rewrite Z2Nat.id in Hall by lia.
  apply Nat.leb_le, Hall, in_seq. lia.
Qed.

(** X22.  [version] returns one string, the three numbers of
    [mosquitto_lib_version] in decimal with dots between them; with every
    number between 0 and 9999 the rendering fits the 16 bytes of the buffer
    it is written to. *)
Theorem version_string (L : lua_thread) (major minor rev : Z) (args : list lua_value)
    (st : lua_State) :
  0 <= major < 10000 -> 0 <= minor < 10000 -> 0 <= rev < 10000 ->
  lua_cfunction_call (mosq_version L (major, minor, rev)) args st
  = Done [LString (sprintf_i major ++ "." ++ sprintf_i minor ++ "." ++ sprintf_i rev)%string]
         st.
Proof.
  intros H1 H2 H3. unfold lua_cfunction_call, mosq_version.
  pose proof (sprintf_i_length major H1). pose proof (sprintf_i_length minor H2).
  pose proof (sprintf_i_length rev H3).
  destruct (Nat.leb_spec 16 (String.length
              (sprintf_i major ++ "." ++ sprintf_i minor ++ "." ++ sprintf_i rev)%string))
    as [Hover|_].
  { rewrite !string_length_append in Hover. simpl in Hover. lia. }
  unfold lua_pushstring, lua_push. rewrite bind_modify. cbn [ret stack set_stack].
  f_equal.
  - change (Z.to_nat 1) with (length [LString
      (sprintf_i major ++ "." ++ sprintf_i minor ++ "." ++ sprintf_i rev)%string]).
    apply drop_app_tail.
  - destruct st; reflexivity.
Qed.

Lemma init_in_frame (L : lua_thread) (lib : library) (st : lua_State) :
  in_frame [] (mosq_init L lib) st
  = Done (if mosq_initialized lib =? 0
          then mkLibrary (mosq_initialized lib) (Mosquitto_lib_init :: lib_log lib)
          else lib, 1) st.
Proof.
  unfold in_frame, mosq_init, mosq__pstatus.
  change (MOSQ_ERR_SUCCESS =? MOSQ_ERR_SUCCESS) with true. cbv iota.
  destruct st; reflexivity.
Qed.

Lemma init_calls_spec (n : nat) (L : lua_thread) (lib : library) (st : lua_State) :
  init_calls n L lib st
  = Done (if mosq_initialized lib =? 0
          then mkLibrary (mosq_initialized lib) (repeat Mosquitto_lib_init n ++ lib_log lib)
          else lib) st.
Proof.
  revert lib. induction n as [|n IH]; intros lib; cbn [init_calls].
  - destruct (mosq_initialized lib =? 0); destruct lib; reflexivity.
  - unfold bind. rewrite init_in_frame. cbn [fst]. rewrite IH.
    destruct (mosq_initialized lib =? 0) eqn:H0; [| rewrite H0; reflexivity].
    cbn [mosq_initialized lib_log]. rewrite H0.
    f_equal. f_equal.
    change (Mosquitto_lib_init :: lib_log lib) with ([Mosquitto_lib_init] ++ lib_log lib).
    rewrite app_assoc, <- repeat_cons. reflexivity.
Qed.

(** X23.  [init] returns true and calls [mosquitto_lib_init] only while
    the flag [mosq_initialized] is clear, and it never sets the flag.  So
    after the module is loaded (which sets it) any number of [init] calls
    call libmosquitto not at all; after [cleanup] (which clears it and calls
    [mosquitto_lib_cleanup]) every one of [n] calls of [init] calls
    [mosquitto_lib_init] again, and the flag stays clear. *)
Theorem init_and_cleanup (n : nat) (L : lua_thread) (lib : library) (st : lua_State) :
  init_calls n L (luaopen_library lib) st = Done (luaopen_library lib) st /\
  (let* r := in_frame [] (mosq_cleanup L lib) in init_calls n L (fst r)) st
  = Done (mkLibrary 0 (repeat Mosquitto_lib_init n ++ Mosquitto_lib_cleanup :: lib_log lib))
         st.
Proof.
  split.
  - rewrite init_calls_spec. reflexivity.
  - unfold bind.
    assert (Hc : in_frame [] (mosq_cleanup L lib) st
                 = Done (mkLibrary 0 (Mosquitto_lib_cleanup :: lib_log lib), 1) st).
    { unfold in_frame, mosq_cleanup, mosq__pstatus.
      change (MOSQ_ERR_SUCCESS =? MOSQ_ERR_SUCCESS) with true. cbv iota.
      destruct st; reflexivity. }
    rewrite Hc. cbn [fst]. rewrite init_calls_spec. reflexivity.
Qed.

(** ** The checks that hold as the claims have them *)

(** X24.  [version_set] on a live instance with a token: the token
    "mqttv311" selects protocol version 4 (MQTT 3.1.1), every other string,
    "mqttv31" included, protocol version 3 (MQTT 3.1); nothing tells an
    unknown token from "mqttv31". *)
Theorem version_token_selects_protocol (L : lua_thread) (env : codec_reply)
    (st : lua_State) (u : nat) (c : ctx_t) (s : string) :
  is_instance st u c ->
  exists st',
    final_state (lua_cfunction_call (ctx_version_set L env) [LUserdata u; LString s] st)
    = Some st' /\
    codec_log st'
    = Mosquitto_opts_set (ctx_mosq c) MOSQ_OPT_PROTOCOL_VERSION
        (if String.eqb (c_str s) "mqttv311" then MQTT_PROTOCOL_V311 else MQTT_PROTOCOL_V31)
      :: codec_log st.
Proof. apply version_set_token. Qed.

(** X25.  [new] without an id (nil or nothing in its place) and with
    [clean_session] the boolean false is rejected with the error for
    argument 2 before anything is allocated or libmosquitto is called: the
    state is as it was. *)
Theorem new_rejects_anonymous_session (L : lua_thread) (env : codec_reply)
    (args : list lua_value) (st : lua_State) :
  string_arg (index2value args 1) None ->
  boolean_arg (index2value args 2) = false ->
  lua_cfunction_call (mosq_new L env) args st
  = Raise (ErrArg 2 "if 'id' is nil then 'clean session' must be true") st.
Proof.
  intros Hid Hcs. unfold lua_cfunction_call, mosq_new.
  unfold bind at 1. rewrite (luaL_optstring_arg 1 (set_stack args st) None Hid).
  rewrite bind_boolean_arg. cbn [stack set_stack]. rewrite Hcs.
  cbn [is_null negb andb]. unfold luaL_argerror, throw. destruct st; reflexivity.
Qed.

(** X26.  As the kind of a callback a C string is recognised exactly when
    it is one of the seven names ON_CONNECT, ON_DISCONNECT, ON_PUBLISH,
    ON_MESSAGE, ON_SUBSCRIBE, ON_UNSUBSCRIBE and ON_LOG, and then it stands
    for the code the module exports under that name; every other string,
    the exported LOG_ names included, is mapped to -1. *)
Theorem kind_names_recognised (s : string) :
  (callback_type_from_string s <> -1 <->
   s = "ON_CONNECT" \/ s = "ON_DISCONNECT" \/ s = "ON_PUBLISH" \/ s = "ON_MESSAGE"
   \/ s = "ON_SUBSCRIBE" \/ s = "ON_UNSUBSCRIBE" \/ s = "ON_LOG") /\
  (forall name value, In (name, value) D ->
     callback_type_from_string name = value \/ callback_type_from_string name = -1) /\
  callback_type_from_string "ON_CONNECT" = 0x10 /\
  callback_type_from_string "ON_DISCONNECT" = 0xE0 /\
  callback_type_from_string "ON_PUBLISH" = 0x30 /\
  callback_type_from_string "ON_MESSAGE" = 0x01 /\
  callback_type_from_string "ON_SUBSCRIBE" = 0x80 /\
  callback_type_from_string "ON_UNSUBSCRIBE" = 0xA0 /\
  callback_type_from_string "ON_LOG" = 0x02.
Proof.
  split; [split |].
  - apply callback_type_recognised.
  - intros [->|[->|[->|[->|[->|[->| ->]]]]]]; vm_compute; discriminate.
  - split; [| repeat split; reflexivity].
    intros name value Hin. unfold D in Hin. cbn [In] in Hin.
    repeat match goal with
           | H : _ \/ _ |- _ => destruct H as [H | H]
           end;
      try contradiction; injection Hin as <- <-; vm_compute; tauto.
Qed.

End Proofs.

(** * The theorems at sample inputs *)

#[local] Existing Instance demo_host.

Lemma st_new_instance : is_instance st_new 2 ctx_new.
Proof. split; [reflexivity | exists 0%nat; split; reflexivity]. Qed.


Lemma st_looping_ctx : udata st_looping !! 2%nat = Some ctx_looping.
Proof. reflexivity. Qed.

Lemma st_looping_connect_hook : registry st_looping !! 1 = Some (LFunction 1).
Proof. reflexivity. Qed.

Lemma st_looping_disconnect_hook : registry st_looping !! 2 = Some (LFunction 4).
Proof. reflexivity. Qed.

Lemma is_int_small (z : Z) : -100 <= z <= 255 -> is_int z.
Proof. unfold is_int. lia. Qed.

(** [c:disconnect()] while the codec answers no-connection. *)
Lemma status_handler_outcomes_witness :
  codec_called st_new
    (lua_cfunction_call (ctx_disconnect 0%nat (reply MOSQ_ERR_NO_CONN [])) [LUserdata 2] st_new)
  /\ exists st',
       lua_cfunction_call (ctx_disconnect 0%nat (reply MOSQ_ERR_NO_CONN [])) [LUserdata 2] st_new
       = Done [LNil; LNumber MOSQ_ERR_NO_CONN; LString (mosquitto_strerror MOSQ_ERR_NO_CONN)] st'.
Proof.
  assert (Hcalled : codec_called st_new
            (lua_cfunction_call (ctx_disconnect 0%nat (reply MOSQ_ERR_NO_CONN []))
               [LUserdata 2] st_new)).
  { vm_compute. discriminate. }
  split; [exact Hcalled |].
  destruct (status_handler_outcomes Op_disconnect 0%nat (reply MOSQ_ERR_NO_CONN [])
              [LUserdata 2] st_new _ eq_refl Hcalled) as (_ & _ & Hop & _).
  apply Hop. left. reflexivity.
Defined.

(** C1 as stated fails at [c:publish("t", "p")] with the codec reporting
    success: the call reaches the codec and returns the message id 5, not
    the boolean true. *)
Lemma publish_success_returns_mid :
  codec_called st_new
    (lua_cfunction_call (ctx_publish 0%nat (reply MOSQ_ERR_SUCCESS []))
       [LUserdata 2; LString "t"; LString "p"] st_new)
  /\ (exists st',
        lua_cfunction_call (ctx_publish 0%nat (reply MOSQ_ERR_SUCCESS []))
          [LUserdata 2; LString "t"; LString "p"] st_new
        = Done [LNumber 5] st')
  /\ ~ (exists st',
          lua_cfunction_call (ctx_publish 0%nat (reply MOSQ_ERR_SUCCESS []))
            [LUserdata 2; LString "t"; LString "p"] st_new
          = Done [LBoolean true] st').
Proof.
  split; [vm_compute; discriminate |].
  split; [eexists; vm_compute; reflexivity |].
  intros [st' Hst']. vm_compute in Hst'. discriminate Hst'.
Qed.

(** The connect hook of [st_looping] raises; the loop goes on. *)
Lemma hook_errors_are_caught_witness :
  lua_closure 1%nat (hook_args (EvConnect 5)) = Some (LString "hook failed")
  /\ exists calls,
       dispatch 2 (EvConnect 5) st_looping
       = Done tt (set_hook_log (calls ++ hook_log st_looping) st_looping)
       /\ (cb_registered (Some 7%nat) (event_kind (EvConnect 5)) (codec_log st_looping) = true ->
           report_all (Some 7%nat) 2 [EvConnect 5; EvConnect 0] st_looping
           = report_all (Some 7%nat) 2 [EvConnect 0]
               (set_hook_log (calls ++ hook_log st_looping) st_looping)).
Proof.
  split; [reflexivity |].
  apply (hook_errors_are_caught (Some 7%nat) 2 (EvConnect 5) [EvConnect 0] st_looping
           ctx_looping 0%nat).
  - reflexivity.
  - reflexivity.
  - apply is_int_small. simpl. lia.
  - apply is_int_small. lia.
  - reflexivity.
Defined.

(** The handshake is refused with code 5. *)
Lemma connect_hook_arguments_witness :
  exists success reason,
    ctx_on_connect 2 5 st_looping
    = Done tt (set_hook_log
                 ((1%nat, [LBoolean success; LNumber 5; LString reason]) :: hook_log st_looping)
                 st_looping) /\
    (success = true <-> 5 = 0) /\
    (5 = 0 -> reason = "connection accepted") /\
    (5 = 1 -> reason = "connection refused - incorrect protocol version") /\
    (5 = 2 -> reason = "connection refused - invalid client identifier") /\
    (5 = 3 -> reason = "connection refused - server unavailable") /\
    (5 = 4 -> reason = "connection refused - bad username or password") /\
    (5 = 5 -> reason = "connection refused - not authorised") /\
    (5 = 6 -> reason = "connection refused - TLS error") /\
    (5 < 0 \/ 6 < 5 -> reason = "reserved for future use").
Proof.
  apply (connect_hook_arguments 2 5 st_looping ctx_looping 0%nat 1).
  - reflexivity.
  - reflexivity.
  - apply is_int_small. simpl. lia.
  - apply is_int_small. lia.
  - reflexivity.
Defined.

(** The connection is lost with code 7. *)
Lemma disconnect_hook_arguments_witness :
  exists success reason,
    ctx_on_disconnect 2 7 st_looping
    = Done tt (set_hook_log
                 ((4%nat, [LBoolean success; LNumber 7; LString reason]) :: hook_log st_looping)
                 st_looping) /\
    (7 = 0 -> success = true /\ reason = "client-initiated disconnect") /\
    (7 <> 0 -> success = false /\ reason = "unexpected disconnect").
Proof.
  apply (disconnect_hook_arguments 2 7 st_looping ctx_looping 0%nat 4).
  - reflexivity.
  - reflexivity.
  - apply is_int_small. simpl. lia.
  - apply is_int_small. lia.
  - reflexivity.
Defined.

(** [c:version_set()]. *)
Lemma version_set_absent_token_witness :
  lua_cfunction_call (ctx_version_set 0%nat (reply 0 [])) [LUserdata 2] st_new
  = Undef NullString.
Proof.
  apply (version_set_absent_token 0%nat (reply 0 []) st_new 2 ctx_new []).
  - split; [reflexivity | exists 0%nat; split; reflexivity].
  - left. reflexivity.
Defined.

(** [c:callback_set("ON_CONNECT", f1); c:destroy()]. *)
Lemma destroy_with_bound_hook_witness :
  lua_cfunction_call (ctx_destroy 0%nat (reply 0 [])) [LUserdata 2] st_hook1
  = Undef NullLuaState.
Proof.
  apply (destroy_with_bound_hook 0%nat (reply 0 []) st_hook1 2 ctx_hook1 []).
  - split; [reflexivity | exists 0%nat; split; reflexivity].
  - reflexivity.
  - left. simpl. lia.
Defined.

(** [c:callback_set(mosquitto.ON_CONNECT, f)], the constant being 16. *)
Lemma numeric_kind_rejected_witness :
  exists st',
    lua_cfunction_call (ctx_callback_set 0%nat (reply 0 []))
      [LUserdata 2; LNumber CONNECT; LFunction 6] st_new
    = Raise (ErrArg 2 "not a proper callback type") st'.
Proof.
  apply (numeric_kind_rejected 0%nat (reply 0 []) st_new 2 ctx_new CONNECT 6).
  split; [reflexivity | exists 0%nat; split; reflexivity].
Defined.

(** [c:reinitialise("c2", true)]: the id is read from index 1, the instance
    itself, and the call fails before the codec is reached. *)
Lemma reinitialise_with_id :
  lua_cfunction_call (ctx_reinitialise 0%nat (reply 0 []))
    [LUserdata 2; LString "c2"; LBoolean true] st_new
  = Raise (ErrType 1 "string") st_new.
Proof. vm_compute. reflexivity. Qed.

(** [mosquitto.new("c1", false)] proceeds: an id is present. *)
Lemma mosq_new_with_id :
  exists st',
    lua_cfunction_call (mosq_new 0%nat (reply 0 [])) [LString "c1"; LBoolean false] st_open
    = Done [LUserdata 2] st'
    /\ codec_log st' = [Mosquitto_new (Some "c1") false 2].
Proof. eexists. split; vm_compute; reflexivity. Qed.

(** C4 at [c:callback_set("ON_CONNECT", f1)] followed by
    [c:callback_set("ON_CONNECT", f2)]: the slot holds the reference of the
    second hook, and a connect event calls the second hook only; but the
    first hook is still in the registry under its reference, which is not on
    the free list, and clearing the hooks of the instance releases the
    second reference only. *)
Theorem rebinding_keeps_first_hook_referenced :
  (on_connect <$> udata st_hook1 !! 2%nat) = Some 1
  /\ registry st_hook1 !! 1 = Some (LFunction 1)
  /\ (on_connect <$> udata st_hook2 !! 2%nat) = Some 2
  /\ registry st_hook2 !! 2 = Some (LFunction 2)
  /\ hook_log (state_after
                 (lua_cfunction_call (ctx_loop 0%nat (reply 0 [EvConnect 0])) [LUserdata 2] st_hook2)
                 st_hook2)
     = [(2%nat, [LBoolean true; LNumber 0; LString "connection accepted"])]
  /\ registry st_hook2 !! 1 = Some (LFunction 1)
  /\ registry st_hook2 !! FREELIST_REF = None
  /\ registry (state_after
                 ((store 2 (set_ctx_L (Some 0%nat)) >> ctx__on_clear 2) st_hook2) st_hook2) !! 1
     = Some (LFunction 1).
Proof. do 7 (split; [vm_compute; reflexivity |]). vm_compute. reflexivity. Qed.



(** After [c:loop_start()] the back-reference is set.  [c:loop(true)]
    then fails on its argument and leaves it set; [c:loop_misc()] then
    unsets it, with no [mosquitto_loop_stop] among the codec calls. *)
Lemma stepping_after_loop_start :
  let st1 :=
    state_after (lua_cfunction_call (ctx_loop_start 0%nat (reply 0 [])) [LUserdata 2] st_new)
      st_new in
  let st2 :=
    state_after (lua_cfunction_call (ctx_loop_misc 0%nat (reply 0 [])) [LUserdata 2] st1)
      st1 in
  (ctx_L <$> udata st1 !! 2%nat) = Some (Some 0%nat)
  /\ lua_cfunction_call (ctx_loop 0%nat (reply 0 [])) [LUserdata 2; LBoolean true] st1
     = Raise (ErrType 2 "number") st1
  /\ (ctx_L <$> udata st2 !! 2%nat) = Some None
  /\ codec_log st2
     = [Mosquitto_loop_misc (Some 7%nat); Mosquitto_loop_start (Some 7%nat);
        Mosquitto_new (Some "c1") true 2].
Proof. cbv zeta. repeat split; vm_compute; reflexivity. Qed.

(** Numbers as strings: all digits below 10^14, 14 significant digits and
    an exponent from there on. *)
Lemma number_renderings :
  lua_number2str 16 = "16" /\ lua_number2str (-5) = "-5"
  /\ lua_number2str 99999999999999 = "99999999999999"
  /\ lua_number2str (10 ^ 14) = "1e+14"
  /\ lua_number2str (- 10 ^ 14) = "-1e+14"
  /\ lua_number2str 123456789012345680 = "1.2345678901235e+17"
  /\ lua_number2str 9007199254740992 = "9.007199254741e+15"
  /\ lua_number2str 999999999999995 = "1e+15"
  /\ lua_number2str (2 ^ 1023) = "8.9884656743116e+307".
Proof. repeat split; vm_compute; reflexivity. Qed.

(** [mosquitto.new(1e14)]: the id libmosquitto gets is "1e+14". *)
Lemma mosq_new_with_large_number :
  exists st',
    lua_cfunction_call (mosq_new 0%nat (reply 0 [])) [LNumber (10 ^ 14)] st_new
    = Done [LUserdata (next_obj st_new)] st'
    /\ head (codec_log st') = Some (Mosquitto_new (Some "1e+14") true (next_obj st_new)).
Proof. eexists. split; vm_compute; reflexivity. Qed.

(** Without a hook bound, [c:destroy()] succeeds, the codec handle is
    released once, and a second [destroy] on the instance fails in
    [ctx_check] without reaching the codec. *)
Lemma destroy_twice_without_hooks :
  exists st1,
    lua_cfunction_call (ctx_destroy 0%nat (reply 0 [])) [LUserdata 2] st_new
    = Done [LBoolean true] st1
    /\ codec_log st1 = [Mosquitto_destroy (Some 7%nat); Mosquitto_new (Some "c1") true 2]
    /\ lua_cfunction_call (ctx_destroy 0%nat (reply 0 [])) [LUserdata 2] st1
       = Raise (ErrType 1 MOSQ_META_CTX) st1.
Proof. eexists. split; [| split]; vm_compute; reflexivity. Qed.

(** The exported LOG_ names are not kinds, though LOG_DEBUG has the value
    of ON_CONNECT. *)
Lemma log_names_are_not_kinds :
  callback_type_from_string "LOG_DEBUG" = -1 /\ MOSQ_LOG_DEBUG = CONNECT
  /\ callback_type_from_string "LOG_INFO" = -1 /\ MOSQ_LOG_INFO = MESSAGE.
Proof. repeat split; reflexivity. Qed.

(** ** The further properties at sample inputs *)

Lemma st_hooks_looping_ctx : udata st_hooks_looping !! 2%nat = Some ctx_hooks_looping.
Proof. vm_compute. reflexivity. Qed.

Lemma st_hook4_instance : is_instance st_hook4 2 ctx_hook4.
Proof. split; [reflexivity | exists 0%nat; split; reflexivity]. Qed.

(** A method called on a string. *)
Lemma methods_reject_non_instances_witness :
  (forall op, op <> Op_topic_matches_sub ->
     lua_cfunction_call (run_operation op 0%nat (reply 0 [])) [LString "x"] st_new
     = Raise (ErrType 1 MOSQ_META_CTX) st_new) /\
  lua_cfunction_call (ctx_destroy 0%nat (reply 0 [])) [LString "x"] st_new
  = Raise (ErrType 1 MOSQ_META_CTX) st_new /\
  lua_cfunction_call (ctx_callback_set 0%nat (reply 0 [])) [LString "x"] st_new
  = Raise (ErrType 1 MOSQ_META_CTX) st_new /\
  lua_cfunction_call (ctx_socket 0%nat (fun _ => 3)) [LString "x"] st_new
  = Raise (ErrType 1 MOSQ_META_CTX) st_new /\
  lua_cfunction_call (ctx_want_write 0%nat (fun _ => true)) [LString "x"] st_new
  = Raise (ErrType 1 MOSQ_META_CTX) st_new.
Proof.
  apply (methods_reject_non_instances 0%nat (reply 0 []) (fun _ => 3) (fun _ => true)
           [LString "x"] st_new).
  intros u mt Hv. discriminate Hv.
Defined.

(** [mosquitto.new("c1")]. *)
Lemma new_creates_instance_witness :
  exists st',
    lua_cfunction_call (mosq_new 0%nat (reply 0 [])) [LString "c1"] st_open
    = Done [LUserdata (next_obj st_open)] st' /\
    is_instance st' (next_obj st_open) (fresh_ctx 7) /\
    codec_log st'
    = Mosquitto_new (Some "c1") (boolean_arg (index2value [LString "c1"] 2))
        (next_obj st_open) :: codec_log st_open /\
    (forall u, u <> next_obj st_open -> udata st' !! u = udata st_open !! u).
Proof.
  apply (new_creates_instance 0%nat (reply 0 []) [LString "c1"] st_open (Some "c1")
           0%nat 7%nat).
  - reflexivity.
  - discriminate.
  - reflexivity.
  - reflexivity.
Defined.

(** [mosquitto.new("c1")] when libmosquitto is out of memory. *)
Lemma new_reports_failure_witness :
  exists st',
    lua_cfunction_call (mosq_new 0%nat reply_null) [LString "c1"] st_open
    = Raise (ErrMsg (strerror (reply_errno reply_null))) st' /\
    codec_log st'
    = Mosquitto_new (Some "c1") (boolean_arg (index2value [LString "c1"] 2))
        (next_obj st_open) :: codec_log st_open /\
    meta st' = meta st_open /\ type_meta st' = type_meta st_open.
Proof.
  apply (new_reports_failure 0%nat reply_null [LString "c1"] st_open (Some "c1")).
  - reflexivity.
  - discriminate.
  - reflexivity.
Defined.

(** [c:connect()] refused by the broker. *)
Lemma unhandled_status_returns_nothing_witness :
  unhandled MOSQ_ERR_CONN_REFUSED /\
  exists st',
    lua_cfunction_call (ctx_connect 0%nat (reply MOSQ_ERR_CONN_REFUSED [])) [LUserdata 2] st_new
    = Done [] st'.
Proof.
  assert (Hrc : unhandled MOSQ_ERR_CONN_REFUSED).
  { unfold unhandled, hard_error, operational_error. cbv. intuition discriminate. }
  split; [exact Hrc |].
  apply (unhandled_status_returns_nothing Op_connect 0%nat (reply MOSQ_ERR_CONN_REFUSED [])
           [LUserdata 2] st_new _ eq_refl).
  - vm_compute. discriminate.
  - exact Hrc.
Defined.

(** [c:publish()] without a topic. *)
Lemma argument_errors_change_nothing_witness :
  lua_cfunction_call (ctx_publish 0%nat (reply 0 [])) [LUserdata 2] st_new
  = Raise (ErrType 2 "string") st_new /\
  ((hard_error (reply_rc (reply 0 []))
    /\ ErrType 2 "string" = ErrMsg (mosquitto_strerror (reply_rc (reply 0 []))))
   \/ st_new = st_new).
Proof.
  assert (Hr : lua_cfunction_call (ctx_publish 0%nat (reply 0 [])) [LUserdata 2] st_new
               = Raise (ErrType 2 "string") st_new) by (vm_compute; reflexivity).
  split; [exact Hr |].
  exact (argument_errors_change_nothing Op_publish 0%nat (reply 0 []) [LUserdata 2]
           st_new st_new (ErrType 2 "string") Hr).
Defined.

(** A message arrives while the message hook is bound. *)
Lemma message_hook_arguments_witness :
  ctx_on_message 2 sample_message st_hooks_looping
  = Done tt (set_hook_log
               ((6%nat, [LNumber (msg_mid sample_message); LString (msg_topic sample_message);
                         LString (msg_payload sample_message);
                         LNumber (msg_qos sample_message);
                         LBoolean (msg_retain sample_message)])
                :: hook_log st_hooks_looping) st_hooks_looping).
Proof.
  apply (message_hook_arguments 2 sample_message st_hooks_looping ctx_hooks_looping
           0%nat 6%nat).
  - apply st_hooks_looping_ctx.
  - reflexivity.
  - apply is_int_small. simpl. lia.
  - vm_compute. reflexivity.
Defined.

Lemma log_hook_arguments_witness :
  ctx_on_log 2 MOSQ_LOG_INFO "sending PINGREQ" st_hooks_looping
  = Done tt (set_hook_log ((8%nat, [LNumber MOSQ_LOG_INFO; LString "sending PINGREQ"])
                           :: hook_log st_hooks_looping) st_hooks_looping).
Proof.
  apply (log_hook_arguments 2 MOSQ_LOG_INFO "sending PINGREQ" st_hooks_looping
           ctx_hooks_looping 0%nat 8%nat).
  - apply st_hooks_looping_ctx.
  - reflexivity.
  - apply is_int_small. simpl. lia.
  - apply is_int_small. unfold MOSQ_LOG_INFO. lia.
  - vm_compute. reflexivity.
Defined.

Lemma publish_and_unsubscribe_hook_arguments_witness :
  (forall f, registry st_hooks_looping !! on_publish ctx_hooks_looping = Some (LFunction f) ->
     ctx_on_publish 2 5 st_hooks_looping
     = Done tt (set_hook_log ((f, [LNumber 5]) :: hook_log st_hooks_looping)
                  st_hooks_looping)) /\
  (forall f, registry st_hooks_looping !! on_unsubscribe ctx_hooks_looping
             = Some (LFunction f) ->
     ctx_on_unsubscribe 2 5 st_hooks_looping
     = Done tt (set_hook_log ((f, [LNumber 5]) :: hook_log st_hooks_looping)
                  st_hooks_looping)).
Proof.
  apply (publish_and_unsubscribe_hook_arguments 2 5 st_hooks_looping ctx_hooks_looping
           0%nat).
  - apply st_hooks_looping_ctx.
  - reflexivity.
Defined.

Lemma subscribe_hook_arguments_witness :
  ctx_on_subscribe 2 5 [0; 2] st_hooks_looping
  = Done tt
      (if (Z.of_nat (length [0; 2]) + 2 <=? LUAI_MAXCSTACK)
          && (Z.of_nat (length (stack st_hooks_looping)) + (Z.of_nat (length [0; 2]) + 2)
              <=? LUAI_MAXCSTACK)
       then set_hook_log ((12%nat, LNumber 5 :: map LNumber [0; 2])
                          :: hook_log st_hooks_looping) st_hooks_looping
       else st_hooks_looping).
Proof.
  apply (subscribe_hook_arguments 2 5 [0; 2] st_hooks_looping ctx_hooks_looping
           0%nat 12%nat).
  - apply st_hooks_looping_ctx.
  - reflexivity.
  - vm_compute. reflexivity.
Defined.

Lemma ctx_hook4_hooks_ok : hooks_ok st_hook4 ctx_hook4.
Proof.
  intros ev. destruct ev; (split; [apply is_int_small; simpl; lia | vm_compute; reflexivity]).
Qed.

(** [c:loop()] while the broker accepts the connection and then drops
    it: the connect hook f1 (which raises) and the disconnect hook f4 are
    called, in this order. *)
Lemma loop_delivers_events_witness :
  exists st',
    final_state
      (lua_cfunction_call (run_stepping Step_loop 0%nat (reply 0 [EvConnect 0; EvDisconnect 1]))
         [LUserdata 2] st_hook4) = Some st' /\
    hook_log st'
    = rev (flat_map (delivery (ctx_mosq ctx_hook4) ctx_hook4 (set_stack [LUserdata 2] st_hook4))
             (reply_events (reply 0 [EvConnect 0; EvDisconnect 1])))
      ++ hook_log st_hook4 /\
    udata st' = <[2%nat := set_ctx_L None ctx_hook4]> (udata st_hook4) /\
    registry st' = registry st_hook4 /\ stack st' = stack st_hook4.
Proof.
  apply (loop_delivers_events Step_loop 0%nat (reply 0 [EvConnect 0; EvDisconnect 1])
           st_hook4 2 ctx_hook4).
  - apply st_hook4_instance.
  - apply ctx_hook4_hooks_ok.
  - repeat constructor; apply is_int_small; lia.
Defined.

(** [c:callback_set("LOG_INFO", f6)]. *)
Lemma unknown_kind_releases_reference_witness :
  exists ref st1 st',
    luaL_ref (set_stack [LUserdata 2; LString "LOG_INFO"; LFunction 6] st_new) = Done ref st1 /\
    lua_cfunction_call (ctx_callback_set 0%nat (reply 0 []))
      [LUserdata 2; LString "LOG_INFO"; LFunction 6] st_new
    = Raise (ErrArg 2 "not a proper callback type") st' /\
    udata st' = udata st_new /\ codec_log st' = codec_log st_new /\
    (0 <= ref -> registry st' !! FREELIST_REF = Some (LNumber ref)).
Proof.
  apply (unknown_kind_releases_reference 0%nat (reply 0 []) st_new 2 ctx_new "LOG_INFO" 6).
  - apply st_new_instance.
  - reflexivity.
Defined.

(** [c:callback_set("ON_CONNECT", nil)]. *)
Lemma callback_set_requires_function_witness :
  lua_cfunction_call (ctx_callback_set 0%nat (reply 0 []))
    [LUserdata 2; LString "ON_CONNECT"; LNil] st_new
  = Raise (ErrArg 3 "expecting a callback function") st_new.
Proof.
  apply (callback_set_requires_function 0%nat (reply 0 []) st_new 2 ctx_new "ON_CONNECT"
           [LNil]).
  - apply st_new_instance.
  - discriminate.
Defined.

(** [c:callback_set("ON_MESSAGE", f6)]. *)
Lemma callback_set_binds_witness :
  exists ref st' c',
    lua_cfunction_call (ctx_callback_set 0%nat (reply 0 []))
      [LUserdata 2; LString "ON_MESSAGE"; LFunction 6] st_new
    = Done [LBoolean true] st' /\
    registry st' !! ref = Some (LFunction 6) /\
    is_instance st' 2 c' /\
    (forall ev, event_kind ev = MESSAGE -> hook_ref c' ev = ref) /\
    (forall ev, event_kind ev <> MESSAGE -> hook_ref c' ev = hook_ref ctx_new ev) /\
    ctx_L c' = ctx_L ctx_new /\ ctx_mosq c' = ctx_mosq ctx_new /\
    codec_log st' = Mosquitto_callback_set (ctx_mosq ctx_new) MESSAGE :: codec_log st_new /\
    (forall k, k <> ref -> k <> FREELIST_REF -> registry st' !! k = registry st_new !! k).
Proof.
  apply (callback_set_binds 0%nat (reply 0 []) st_new 2 ctx_new "ON_MESSAGE" 6 MESSAGE).
  - apply st_new_instance.
  - reflexivity.
  - discriminate.
Defined.

(** [c:callback_set("ON_MESSAGE", f6)], then [c:loop()] while a message
    arrives. *)
Lemma bound_hook_receives_event_witness :
  exists st1 st2,
    lua_cfunction_call (ctx_callback_set 0%nat (reply 0 []))
      [LUserdata 2; LString "ON_MESSAGE"; LFunction 6] st_new
    = Done [LBoolean true] st1 /\
    final_state
      (lua_cfunction_call (ctx_loop 0%nat (reply 0 [EvMessage sample_message]))
         [LUserdata 2] st1) = Some st2 /\
    hook_log st2 = (6%nat, hook_args (EvMessage sample_message)) :: hook_log st_new.
Proof.
  apply (bound_hook_receives_event 0%nat (reply 0 []) (reply 0 [EvMessage sample_message])
           st_new 2 ctx_new "ON_MESSAGE" 6 (EvMessage sample_message)).
  - apply st_new_instance.
  - intros k. reflexivity.
  - intros e. destruct e; apply is_int_small; simpl; lia.
  - vm_compute. reflexivity.
  - reflexivity.
  - exact I.
  - reflexivity.
  - reflexivity.
Defined.

(** [c:destroy()], twice. *)
Lemma destroy_invalidates_witness :
  exists st',
    lua_cfunction_call (ctx_destroy 0%nat (reply 0 [])) [LUserdata 2] st_new
    = Done [LBoolean true] st' /\
    codec_log st' = Mosquitto_destroy (ctx_mosq ctx_new) :: codec_log st_new /\
    (forall rest, not_instance st' (LUserdata 2 :: rest)) /\
    lua_cfunction_call (ctx_destroy 0%nat (reply 0 [])) [LUserdata 2] st'
    = Raise (ErrType 1 MOSQ_META_CTX) st'.
Proof.
  apply (destroy_invalidates 0%nat (reply 0 []) (reply 0 []) st_new 2 ctx_new 0%nat).
  - apply st_new_instance.
  - intros ev. destruct ev; simpl; lia.
  - reflexivity.
  - vm_compute. lia.
Defined.

(** [c:publish("a/b", "on", nil, true)]. *)
Lemma publish_arguments_witness :
  (exists st',
     final_state
       (lua_cfunction_call (ctx_publish 0%nat (reply 0 []))
          [LUserdata 2; LString "a/b"; or_nil LString (Some "on"); or_nil LNumber None;
           or_nil LBoolean (Some true)] st_new) = Some st' /\
     codec_log st'
     = Mosquitto_publish (ctx_mosq ctx_new) (c_str "a/b") (Some "on") (c_int (default 0 None))
         (default false (Some true)) :: codec_log st_new) /\
  (exists st',
     final_state (lua_cfunction_call (ctx_publish 0%nat (reply 0 []))
                    [LUserdata 2; LString "a/b"] st_new)
     = Some st' /\
     codec_log st' = Mosquitto_publish (ctx_mosq ctx_new) (c_str "a/b") None (c_int 0) false
                     :: codec_log st_new).
Proof.
  apply (publish_arguments 0%nat (reply 0 []) st_new 2 ctx_new "a/b" (Some "on") None
           (Some true)).
  apply st_new_instance.
Defined.

(** [c:will_set("a/b", "off", 1)]. *)
Lemma will_set_arguments_witness :
  (exists st',
     final_state
       (lua_cfunction_call (ctx_will_set 0%nat (reply 0 []))
          [LUserdata 2; LString "a/b"; or_nil LString (Some "off"); or_nil LNumber (Some 1);
           or_nil LBoolean None] st_new) = Some st' /\
     codec_log st'
     = Mosquitto_will_set (ctx_mosq ctx_new) (c_str "a/b") (Some "off")
         (c_int (default 0 (Some 1))) (default false None) :: codec_log st_new) /\
  (exists st',
     final_state (lua_cfunction_call (ctx_will_set 0%nat (reply 0 []))
                    [LUserdata 2; LString "a/b"] st_new)
     = Some st' /\
     codec_log st' = Mosquitto_will_set (ctx_mosq ctx_new) (c_str "a/b") None (c_int 0) false
                     :: codec_log st_new).
Proof.
  apply (will_set_arguments 0%nat (reply 0 []) st_new 2 ctx_new "a/b" (Some "off") (Some 1)
           None).
  apply st_new_instance.
Defined.

(** [c:connect(nil, 8883)]. *)
Lemma connect_arguments_witness :
  (exists st',
     final_state
       (lua_cfunction_call (ctx_connect 0%nat (reply 0 []))
          [LUserdata 2; or_nil LString None; or_nil LNumber (Some 8883); or_nil LNumber None]
          st_new) = Some st' /\
     codec_log st'
     = Mosquitto_connect (ctx_mosq ctx_new)
         (match @None string with Some x => c_str x | None => "localhost" end)
         (c_int (default 1883 (Some 8883))) (c_int (default 60 None)) :: codec_log st_new) /\
  (exists st',
     final_state (lua_cfunction_call (ctx_connect 0%nat (reply 0 [])) [LUserdata 2] st_new)
     = Some st' /\
     codec_log st'
     = Mosquitto_connect (ctx_mosq ctx_new) "localhost" (c_int 1883) (c_int 60)
       :: codec_log st_new).
Proof.
  apply (connect_arguments 0%nat (reply 0 []) st_new 2 ctx_new None (Some 8883) None).
  apply st_new_instance.
Defined.

(** [c:login_set("user", nil)], [c:login_set("user")] and
    [c:login_set()]. *)
Lemma login_set_arguments_witness :
  (exists st',
     final_state
       (lua_cfunction_call (ctx_login_set 0%nat (reply 0 []))
          [LUserdata 2; or_nil LString (Some "user"); or_nil LString None] st_new)
     = Some st' /\
     codec_log st'
     = Mosquitto_username_pw_set (ctx_mosq ctx_new) (c_str <$> Some "user") (c_str <$> None)
       :: codec_log st_new) /\
  lua_cfunction_call (ctx_login_set 0%nat (reply 0 []))
    [LUserdata 2; or_nil LString (Some "user")] st_new
  = Raise (ErrType 3 "string") st_new /\
  lua_cfunction_call (ctx_login_set 0%nat (reply 0 [])) [LUserdata 2] st_new
  = Raise (ErrType 2 "string") st_new.
Proof.
  apply (login_set_arguments 0%nat (reply 0 []) st_new 2 ctx_new (Some "user") None).
  apply st_new_instance.
Defined.

(** [c:reconnect_delay_set(2, nil, 0)]: the number 0 is no boolean. *)
Lemma reconnect_delay_arguments_witness :
  exists st',
    final_state
      (lua_cfunction_call (ctx_reconnect_delay_set 0%nat (reply 0 []))
         (LUserdata 2 :: or_nil LNumber (Some 2) :: or_nil LNumber None :: [LNumber 0]) st_new)
    = Some st' /\
    codec_log st'
    = Mosquitto_reconnect_delay_set (ctx_mosq ctx_new) (c_int (default 1 (Some 2)))
        (c_int (default 30 None))
        (boolean_arg (index2value (LUserdata 2 :: or_nil LNumber (Some 2)
                                   :: or_nil LNumber None :: [LNumber 0]) 4))
      :: codec_log st_new.
Proof.
  apply (reconnect_delay_arguments 0%nat (reply 0 []) st_new 2 ctx_new (Some 2) None
           [LNumber 0]).
  apply st_new_instance.
Defined.

(** [c:socket()] before the instance is connected, and [c:want_write()]. *)
Lemma socket_and_want_write_witness :
  lua_cfunction_call (ctx_socket 0%nat (fun _ => -1)) [LUserdata 2] st_new
  = Done [if (fun _ : option nat => -1) (ctx_mosq ctx_new) =? -1 then LBoolean false
          else LNumber ((fun _ : option nat => -1) (ctx_mosq ctx_new))] st_new /\
  lua_cfunction_call (ctx_want_write 0%nat (fun _ => true)) [LUserdata 2] st_new
  = Done [LBoolean ((fun _ : option nat => true) (ctx_mosq ctx_new))] st_new.
Proof.
  apply (socket_and_want_write 0%nat (fun _ => -1) (fun _ => true) st_new 2 ctx_new).
  apply st_new_instance.
Defined.

(** libmosquitto 1.6.9. *)
Lemma version_string_witness :
  lua_cfunction_call (mosq_version 0%nat (1, 6, 9)) [] st_new
  = Done [LString (sprintf_i 1 ++ "." ++ sprintf_i 6 ++ "." ++ sprintf_i 9)%string] st_new.
Proof.
  apply (version_string 0%nat 1 6 9 [] st_new); lia.
Defined.

(** [c:version_set("mqttv5")]. *)
Lemma version_token_selects_protocol_witness :
  exists st',
    final_state (lua_cfunction_call (ctx_version_set 0%nat (reply 0 []))
                   [LUserdata 2; LString "mqttv5"] st_new)
    = Some st' /\
    codec_log st'
    = Mosquitto_opts_set (ctx_mosq ctx_new) MOSQ_OPT_PROTOCOL_VERSION
        (if String.eqb (c_str "mqttv5") "mqttv311" then MQTT_PROTOCOL_V311
         else MQTT_PROTOCOL_V31)
      :: codec_log st_new.
Proof.
  apply (version_token_selects_protocol 0%nat (reply 0 []) st_new 2 ctx_new "mqttv5").
  apply st_new_instance.
Defined.

(** [mosquitto.new(nil, false)]. *)
Lemma new_rejects_anonymous_session_witness :
  lua_cfunction_call (mosq_new 0%nat (reply 0 [])) [LNil; LBoolean false] st_open
  = Raise (ErrArg 2 "if 'id' is nil then 'clean session' must be true") st_open.
Proof.
  apply (new_rejects_anonymous_session 0%nat (reply 0 []) [LNil; LBoolean false] st_open).
  - reflexivity.
  - reflexivity.
Defined.
